(** * Sports Roll Hub: registration limits, role scoping and the
      registration workflow

    A shallow embedding of the TypeScript sources
    ([lib/registration-limits.ts], the system-settings reader,
    [StudentRegistrationForm], the [Registrations] page, [lib/constants.ts],
    the labels of the header and of the dashboard, the data of
    [PDFDownloadButton], [utils/activityLogger.ts])
    and of the tables and constraints of the initial SQL migration, followed
    by the properties of the quota evaluator, of the registration workflow,
    of the registration ledger, and of the form and the page around them.

    The Supabase client is a state-and-exception monad over a world that
    holds the database and says which requests fail on the way. An [async]
    function is run to its end, request after request; a handler works on the
    state of its component and returns the new one, with the toasts it has
    shown. The database has the tables, the uniqueness and foreign-key
    constraints and the logging trigger of the migration. Row-level security
    and the [profiles] table are left out: the client acts for a principal the
    policies admit. React's scheduling ([useEffect]) is left out as well:
    [fetchData] is run from the state of one render. *)

From Stdlib Require Import ZArith String Ascii.
From stdpp Require Import base decidable option list sorting gmap strings.

Local Open Scope string_scope.
Local Open Scope Z_scope.
Local Open Scope list_scope.

(** ** Enumerations of the migration and of [lib/constants.ts] *)

(** [CREATE TYPE public.user_role AS ENUM (...)], [USER_ROLES]. *)
Inductive user_role :=
  | admin
  | first_year_coordinator
  | second_year_coordinator
  | third_year_coordinator
  | fourth_year_coordinator.

(** [CREATE TYPE public.academic_year AS ENUM ('first', ...)]. *)
Inductive academic_year := first | second | third | fourth.

(** [CREATE TYPE public.sport_type AS ENUM ('game', 'athletic')]. *)
Inductive sport_type := game | athletic.

(** [CREATE TYPE public.registration_status AS ENUM (...)]. *)
Inductive registration_status := pending | approved | rejected.

#[global] Instance user_role_eq_dec : EqDecision user_role.
Proof. solve_decision. Defined.
#[global] Instance academic_year_eq_dec : EqDecision academic_year.
Proof. solve_decision. Defined.
#[global] Instance sport_type_eq_dec : EqDecision sport_type.
Proof. solve_decision. Defined.
#[global] Instance registration_status_eq_dec : EqDecision registration_status.
Proof. solve_decision. Defined.

(** The labels of the enum values, as the client sees them. *)
Definition role_label (r : user_role) : string :=
  match r with
  | admin => "admin"
  | first_year_coordinator => "first_year_coordinator"
  | second_year_coordinator => "second_year_coordinator"
  | third_year_coordinator => "third_year_coordinator"
  | fourth_year_coordinator => "fourth_year_coordinator"
  end.

Definition year_label (y : academic_year) : string :=
  match y with
  | first => "first" | second => "second" | third => "third" | fourth => "fourth"
  end.

(** Reading a text as an [academic_year]: what the database does with the
    operand of [.eq('year', ...)]. *)
Definition parse_year (s : string) : option academic_year :=
  if String.eqb s "first" then Some first
  else if String.eqb s "second" then Some second
  else if String.eqb s "third" then Some third
  else if String.eqb s "fourth" then Some fourth
  else None.

(** ** JavaScript values read out of the JSONB column [settings.value] *)

(** The value of a property such as [enabled]; [JObject] stands for any
    object or array (always truthy, never [=== false]). *)
Inductive js_value :=
  | JUndefined
  | JNull
  | JBool (b : bool)
  | JNum (n : Z)
  | JStr (s : string)
  | JObject.

#[global] Instance js_value_eq_dec : EqDecision js_value.
Proof. solve_decision. Defined.

(** JavaScript truthiness, as used by [||] and by [? :]. *)
Definition truthy (v : js_value) : bool :=
  match v with
  | JUndefined | JNull => false
  | JBool b => b
  | JNum n => negb (n =? 0)
  | JStr s => negb (String.eqb s EmptyString)
  | JObject => true
  end.

(** [v !== false]. *)
Definition strict_ne_false (v : js_value) : bool :=
  match v with
  | JBool false => false
  | _ => true
  end.

(** A [settings.value] as the code reads it: it looks at two properties only.
    [sv_limit] is the property [limit], [None] when the property is missing
    or null (or when the value is no object), otherwise the integer stored
    there ([RegistrationLimits] declares it a [number]; the migration stores
    [{"limit": 2}]). The client holds it as a JavaScript number, which is
    exact for integers up to 2^53 in absolute value: the model is of such
    limits, a larger integer is rounded by the client and a limit that is a
    fraction or a text has no counterpart here. [sv_enabled] is the property
    [enabled], [JUndefined] when it is missing. *)
Record SettingValue := mkSettingValue {
  sv_limit : option Z;
  sv_enabled : js_value
}.

(** [x?.limit || 0] for [x] a settings value or undefined. *)
Definition limit_or_zero (x : option SettingValue) : Z :=
  match x ≫= sv_limit with
  | Some n => if n =? 0 then 0 else n
  | None => 0
  end.

(** [x?.enabled] for [x] a settings value or undefined. *)
Definition enabled_of (x : option SettingValue) : js_value :=
  match x with
  | Some v => sv_enabled v
  | None => JUndefined
  end.

(** ** Tables *)

(** UUIDs are opaque identifiers, compared for equality only. *)
Abbreviation uuid := nat (only parsing).

Record Student := mkStudent {
  st_id : uuid;
  st_name : string;
  st_roll_number : string;
  st_department : string;
  st_year : academic_year
}.

(** The columns of [sports] the modelled code reads. *)
Record Sport := mkSport {
  sp_id : uuid;
  sp_name : string;
  sp_type : sport_type
}.

Record Registration := mkRegistration {
  reg_id : uuid;
  reg_student_id : uuid;
  reg_sport_id : uuid;
  reg_registered_by : option uuid;
  reg_status : registration_status;
  reg_created_at : nat
}.

Record ActivityLog := mkActivityLog {
  log_user_id : option uuid;
  log_action : string
}.

#[global] Instance Student_eq_dec : EqDecision Student.
Proof. solve_decision. Defined.
#[global] Instance Sport_eq_dec : EqDecision Sport.
Proof. solve_decision. Defined.
#[global] Instance Registration_eq_dec : EqDecision Registration.
Proof. solve_decision. Defined.

(** The database. [settings.key] is [UNIQUE NOT NULL], so the table is a
    finite map from keys to values; the other tables are lists of rows.
    [next_uuid] stands for [gen_random_uuid()]. *)
Record Database := mkDatabase {
  students : list Student;
  sports : list Sport;
  registrations : list Registration;
  settings : gmap string SettingValue;
  activity_logs : list ActivityLog;
  next_uuid : uuid
}.

(** ** Statements and their responses *)

Inductive PgError :=
  | NetworkError          (* the request did not reach the database *)
  | UniqueViolation       (* 23505 *)
  | ForeignKeyViolation   (* 23503 *)
  | InvalidTextRepresentation (* 22P02 *)
  | NoRows.               (* PGRST116, from [.single()] *)

(** What [await supabase.from(...)...] resolves to: [{ data, error }]. *)
Inductive Response (A : Type) :=
  | RData (data : A)
  | RError (error : PgError).
Arguments RData {A} data.
Arguments RError {A} error.

(** A statement runs at a time [now] on a database. *)
Definition Statement (A : Type) := nat → Database → Response A * Database.

Definition query {A} (f : Database → A) : Statement A :=
  λ _ d, (RData (f d), d).

(** [.from('settings').select('key, value').in('key', keys)] *)
Definition select_settings_in (keys : list string)
  : Statement (list (string * SettingValue)) :=
  query (λ d, filter (λ r, r.1 ∈ keys) (map_to_list (settings d))).

(** [.from('settings').select('value').eq('key', key).single()] *)
Definition select_setting_single (key : string) : Statement SettingValue :=
  λ _ d, match settings d !! key with
         | Some v => (RData v, d)
         | None => (RError NoRows, d)
         end.

(** [.from('students').select(...).in('id', ids)] *)
Definition select_students_in (ids : list uuid) : Statement (list Student) :=
  query (λ d, filter (λ s, st_id s ∈ ids) (students d)).

(** [.order('name')] *)
Definition name_le (a b : Student) : Prop :=
  String.leb (st_name a) (st_name b) = true.

#[global] Instance name_le_dec a b : Decision (name_le a b).
Proof. unfold name_le. apply _. Defined.

(** [.from('students').select('*').eq('year', year).order('name')] *)
Definition select_students_by_year (year : string) : Statement (list Student) :=
  λ _ d, match parse_year year with
         | Some y =>
             (RData (merge_sort name_le (filter (λ s, st_year s = y) (students d))), d)
         | None => (RError InvalidTextRepresentation, d)
         end.

(** The row of [sports] a registration references. *)
Definition sport_of (d : Database) (r : Registration) : option Sport :=
  List.find (λ sp, Nat.eqb (sp_id sp) (reg_sport_id r)) (sports d).

(** A row of
    [.from('registrations').select('student_id, sport:sports!inner(name, type)')]. *)
Record QuotaRow := mkQuotaRow {
  qr_student_id : uuid;
  qr_sport_name : string;
  qr_sport_type : sport_type
}.

Definition quota_row (d : Database) (r : Registration) : option QuotaRow :=
  sp ← sport_of d r;
  Some (mkQuotaRow (reg_student_id r) (sp_name sp) (sp_type sp)).

(** [.in('student_id', ids).in('status', ['pending', 'approved'])] over the
    inner join with [sports]. *)
Definition select_quota_rows (ids : list uuid) : Statement (list QuotaRow) :=
  query (λ d,
    omap (quota_row d)
      (filter (λ r, reg_student_id r ∈ ids ∧ reg_status r ∈ [pending; approved])
         (registrations d))).

(** *** Writes to [registrations]

    [UNIQUE(student_id, sport_id)] is checked as each row goes in, the
    foreign keys to [students] and [sports] when the statement ends; a
    violation aborts the whole statement. The trigger
    [log_registration_activity] adds a row to [activity_logs] for every row
    inserted, updated or deleted. *)

Record NewRegistration := mkNewRegistration {
  nr_student_id : uuid;
  nr_sport_id : uuid;
  nr_registered_by : option uuid;
  nr_status : registration_status
}.

(** The pair the uniqueness constraint is on. *)
Definition pair_of (r : Registration) : uuid * uuid :=
  (reg_student_id r, reg_sport_id r).

Definition nr_pair (row : NewRegistration) : uuid * uuid :=
  (nr_student_id row, nr_sport_id row).

Definition add_row (now : nat) (row : NewRegistration) (d : Database) : Database :=
  {| students := students d;
     sports := sports d;
     registrations :=
       registrations d ++
       [ {| reg_id := next_uuid d;
            reg_student_id := nr_student_id row;
            reg_sport_id := nr_sport_id row;
            reg_registered_by := nr_registered_by row;
            reg_status := nr_status row;
            reg_created_at := now |} ];
     settings := settings d;
     activity_logs :=
       activity_logs d ++ [mkActivityLog (nr_registered_by row) "registration_created"];
     next_uuid := S (next_uuid d) |}.

Fixpoint insert_rows (now : nat) (rows : list NewRegistration) (d : Database)
  : option Database :=
  match rows with
  | [] => Some d
  | row :: rest =>
      if decide (nr_pair row ∈ map pair_of (registrations d)) then None
      else insert_rows now rest (add_row now row d)
  end.

Definition references_ok (d : Database) (row : NewRegistration) : Prop :=
  nr_student_id row ∈ map st_id (students d) ∧
  nr_sport_id row ∈ map sp_id (sports d).

(** [.from('registrations').insert(rows)] *)
Definition insert_registrations (rows : list NewRegistration) : Statement unit :=
  λ now d,
    match insert_rows now rows d with
    | None => (RError UniqueViolation, d)
    | Some d' =>
        if decide (Forall (references_ok d) rows) then (RData (), d')
        else (RError ForeignKeyViolation, d)
    end.

Definition set_status (s : registration_status) (r : Registration) : Registration :=
  {| reg_id := reg_id r;
     reg_student_id := reg_student_id r;
     reg_sport_id := reg_sport_id r;
     reg_registered_by := reg_registered_by r;
     reg_status := s;
     reg_created_at := reg_created_at r |}.

(** [.from('registrations').update({ status: newStatus }).eq('id', rid)] *)
Definition update_registration_status (rid : uuid) (s : registration_status)
  : Statement unit :=
  λ _ d,
    (RData (),
     {| students := students d;
        sports := sports d;
        registrations :=
          map (λ r, if decide (reg_id r = rid) then set_status s r else r)
            (registrations d);
        settings := settings d;
        activity_logs :=
          activity_logs d ++
          map (λ r, mkActivityLog (reg_registered_by r) "registration_updated")
            (filter (λ r, reg_id r = rid) (registrations d));
        next_uuid := next_uuid d |}).

(** [.from('registrations').delete().eq('id', rid)] *)
Definition delete_registration (rid : uuid) : Statement unit :=
  λ _ d,
    (RData (),
     {| students := students d;
        sports := sports d;
        registrations := filter (λ r, reg_id r ≠ rid) (registrations d);
        settings := settings d;
        activity_logs :=
          activity_logs d ++
          map (λ _, mkActivityLog None "registration_deleted")
            (filter (λ r, reg_id r = rid) (registrations d));
        next_uuid := next_uuid d |}).

(** [.from('activity_logs').insert({ user_id, action, details })]. The foreign
    key of [user_id] to [profiles], a table that is left out, is not checked:
    the insert is the one of a user who has a profile, as the requests of the
    form and of the page are; for any other user the database refuses it. *)
Definition insert_activity_log (user : option uuid) (action : string)
  : Statement unit :=
  λ _ d,
    (RData (),
     {| students := students d;
        sports := sports d;
        registrations := registrations d;
        settings := settings d;
        activity_logs := activity_logs d ++ [mkActivityLog user action];
        next_uuid := next_uuid d |}).

(** [.from('registrations').select('student_id, sport_id, status').eq('sport_id', sid)] *)
Record ExistingRegistration := mkExistingRegistration {
  er_student_id : uuid;
  er_sport_id : uuid;
  er_status : registration_status
}.

Definition select_registrations_of_sport (sid : uuid)
  : Statement (list ExistingRegistration) :=
  query (λ d,
    map (λ r, mkExistingRegistration (reg_student_id r) (reg_sport_id r) (reg_status r))
      (filter (λ r, reg_sport_id r = sid) (registrations d))).

(** A row of the [Registrations] page: a registration with its student and
    its sport (both joins are [!inner]). *)
Record RegistrationView := mkRegistrationView {
  rv_id : uuid;
  rv_status : registration_status;
  rv_created_at : nat;
  rv_student : Student;
  rv_sport : Sport
}.

Definition student_of (d : Database) (r : Registration) : option Student :=
  List.find (λ s, Nat.eqb (st_id s) (reg_student_id r)) (students d).

Definition registration_view (d : Database) (r : Registration)
  : option RegistrationView :=
  s ← student_of d r;
  sp ← sport_of d r;
  Some (mkRegistrationView (reg_id r) (reg_status r) (reg_created_at r) s sp).

(** [.order('created_at', { ascending: false })]. The database leaves the
    order of rows with the same [created_at] open: the order in which the
    [merge_sort] of the query below returns them is one of those the
    database may return. *)
Definition newer_first (a b : RegistrationView) : Prop :=
  (rv_created_at b ≤ rv_created_at a)%nat.

#[global] Instance newer_first_dec a b : Decision (newer_first a b).
Proof. unfold newer_first. apply _. Defined.

(** The query of the [Registrations] page; [year_filter] is the operand of
    [query.eq('student.year', year)] when the filter is applied. *)
Definition select_registration_views (year_filter : option string)
  : Statement (list RegistrationView) :=
  λ _ d,
    let rows := omap (registration_view d) (registrations d) in
    match year_filter with
    | None => (RData (merge_sort newer_first rows), d)
    | Some year =>
        match parse_year year with
        | Some y =>
            (RData (merge_sort newer_first
                      (filter (λ v, st_year (rv_student v) = y) rows)), d)
        | None => (RError InvalidTextRepresentation, d)
        end
    end.

(** ** The client: requests that may fail, and the code's exceptions *)

(** The world of a run: the database, which requests fail on the way
    ([faults n] for the [n]-th request), and how many were issued. *)
Record World := mkWorld {
  db : Database;
  faults : nat → bool;
  issued : nat
}.

Inductive Outcome (A : Type) :=
  | Ok (a : A)
  | Throw (e : PgError).
Arguments Ok {A} a.
Arguments Throw {A} e.

Definition M (A : Type) := World → Outcome A * World.

Definition ret {A} (a : A) : M A := λ w, (Ok a, w).
Definition throw {A} (e : PgError) : M A := λ w, (Throw e, w).
Definition bind {A B} (c : M A) (k : A → M B) : M B :=
  λ w, match c w with
       | (Ok a, w') => k a w'
       | (Throw e, w') => (Throw e, w')
       end.
(** [try { c } catch (error) { h }] *)
Definition try_catch {A} (c : M A) (h : PgError → M A) : M A :=
  λ w, match c w with
       | (Ok a, w') => (Ok a, w')
       | (Throw e, w') => h e w'
       end.

Notation "'let*' x ':=' c 'in' k" := (bind c (λ x, k))
  (at level 10, x name, c at level 100, k at level 200).

(** [await supabase...]: one request. *)
Definition request {A} (q : Statement A) : M (Response A) :=
  λ w,
    if faults w (issued w)
    then (Ok (RError NetworkError), mkWorld (db w) (faults w) (S (issued w)))
    else let '(r, d) := q (issued w) (db w) in
         (Ok r, mkWorld d (faults w) (S (issued w))).

(** [if (error) throw error;] and then the use of [data]. *)
Definition checked {A} (c : M (Response A)) : M A :=
  let* r := c in
  match r with
  | RData a => ret a
  | RError e => throw e
  end.

(** ** [lib/registration-limits.ts] *)

Record RegistrationLimits := mkRegistrationLimits {
  maxGameRegistrations : Z;
  maxAthleticRegistrations : Z
}.

Record StudentRegistrationInfo := mkStudentRegistrationInfo {
  id : uuid;
  name : string;
  roll_number : string;
  department : string;
  year : academic_year;
  currentCount : Z;
  limit : Z;
  info_registrations : list (string * sport_type)
}.

(** [data.reduce((acc, setting) => { acc[setting.key] = setting.value; ... }, {})] *)
Definition settingsMap_of (data : list (string * SettingValue))
  : gmap string SettingValue :=
  foldl (λ acc setting, <[setting.1 := setting.2]> acc) ∅ data.

Definition fetchRegistrationLimits : M RegistrationLimits :=
  let* data := checked (request (select_settings_in
            ["max_game_registrations"; "max_athletic_registrations"])) in
  let settingsMap := settingsMap_of data in
  ret {| maxGameRegistrations :=
           limit_or_zero (settingsMap !! "max_game_registrations");
         maxAthleticRegistrations :=
           limit_or_zero (settingsMap !! "max_athletic_registrations") |}.

Definition getStudentRegistrationInfo
    (studentIds : list uuid) (sportType : sport_type)
  : M (list StudentRegistrationInfo) :=
  if Nat.eqb (length studentIds) 0 then ret [] else
  let* limits := fetchRegistrationLimits in
  let limit := match sportType with
               | game => maxGameRegistrations limits
               | athletic => maxAthleticRegistrations limits
               end in
  let* students := checked (request (select_students_in studentIds)) in
  let* registrations := checked (request (select_quota_rows studentIds)) in
  ret (map (λ student,
         let studentRegistrations :=
           filter (λ reg, qr_student_id reg = st_id student) registrations in
         let relevantRegistrations :=
           filter (λ reg, qr_sport_type reg = sportType) studentRegistrations in
         {| id := st_id student;
            name := st_name student;
            roll_number := st_roll_number student;
            department := st_department student;
            year := st_year student;
            currentCount := Z.of_nat (length relevantRegistrations);
            limit := limit;
            info_registrations :=
              map (λ reg, (qr_sport_name reg, qr_sport_type reg))
                relevantRegistrations |})
       students).

Record LimitCheck := mkLimitCheck {
  studentsAtLimit : list StudentRegistrationInfo;
  studentsOverLimit : list StudentRegistrationInfo;
  canRegister : bool
}.

Definition checkRegistrationLimits
    (students : list StudentRegistrationInfo) (sportType : sport_type)
  : LimitCheck :=
  let studentsAtLimit := filter (λ s, limit s ≤ currentCount s) students in
  let studentsOverLimit := filter (λ s, limit s < currentCount s) students in
  {| studentsAtLimit := studentsAtLimit;
     studentsOverLimit := studentsOverLimit;
     canRegister := Nat.eqb (length studentsAtLimit) 0 |}.

Definition getStudentsExceedingLimits
    (students : list StudentRegistrationInfo) (sportType : sport_type)
  : list StudentRegistrationInfo :=
  filter (λ s, limit s ≤ currentCount s) students.

(** ** The system settings reader *)

Record SystemSettings := mkSystemSettings {
  signUpEnabled : bool
}.

Definition fetchSystemSettings : M SystemSettings :=
  try_catch
    (let* data := checked (request (select_settings_in ["sign_up_enabled"])) in
     let settingsMap := settingsMap_of data in
     ret {| signUpEnabled :=
              strict_ne_false (enabled_of (settingsMap !! "sign_up_enabled")) |})
    (λ error, ret {| signUpEnabled := true |}).

(** ** JavaScript strings *)

(** [s.replace(pat, rep)] for a string pattern: the first occurrence only. *)
Fixpoint replace (s pat rep : string) : string :=
  if String.prefix pat s
  then rep +:+ String.substring (String.length pat)
                 (String.length s - String.length pat) s
  else match s with
       | EmptyString => EmptyString
       | String c s' => String c (replace s' pat rep)
       end.

(** ** [StudentRegistrationForm] *)

Record Profile := mkProfile {
  profile_id : uuid;
  role : user_role
}.

Inductive Toast :=
  | NoStudentsSelected
  | LimitCheckFailed
  | RegistrationSucceeded (student_count : nat) (auto_approved : bool)
  | RegistrationFailed
  | LoadFailed
  | StatusUpdated (s : registration_status)
  | StatusUpdateFailed
  | RegistrationRemoved
  | RemoveFailed.

Record Counts := mkCounts {
  games : Z;
  athletics : Z
}.

(** The state of the form ([useState]), with the toasts it has shown. *)
Record FormState := mkFormState {
  form_students : list Student;
  selectedStudents : list uuid;
  existingRegistrations : list ExistingRegistration;
  registrationLimits : RegistrationLimits;
  studentRegistrationCounts : gmap nat Counts;
  registering : bool;
  showWarningDialog : bool;
  studentsExceedingLimits : list StudentRegistrationInfo;
  form_toasts : list Toast
}.

Definition setStudents (v : list Student) (st : FormState) : FormState :=
  mkFormState v (selectedStudents st) (existingRegistrations st)
    (registrationLimits st) (studentRegistrationCounts st) (registering st)
    (showWarningDialog st) (studentsExceedingLimits st) (form_toasts st).
Definition setSelectedStudents (v : list uuid) (st : FormState) : FormState :=
  mkFormState (form_students st) v (existingRegistrations st)
    (registrationLimits st) (studentRegistrationCounts st) (registering st)
    (showWarningDialog st) (studentsExceedingLimits st) (form_toasts st).
Definition setExistingRegistrations (v : list ExistingRegistration)
    (st : FormState) : FormState :=
  mkFormState (form_students st) (selectedStudents st) v
    (registrationLimits st) (studentRegistrationCounts st) (registering st)
    (showWarningDialog st) (studentsExceedingLimits st) (form_toasts st).
Definition setRegistrationLimits (v : RegistrationLimits) (st : FormState)
  : FormState :=
  mkFormState (form_students st) (selectedStudents st) (existingRegistrations st)
    v (studentRegistrationCounts st) (registering st)
    (showWarningDialog st) (studentsExceedingLimits st) (form_toasts st).
Definition setStudentRegistrationCounts (v : gmap nat Counts) (st : FormState)
  : FormState :=
  mkFormState (form_students st) (selectedStudents st) (existingRegistrations st)
    (registrationLimits st) v (registering st)
    (showWarningDialog st) (studentsExceedingLimits st) (form_toasts st).
Definition setRegistering (v : bool) (st : FormState) : FormState :=
  mkFormState (form_students st) (selectedStudents st) (existingRegistrations st)
    (registrationLimits st) (studentRegistrationCounts st) v
    (showWarningDialog st) (studentsExceedingLimits st) (form_toasts st).
Definition setShowWarningDialog (v : bool) (st : FormState) : FormState :=
  mkFormState (form_students st) (selectedStudents st) (existingRegistrations st)
    (registrationLimits st) (studentRegistrationCounts st) (registering st)
    v (studentsExceedingLimits st) (form_toasts st).
Definition setStudentsExceedingLimits (v : list StudentRegistrationInfo)
    (st : FormState) : FormState :=
  mkFormState (form_students st) (selectedStudents st) (existingRegistrations st)
    (registrationLimits st) (studentRegistrationCounts st) (registering st)
    (showWarningDialog st) v (form_toasts st).
Definition toast (t : Toast) (st : FormState) : FormState :=
  mkFormState (form_students st) (selectedStudents st) (existingRegistrations st)
    (registrationLimits st) (studentRegistrationCounts st) (registering st)
    (showWarningDialog st) (studentsExceedingLimits st) (form_toasts st ++ [t]).

(** [profile?.role.replace('_coordinator', '').replace('_year', '')]; without
    a profile the operand of [.eq] is undefined. *)
Definition coordinator_year_text (profile : option Profile) : string :=
  match profile with
  | Some p =>
      replace (replace (role_label (role p)) "_coordinator" EmptyString)
        "_year" EmptyString
  | None => "undefined"
  end.

(** [profile?.role === USER_ROLES.ADMIN] *)
Definition is_admin (profile : option Profile) : bool :=
  match profile with
  | Some p => bool_decide (role p = admin)
  | None => false
  end.

Definition fetchStudents (profile : option Profile) (st : FormState)
  : M FormState :=
  if is_admin profile then ret st else
  let year := coordinator_year_text profile in
  let* data := checked (request (select_students_by_year year)) in
  ret (setStudents data st).

Definition fetchExistingRegistrations (sport : Sport) (st : FormState)
  : M FormState :=
  let* data := checked (request (select_registrations_of_sport (sp_id sport))) in
  ret (setExistingRegistrations data st).

(** The form's own [fetchRegistrationLimits]. *)
Definition form_fetchRegistrationLimits (st : FormState) : M FormState :=
  let* data := checked (request (select_settings_in
                 ["max_game_registrations"; "max_athletic_registrations"])) in
  let settingsMap := settingsMap_of data in
  ret (setRegistrationLimits
         {| maxGameRegistrations :=
              limit_or_zero (settingsMap !! "max_game_registrations");
            maxAthleticRegistrations :=
              limit_or_zero (settingsMap !! "max_athletic_registrations") |}
         st).

(** The two loops that fill [counts]: one entry of zeros per id, then one
    increment per row. *)
Definition count_rows (ids : list uuid) (data : list QuotaRow) : gmap nat Counts :=
  let counts := foldl (λ counts i, <[i := mkCounts 0 0]> counts) ∅ ids in
  foldl (λ counts reg,
           match counts !! qr_student_id reg with
           | Some c =>
               if decide (qr_sport_type reg = game)
               then <[qr_student_id reg := mkCounts (games c + 1) (athletics c)]> counts
               else <[qr_student_id reg := mkCounts (games c) (athletics c + 1)]> counts
           | None => counts
           end)
        counts data.

Definition fetchStudentRegistrationCounts (st : FormState) : M FormState :=
  if Nat.eqb (length (form_students st)) 0 then ret st else
  let studentIds := map st_id (form_students st) in
  let* data := checked (request (select_quota_rows studentIds)) in
  ret (setStudentRegistrationCounts (count_rows studentIds data) st).

Definition handleStudentToggle (studentId : uuid) (st : FormState) : FormState :=
  setSelectedStudents
    (if decide (studentId ∈ selectedStudents st)
     then filter (λ i, i ≠ studentId) (selectedStudents st)
     else selectedStudents st ++ [studentId])
    st.

Definition isStudentAlreadyRegistered (st : FormState) (studentId : uuid) : bool :=
  existsb (λ reg, Nat.eqb (er_student_id reg) studentId) (existingRegistrations st).

Definition canStudentRegister (sport : Sport) (st : FormState) (studentId : uuid)
  : bool :=
  if isStudentAlreadyRegistered st studentId then false else
  match studentRegistrationCounts st !! studentId with
  | None => true
  | Some counts =>
      let limit := match sp_type sport with
                   | game => maxGameRegistrations (registrationLimits st)
                   | athletic => maxAthleticRegistrations (registrationLimits st)
                   end in
      let currentCount := match sp_type sport with
                          | game => games counts
                          | athletic => athletics counts
                          end in
      currentCount <? limit
  end.

(** [a || b] *)
Definition js_or (a b : js_value) : js_value := if truthy a then a else b.

(** [autoApproveSetting?.value?.enabled] on the [data] of the response. *)
Definition data_enabled (r : Response SettingValue) : js_value :=
  match r with
  | RData v => sv_enabled v
  | RError _ => JUndefined
  end.

Definition performRegistration (sport : Sport) (profile : option Profile)
    (st : FormState) : M FormState :=
  let* st' :=
    try_catch
      (let* autoApproveSetting :=
         request (select_setting_single "auto_approve_registrations") in
       let autoApprove := js_or (data_enabled autoApproveSetting) (JBool false) in
       let initialStatus := if truthy autoApprove then approved else pending in
       let registrations :=
         map (λ studentId,
                {| nr_student_id := studentId;
                   nr_sport_id := sp_id sport;
                   nr_registered_by := profile_id <$> profile;
                   nr_status := initialStatus |})
             (selectedStudents st) in
       let* _ := checked (request (insert_registrations registrations)) in
       let* _ := request (insert_activity_log (profile_id <$> profile)
                            "students_registered") in
       ret (toast (RegistrationSucceeded (length (selectedStudents st))
                     (truthy autoApprove))
                  (setRegistering true st)))
      (λ error, ret (toast RegistrationFailed (setRegistering true st))) in
  ret (setRegistering false st').

Definition handleSubmit (sport : Sport) (profile : option Profile)
    (st : FormState) : M FormState :=
  if Nat.eqb (length (selectedStudents st)) 0
  then ret (toast NoStudentsSelected st) else
  let* returned :=
    try_catch
      (let* studentInfo :=
         getStudentRegistrationInfo (selectedStudents st) (sp_type sport) in
       let studentsExceeding :=
         filter (λ s, limit s ≤ currentCount s) studentInfo in
       if Nat.ltb 0 (length studentsExceeding)
       then ret (Some (setShowWarningDialog true
                         (setStudentsExceedingLimits studentsExceeding st)))
       else ret None)
      (λ error, ret (Some (toast LimitCheckFailed st))) in
  match returned with
  | Some st' => ret st'
  | None => performRegistration sport profile st
  end.

Definition handleWarningConfirm (sport : Sport) (profile : option Profile)
    (st : FormState) : M FormState :=
  performRegistration sport profile (setShowWarningDialog false st).

Definition handleWarningCancel (st : FormState) : FormState :=
  setStudentsExceedingLimits [] (setShowWarningDialog false st).

(** ** The [Registrations] page *)

Record PageState := mkPageState {
  page_registrations : list RegistrationView;
  page_registrationLimits : RegistrationLimits;
  page_studentRegistrationCounts : gmap nat Counts;
  deletingId : option uuid;
  page_toasts : list Toast
}.

Definition setRegistrations (v : list RegistrationView) (ps : PageState) : PageState :=
  mkPageState v (page_registrationLimits ps) (page_studentRegistrationCounts ps)
    (deletingId ps) (page_toasts ps).
Definition page_setRegistrationLimits (v : RegistrationLimits) (ps : PageState)
  : PageState :=
  mkPageState (page_registrations ps) v (page_studentRegistrationCounts ps)
    (deletingId ps) (page_toasts ps).
Definition page_setStudentRegistrationCounts (v : gmap nat Counts)
    (ps : PageState) : PageState :=
  mkPageState (page_registrations ps) (page_registrationLimits ps) v
    (deletingId ps) (page_toasts ps).
Definition setDeletingId (v : option uuid) (ps : PageState) : PageState :=
  mkPageState (page_registrations ps) (page_registrationLimits ps)
    (page_studentRegistrationCounts ps) v (page_toasts ps).
Definition page_toast (t : Toast) (ps : PageState) : PageState :=
  mkPageState (page_registrations ps) (page_registrationLimits ps)
    (page_studentRegistrationCounts ps) (deletingId ps) (page_toasts ps ++ [t]).

Definition fetchRegistrationLimitsData (ps : PageState) : M PageState :=
  try_catch
    (let* limits := fetchRegistrationLimits in
     ret (page_setRegistrationLimits limits ps))
    (λ error, ret ps).

(** [[...new Set(registrations.map(r => r.student.id))]] *)
Definition unique_student_ids (registrations : list RegistrationView) : list uuid :=
  remove_dups (map (λ r, st_id (rv_student r)) registrations).

Definition page_fetchStudentRegistrationCounts
    (registrations : list RegistrationView) (ps : PageState) : M PageState :=
  try_catch
    (let studentIds := unique_student_ids registrations in
     let* data := checked (request (select_quota_rows studentIds)) in
     ret (page_setStudentRegistrationCounts (count_rows studentIds data) ps))
    (λ error, ret ps).

Definition fetchRegistrations (profile : option Profile) (ps : PageState)
  : M PageState :=
  try_catch
    (let year_filter :=
       if negb (is_admin profile) then Some (coordinator_year_text profile)
       else None in
     let* data := checked (request (select_registration_views year_filter)) in
     let ps := setRegistrations data ps in
     if is_admin profile then
       let* ps := fetchRegistrationLimitsData ps in
       page_fetchStudentRegistrationCounts data ps
     else ret ps)
    (λ error, ret (page_toast LoadFailed ps)).

(** The type of [newStatus]: ['approved' | 'rejected']. *)
Inductive NewStatus := to_approved | to_rejected.

Definition status_of (n : NewStatus) : registration_status :=
  match n with
  | to_approved => approved
  | to_rejected => rejected
  end.

Definition updateRegistrationStatus (profile : option Profile)
    (registrationId : uuid) (newStatus : NewStatus) (ps : PageState)
  : M PageState :=
  try_catch
    (let* _ := checked (request (update_registration_status registrationId
                                   (status_of newStatus))) in
     let* _ := request (insert_activity_log (profile_id <$> profile)
                          "registration_status_updated") in
     fetchRegistrations profile (page_toast (StatusUpdated (status_of newStatus)) ps))
    (λ error, ret (page_toast StatusUpdateFailed ps)).

(** [confirmed] is the answer to the [confirm(...)] dialog. *)
Definition deleteRegistration (profile : option Profile) (registrationId : uuid)
    (confirmed : bool) (ps : PageState) : M PageState :=
  if negb confirmed then ret ps else
  let* ps' :=
    try_catch
      (let ps := setDeletingId (Some registrationId) ps in
       let* _ := checked (request (delete_registration registrationId)) in
       fetchRegistrations profile (page_toast RegistrationRemoved ps))
      (λ error, ret (page_toast RemoveFailed (setDeletingId (Some registrationId) ps))) in
  ret (setDeletingId None ps').

(** The condition under which the page renders the Approve and Reject
    buttons of a row:
    [profile?.role === USER_ROLES.ADMIN && registration.status === 'pending']. *)
Definition approve_reject_offered (profile : option Profile)
    (registration : RegistrationView) : bool :=
  is_admin profile && bool_decide (rv_status registration = pending).

(** What a user of the page can do: a click on a button of a row the page
    shows. *)
Inductive PageEvent :=
  | ClickApprove (row : RegistrationView)
  | ClickReject (row : RegistrationView)
  | ClickDelete (row : RegistrationView) (confirmed : bool)
  | Reload.

Definition event_enabled (profile : option Profile) (ps : PageState)
    (ev : PageEvent) : Prop :=
  match ev with
  | ClickApprove row | ClickReject row =>
      row ∈ page_registrations ps ∧ approve_reject_offered profile row = true
  | ClickDelete row _ => row ∈ page_registrations ps
  | Reload => True
  end.

Definition handle_event (profile : option Profile) (ev : PageEvent)
    (ps : PageState) : M PageState :=
  match ev with
  | ClickApprove row => updateRegistrationStatus profile (rv_id row) to_approved ps
  | ClickReject row => updateRegistrationStatus profile (rv_id row) to_rejected ps
  | ClickDelete row confirmed => deleteRegistration profile (rv_id row) confirmed ps
  | Reload => fetchRegistrations profile ps
  end.

(** ** The notions the properties are stated with *)

(** The settings key of a category's limit. *)
Definition limit_key (sportType : sport_type) : string :=
  match sportType with
  | game => "max_game_registrations"
  | athletic => "max_athletic_registrations"
  end.

(** The property [limit] stored for a category, when there is one. *)
Definition stored_limit (d : Database) (sportType : sport_type) : option Z :=
  settings d !! limit_key sportType ≫= sv_limit.

(** The category of the sport a registration is for. *)
Definition category_of (d : Database) (r : Registration) : option sport_type :=
  sp_type <$> sport_of d r.

(** A registration of the student, in the category, pending or approved. *)
Definition counts_toward_quota (d : Database) (sid : uuid) (cat : sport_type)
    (r : Registration) : Prop :=
  reg_student_id r = sid ∧
  (reg_status r = pending ∨ reg_status r = approved) ∧
  category_of d r = Some cat.

#[global] Instance counts_toward_quota_dec d sid cat r :
  Decision (counts_toward_quota d sid cat r).
Proof. unfold counts_toward_quota. apply _. Defined.

Definition quota_count (d : Database) (sid : uuid) (cat : sport_type) : nat :=
  length (filter (counts_toward_quota d sid cat) (registrations d)).

(** Every request of the run is answered. *)
Definition reliable (w : World) : Prop := ∀ n, faults w n = false.

(** ** The quota evaluator *)

(** What [getStudentRegistrationInfo] builds for one student. *)
Definition info_matches (d : Database) (cat : sport_type) (student : Student)
    (info : StudentRegistrationInfo) : Prop :=
  id info = st_id student ∧
  limit info = limit_or_zero (settings d !! limit_key cat) ∧
  currentCount info = Z.of_nat (quota_count d (st_id student) cat).

(** ** Role scoping *)

(** The row-level policy of the migration,
    "Coordinators can view students of their year". *)
Definition coordinator_policy (r : user_role) (y : academic_year) : bool :=
  (bool_decide (r = first_year_coordinator) && bool_decide (y = first)) ||
  (bool_decide (r = second_year_coordinator) && bool_decide (y = second)) ||
  (bool_decide (r = third_year_coordinator) && bool_decide (y = third)) ||
  (bool_decide (r = fourth_year_coordinator) && bool_decide (y = fourth)).

(** Together with "Admin can manage all students". *)
Definition may_view_student (r : user_role) (y : academic_year) : bool :=
  bool_decide (r = admin) || coordinator_policy r y.

(** ** The ledger and its uniqueness constraint *)

(** The rows a successful insert adds, with ids from [next] on. *)
Fixpoint new_registrations (now : nat) (next : uuid) (rows : list NewRegistration)
  : list Registration :=
  match rows with
  | [] => []
  | row :: rest =>
      mkRegistration next (nr_student_id row) (nr_sport_id row)
        (nr_registered_by row) (nr_status row) now
      :: new_registrations now (S next) rest
  end.

(** At most one registration per (student, sport) pair. *)
Definition ledger_unique (d : Database) : Prop :=
  NoDup (map pair_of (registrations d)).

(** ** The registration workflow *)

(** The status new registrations get, by the auto-approve setting. *)
Definition initial_status_of (d : Database) : registration_status :=
  if truthy (enabled_of (settings d !! "auto_approve_registrations"))
  then approved else pending.

(** Whether [performRegistration], run in [w], finds auto-approval switched
    on: its first request, the read of the setting, is answered and the
    [enabled] of the setting is truthy. *)
Definition auto_approve_read (w : World) : bool :=
  negb (faults w (issued w)) &&
  truthy (enabled_of (settings (db w) !! "auto_approve_registrations")).

(** The rows [performRegistration] sends. *)
Definition registration_rows (sport : Sport) (profile : option Profile)
    (status : registration_status) (selected : list uuid) : list NewRegistration :=
  map (λ studentId, mkNewRegistration studentId (sp_id sport)
                      (profile_id <$> profile) status) selected.

(** ** What a run does to the database *)

(** [respects R c]: whatever [c] does, it takes the database from [d] to a
    [d'] with [R d d']. *)
Definition respects (R : Database → Database → Prop) {A} (c : M A) : Prop :=
  ∀ w o w', c w = (o, w') → R (db w) (db w').

(** A statement that only reads. *)
Definition read_only {A} (q : Statement A) : Prop := ∀ now d, (q now d).2 = d.

(** ** The states the application reaches *)

(** One step of the application: a handler of the form or of the page runs
    to its end, from any state of its component, or a loader reads. *)
Inductive app_step : World → World → Prop :=
  | step_handleSubmit sport profile st o w w' :
      handleSubmit sport profile st w = (o, w') → app_step w w'
  | step_handleWarningConfirm sport profile st o w w' :
      handleWarningConfirm sport profile st w = (o, w') → app_step w w'
  | step_page_event profile ev ps o w w' :
      handle_event profile ev ps w = (o, w') → app_step w w'
  | step_fetchStudents profile st o w w' :
      fetchStudents profile st w = (o, w') → app_step w w'
  | step_fetchExistingRegistrations sport st o w w' :
      fetchExistingRegistrations sport st w = (o, w') → app_step w w'
  | step_fetchRegistrationLimits st o w w' :
      form_fetchRegistrationLimits st w = (o, w') → app_step w w'
  | step_fetchStudentRegistrationCounts st o w w' :
      fetchStudentRegistrationCounts st w = (o, w') → app_step w w'
  | step_fetchSystemSettings o w w' :
      fetchSystemSettings w = (o, w') → app_step w w'.

(** ** Status changes *)

#[global] Instance RegistrationView_eq_dec : EqDecision RegistrationView.
Proof. solve_decision. Defined.
#[global] Instance PageEvent_eq_dec : EqDecision PageEvent.
Proof. solve_decision. Defined.

(** The status the ledger holds for a registration id. *)
Definition status_in (d : Database) (rid : uuid) : option registration_status :=
  reg_status <$> List.find (λ r, Nat.eqb (reg_id r) rid) (registrations d).

(** From [d] to [d'] no registration appears, and a registration that stays
    keeps its status unless [allowed] lets its id take the new one. *)
Definition ledger_evolves (allowed : uuid → registration_status → Prop)
    (d d' : Database) : Prop :=
  ∀ r', r' ∈ registrations d' →
    ∃ r, r ∈ registrations d ∧ reg_id r = reg_id r' ∧ pair_of r = pair_of r' ∧
         (reg_status r' = reg_status r ∨ allowed (reg_id r) (reg_status r')).

(** The change of status an event asks for. *)
Definition event_decides (ev : PageEvent) (rid : uuid) (s : registration_status)
  : Prop :=
  match ev with
  | ClickApprove row => rid = rv_id row ∧ s = approved
  | ClickReject row => rid = rv_id row ∧ s = rejected
  | ClickDelete _ _ | Reload => False
  end.

(** ** Further code of the same files *)

(** *** [lib/constants.ts] *)

Definition getRoleLabel (role : string) : string :=
  if String.eqb role "admin" then "Administrator"
  else if String.eqb role "first_year_coordinator" then "First Year Coordinator"
  else if String.eqb role "second_year_coordinator" then "Second Year Coordinator"
  else if String.eqb role "third_year_coordinator" then "Third Year Coordinator"
  else if String.eqb role "fourth_year_coordinator" then "Fourth Year Coordinator"
  else role.

(** [getYearLabel] of the copy of the constants whose [ACADEMIC_YEARS] is
    [{ FIRST: 'first', ... }]: a [switch] with [default: return year]. The
    other copy, whose [ACADEMIC_YEARS] maps the four keys to their labels,
    returns [ACADEMIC_YEARS[year] || year]: the same label for the four
    years. *)
Definition getYearLabel (year : string) : string :=
  if String.eqb year "first" then "First Year"
  else if String.eqb year "second" then "Second Year"
  else if String.eqb year "third" then "Third Year"
  else if String.eqb year "fourth" then "Fourth Year"
  else year.

(** *** The dashboard *)

(** [null] is [None]. A role of the enum is never the empty string, so
    [!profile?.role] is the test for a missing profile. *)
Definition getCoordinatorYear (profile : option Profile) : option string :=
  match profile with
  | None => None
  | Some p =>
      if bool_decide (role p = admin) then None
      else
        let year := replace (replace (role_label (role p)) "_coordinator" EmptyString)
                      "_year" EmptyString in
        Some (getYearLabel year)
  end.

(** The line under the greeting; a template literal prints [null] as the
    text [null]. *)
Definition dashboard_subtitle (profile : option Profile) : string :=
  if is_admin profile then "System Administrator Dashboard"
  else match getCoordinatorYear profile with
       | Some label => label
       | None => "null"
       end +:+ " Coordinator Dashboard".

(** The role line of the header: [getRoleLabel(profile?.role || '')]. *)
Definition header_role_label (profile : option Profile) : string :=
  getRoleLabel match profile with
               | Some p => role_label (role p)
               | None => EmptyString
               end.

(** *** [utils/activityLogger.ts] *)

(** [logActivity({ user_id, action, details })]; the [details] of a log row
    are not part of [ActivityLog]. *)
Definition logActivity (user_id : uuid) (action : string) : M unit :=
  try_catch
    (let* response := request (insert_activity_log (Some user_id) action) in
     ret ())
    (λ error, ret ()).


(** *** The search boxes *)

(** [s.includes(sub)] *)
Fixpoint includes (s sub : string) : bool :=
  String.prefix sub s ||
  match s with
  | EmptyString => false
  | String _ s' => includes s' sub
  end.

(** JavaScript's [toLowerCase] follows the Unicode case mapping, which is
    not reproduced here: the code that searches takes it as a parameter. *)
Section Search.
Variable toLowerCase : string → string.

(** The test of [filteredStudents]. *)
Definition matches_student (searchTerm : string) (student : Student) : bool :=
  includes (toLowerCase (st_name student)) (toLowerCase searchTerm) ||
  includes (toLowerCase (st_roll_number student)) (toLowerCase searchTerm) ||
  includes (toLowerCase (st_department student)) (toLowerCase searchTerm).

Definition filteredStudents (searchTerm : string) (st : FormState) : list Student :=
  filter (λ student, matches_student searchTerm student = true) (form_students st).

Definition eligibleStudents (sport : Sport) (searchTerm : string) (st : FormState)
  : list Student :=
  filter (λ student, canStudentRegister sport st (st_id student) = true)
    (filteredStudents searchTerm st).

(** What a user of the form can do to the selection: a click on the card of
    a student ([isEligible && handleStudentToggle(student.id)]), on
    [Select All] or on [Clear All], with the search box holding
    [searchTerm]. *)
Inductive FormEvent :=
  | ClickStudent (student : Student)
  | ClickSelectAll
  | ClickClearAll.

(** The form is rendered for a profile that is not the admin's (the admin
    gets a notice instead). The cards shown are those of [filteredStudents];
    the two buttons are rendered when [eligibleStudents.length > 0]. *)
Definition form_event_enabled (profile : option Profile) (sport : Sport)
    (searchTerm : string) (st : FormState) (ev : FormEvent) : Prop :=
  is_admin profile = false ∧
  match ev with
  | ClickStudent student => student ∈ filteredStudents searchTerm st
  | ClickSelectAll | ClickClearAll => eligibleStudents sport searchTerm st ≠ []
  end.

Definition handle_form_event (sport : Sport) (searchTerm : string)
    (ev : FormEvent) (st : FormState) : FormState :=
  match ev with
  | ClickStudent student =>
      if canStudentRegister sport st (st_id student)
      then handleStudentToggle (st_id student) st
      else st
  | ClickSelectAll =>
      setSelectedStudents (map st_id (eligibleStudents sport searchTerm st)) st
  | ClickClearAll => setSelectedStudents [] st
  end.

(** A session at the form: the search box is edited between the clicks. *)
Inductive form_session (profile : option Profile) (sport : Sport)
  : FormState → FormState → Prop :=
  | session_start st : form_session profile sport st st
  | session_event st st' searchTerm ev :
      form_session profile sport st st' →
      form_event_enabled profile sport searchTerm st' ev →
      form_session profile sport st (handle_form_event sport searchTerm ev st').

(** *** [getGroupedData] of the [Registrations] page *)

Inductive ViewMode := view_students | view_athletic | view_game.

Definition status_label (s : registration_status) : string :=
  match s with
  | pending => "pending" | approved => "approved" | rejected => "rejected"
  end.

(** The test of [filtered]; [statusFilter] is the value of the select box. *)
Definition matches_filters (searchTerm statusFilter : string) (viewMode : ViewMode)
    (reg : RegistrationView) : bool :=
  let matchesSearch :=
    includes (toLowerCase (st_name (rv_student reg))) (toLowerCase searchTerm) ||
    includes (toLowerCase (st_roll_number (rv_student reg))) (toLowerCase searchTerm) ||
    includes (toLowerCase (sp_name (rv_sport reg))) (toLowerCase searchTerm) in
  let matchesStatus :=
    String.eqb statusFilter "all" ||
    String.eqb (status_label (rv_status reg)) statusFilter in
  let matchesViewMode :=
    match viewMode with
    | view_students => true
    | view_athletic => bool_decide (sp_type (rv_sport reg) = athletic)
    | view_game => bool_decide (sp_type (rv_sport reg) = game)
    end in
  matchesSearch && matchesStatus && matchesViewMode.

(** [if (!groups[key]) { groups[key] = []; } groups[key].push(reg);] on an
    object whose keys are UUIDs: the properties keep the order in which they
    were created. *)
Fixpoint push_group (key : uuid) (reg : RegistrationView)
    (groups : list (uuid * list RegistrationView))
  : list (uuid * list RegistrationView) :=
  match groups with
  | [] => [(key, [reg])]
  | (k, regs) :: rest =>
      if decide (k = key) then (k, regs ++ [reg]) :: rest
      else (k, regs) :: push_group key reg rest
  end.

Definition group_key (viewMode : ViewMode) (reg : RegistrationView) : uuid :=
  match viewMode with
  | view_students => st_id (rv_student reg)
  | view_athletic | view_game => sp_id (rv_sport reg)
  end.

Definition getGroupedData (searchTerm statusFilter : string) (viewMode : ViewMode)
    (ps : PageState) : list (uuid * list RegistrationView) :=
  let filtered :=
    filter (λ reg, matches_filters searchTerm statusFilter viewMode reg = true)
      (page_registrations ps) in
  foldl (λ groups reg, push_group (group_key viewMode reg) reg groups) [] filtered.

End Search.

(** *** [fetchData] of the form *)

(** A promise that has settled: its value, or nothing when it was rejected. *)
Definition settled {A} (c : M A) : M (option A) :=
  try_catch (let* a := c in ret (Some a)) (λ error, ret None).

(** [await Promise.all([fetchStudents(), fetchExistingRegistrations(),
    fetchRegistrationLimits(), fetchStudentRegistrationCounts()])] inside
    [try]/[catch]. The four functions are started in this order and each
    issues at most one request, so the requests go out in this order. Each of
    them reads the state of the render that made [fetchData] (it is [st] for
    all four: [fetchStudentRegistrationCounts] returns at once when that
    state has no students) and sets one field of the state; a rejected one
    sets nothing and makes [catch] show its toast, once ([LoadFailed] is here
    the toast [Failed to load registration data]). [loading] is not part of
    [FormState]. *)
Definition fetchData (sport : Sport) (profile : option Profile) (st : FormState)
  : M FormState :=
  let* r1 := settled (fetchStudents profile st) in
  let* r2 := settled (fetchExistingRegistrations sport st) in
  let* r3 := settled (form_fetchRegistrationLimits st) in
  let* r4 := settled (fetchStudentRegistrationCounts st) in
  let st1 := match r1 with
             | Some s => setStudents (form_students s) st
             | None => st
             end in
  let st2 := match r2 with
             | Some s => setExistingRegistrations (existingRegistrations s) st1
             | None => st1
             end in
  let st3 := match r3 with
             | Some s => setRegistrationLimits (registrationLimits s) st2
             | None => st2
             end in
  let st4 := match r4 with
             | Some s => setStudentRegistrationCounts (studentRegistrationCounts s) st3
             | None => st3
             end in
  match r1, r2, r3, r4 with
  | Some _, Some _, Some _, Some _ => ret st4
  | _, _, _, _ => ret (toast LoadFailed st4)
  end.

(** *** [PDFDownloadButton] *)

(** A row of the data the PDF generators get. [venue] and [event_date],
    which [Sport] does not hold, are left out. *)
Record StudentRegistrationData := mkStudentRegistrationData {
  srd_id : uuid;
  srd_student_name : string;
  srd_roll_number : string;
  srd_department : string;
  srd_year : academic_year;
  srd_sport_name : string;
  srd_sport_type : sport_type;
  srd_registration_date : nat;
  srd_status : registration_status
}.

Definition registration_data (item : RegistrationView) : StudentRegistrationData :=
  {| srd_id := rv_id item;
     srd_student_name := st_name (rv_student item);
     srd_roll_number := st_roll_number (rv_student item);
     srd_department := st_department (rv_student item);
     srd_year := st_year (rv_student item);
     srd_sport_name := sp_name (rv_sport item);
     srd_sport_type := sp_type (rv_sport item);
     srd_registration_date := rv_created_at item;
     srd_status := rv_status item |}.

(** [fetchRegistrationData(yearFilter?)]; [None] is a missing argument. The
    query is the one of the [Registrations] page, with the filter
    [yearFilter] for the admin when it is a text other than ['all']. *)
Definition fetchRegistrationData (profile : option Profile)
    (yearFilter : option string) : M (list StudentRegistrationData) :=
  let year_filter :=
    if negb (is_admin profile) then Some (coordinator_year_text profile)
    else match yearFilter with
         | Some year =>
             if negb (String.eqb year EmptyString) && negb (String.eqb year "all")
             then Some year else None
         | None => None
         end in
  let* data := checked (request (select_registration_views year_filter)) in
  ret (map registration_data data).

(** *** The requests of a run *)

(** A run leaves the failures to come as they were. *)
Definition keeps_faults {A} (c : M A) : Prop :=
  ∀ w o w', c w = (o, w') → faults w' = faults w.

(** *** The steps of a session *)

(** One step of the application, with the loader of the form and the
    activity logger. *)
Inductive session_step : World → World → Prop :=
  | session_app_step w w' : app_step w w' → session_step w w'
  | session_fetchData sport profile st o w w' :
      fetchData sport profile st w = (o, w') → session_step w w'
  | session_logActivity user_id action o w w' :
      logActivity user_id action w = (o, w') → session_step w w'.

(** ** Examples *)

Definition demo_students : list Student :=
  [ mkStudent 1 "Asha" "R001" "CSE" second;
    mkStudent 2 "Binu" "R002" "ECE" second;
    mkStudent 3 "Cyril" "R003" "CSE" third ].

Definition demo_sports : list Sport :=
  [ mkSport 10 "Football" game;
    mkSport 11 "Chess" game;
    mkSport 12 "Sprint" athletic;
    mkSport 13 "Cricket" game ].

Definition demo_registrations : list Registration :=
  [ mkRegistration 100 1 10 (Some 7%nat) approved 0;
    mkRegistration 101 1 11 (Some 7%nat) pending 1;
    mkRegistration 102 2 10 (Some 7%nat) rejected 2;
    mkRegistration 103 2 12 (Some 7%nat) approved 3 ].

(** The limits of the migration, [{"limit": 2}] for both categories. *)
Definition demo_settings : gmap string SettingValue :=
  <["max_game_registrations" := mkSettingValue (Some 2) JUndefined]>
  (<["max_athletic_registrations" := mkSettingValue (Some 2) JUndefined]> ∅).

Definition demo_db : Database :=
  mkDatabase demo_students demo_sports demo_registrations demo_settings [] 104.

Definition demo_world : World := mkWorld demo_db (λ _, false) 0.

(** The game limit set to 0, and a student without registrations. *)
Definition zero_limit_db : Database :=
  mkDatabase demo_students demo_sports demo_registrations
    (<["max_game_registrations" := mkSettingValue (Some 0) JUndefined]> demo_settings)
    [] 104.

Definition zero_limit_world : World := mkWorld zero_limit_db (λ _, false) 0.

(** The example with auto-approval switched on. *)
Definition auto_approve_world : World :=
  mkWorld
    (mkDatabase demo_students demo_sports demo_registrations
       (<["auto_approve_registrations" := mkSettingValue None (JBool true)]>
          demo_settings)
       [] 104)
    (λ _, false) 0.

(** Auto-approval switched on, and the first request of the run fails. *)
Definition unread_setting_world : World :=
  mkWorld (db auto_approve_world) (λ n, Nat.eqb n 0) 0.

(** A world with the students and sports of the example and an empty ledger. *)
Definition fresh_world : World :=
  mkWorld (mkDatabase demo_students demo_sports [] demo_settings [] 100)
    (λ _, false) 0.

Definition football : Sport := mkSport 10 "Football" game.

Definition cricket : Sport := mkSport 13 "Cricket" game.

Definition demo_coordinator : option Profile :=
  Some (mkProfile 7 second_year_coordinator).

Definition second_year : Profile := mkProfile 7 second_year_coordinator.

Definition demo_admin : option Profile := Some (mkProfile 9 admin).

(** The form before anything is loaded or selected. *)
Definition empty_form : FormState :=
  mkFormState [] [] [] (mkRegistrationLimits 0 0) ∅ false false [] [].


(** Students 1 and 3 selected; student 1 already has two game registrations. *)
Definition two_selected : FormState := setSelectedStudents [1; 3]%nat empty_form.

(** Student 3 selected. *)
Definition third_selected : FormState := setSelectedStudents [3]%nat empty_form.

(** Students 1 and 2 selected on the empty ledger. *)
Definition first_selection : FormState := setSelectedStudents [1; 2]%nat empty_form.

(** The world after that selection is submitted for football. *)
Definition after_first_submit : World :=
  (handleSubmit football demo_coordinator first_selection fresh_world).2.

(** The page before anything is loaded. *)
Definition empty_page : PageState :=
  mkPageState [] (mkRegistrationLimits 0 0) ∅ None [].

(** The pending registration 101 of the example, as the page shows it. *)
Definition chess_row : RegistrationView :=
  mkRegistrationView 101 pending 1
    (mkStudent 1 "Asha" "R001" "CSE" second) (mkSport 11 "Chess" game).

(** A page that shows the pending registration 101. *)
Definition page_with_chess : PageState := setRegistrations [chess_row] empty_page.

(** *** Examples for the form, the page and the sessions *)

Definition asha : Student := mkStudent 1 "Asha" "R001" "CSE" second.

Definition binu : Student := mkStudent 2 "Binu" "R002" "ECE" second.

(** [toLowerCase] on strings of ASCII characters. *)
Definition lower_ascii (c : ascii) : ascii :=
  let n := nat_of_ascii c in
  if Nat.leb 65 n && Nat.leb n 90 then ascii_of_nat (n + 32) else c.

Fixpoint ascii_lower (s : string) : string :=
  match s with
  | EmptyString => EmptyString
  | String c s' => String (lower_ascii c) (ascii_lower s')
  end.

(** The form of the second-year coordinator after [fetchData] for cricket,
    and the world then. *)
Definition form_after_load : FormState :=
  match (fetchData cricket demo_coordinator empty_form demo_world).1 with
  | Ok st => st
  | Throw _ => empty_form
  end.

Definition world_after_load : World :=
  (fetchData cricket demo_coordinator empty_form demo_world).2.

(** That form after a click on the card of student 2. *)
Definition binu_clicked : FormState :=
  handle_form_event ascii_lower cricket EmptyString (ClickStudent binu)
    form_after_load.

(** A form that holds the two second-year students. *)
Definition loaded_form : FormState := setStudents [asha; binu] empty_form.

(** The example with its second request failing. *)
Definition faulty_world : World := mkWorld demo_db (λ n, Nat.eqb n 1) 0.

(** The rejected registration 102 of student 2 for football. *)
Definition rejected_row : Registration :=
  mkRegistration 102 2 10 (Some 7%nat) rejected 2.

(** Student 2 selected. *)
Definition binu_selected : FormState := setSelectedStudents [2]%nat empty_form.

Definition admin_profile : Profile := mkProfile 9 admin.

(** Student 3 selected together with an id that is no student. *)
Definition stranger_selected : FormState := setSelectedStudents [3; 5]%nat empty_form.

(** * Proofs *)

(** ** Running the client *)

Lemma request_answered {A} (q : Statement A) w :
  faults w (issued w) = false →
  request q w =
    (Ok (q (issued w) (db w)).1,
     mkWorld (q (issued w) (db w)).2 (faults w) (S (issued w))).
Proof.
  intros Hf. unfold request. rewrite Hf.
  destruct (q (issued w) (db w)) as [r d]. reflexivity.
Qed.

Lemma request_failed {A} (q : Statement A) w :
  faults w (issued w) = true →
  request q w =
    (Ok (RError NetworkError), mkWorld (db w) (faults w) (S (issued w))).
Proof. intros Hf. unfold request. rewrite Hf. reflexivity. Qed.

(** ** The settings map *)

Lemma foldl_insert_lookup (l : list (string * SettingValue)) :
  ∀ (acc : gmap string SettingValue) k,
    NoDup l.*1 →
    foldl (λ acc setting, <[setting.1 := setting.2]> acc) acc l !! k =
      match (list_to_map l : gmap string SettingValue) !! k with
      | Some v => Some v
      | None => acc !! k
      end.
Proof.
  induction l as [|[k' v'] l IH]; intros acc k Hnd; simpl.
  - rewrite lookup_empty. reflexivity.
  - apply NoDup_cons in Hnd as [Hk' Hnd]. rewrite IH by assumption.
    destruct (decide (k' = k)) as [->|Hne].
    + rewrite (not_elem_of_list_to_map_1 _ k) by assumption.
      rewrite !lookup_insert_eq. reflexivity.
    + rewrite !lookup_insert_ne by assumption. reflexivity.
Qed.

Lemma settingsMap_of_select (m : gmap string SettingValue) (keys : list string) k :
  settingsMap_of (filter (λ r, r.1 ∈ keys) (map_to_list m)) !! k =
    if decide (k ∈ keys) then m !! k else None.
Proof.
  assert (Hnd : NoDup (filter (λ r : string * SettingValue, r.1 ∈ keys)
                         (map_to_list m)).*1).
  { apply (sublist_NoDup _ (map_to_list m).*1).
    - apply NoDup_fst_map_to_list.
    - apply fmap_sublist, sublist_filter. }
  unfold settingsMap_of. rewrite foldl_insert_lookup by assumption.
  rewrite lookup_empty.
  destruct (list_to_map _ !! k) as [v|] eqn:Hl.
  - apply elem_of_list_to_map in Hl; [|assumption].
    apply list_elem_of_filter in Hl as [Hin Hl]. simpl in Hin.
    apply elem_of_map_to_list in Hl. rewrite decide_True by assumption.
    symmetry. assumption.
  - case_decide as Hk; [|reflexivity].
    destruct (m !! k) as [v|] eqn:Hm; [|reflexivity].
    apply not_elem_of_list_to_map in Hl. exfalso. apply Hl.
    apply list_elem_of_fmap. exists (k, v). split; [reflexivity|].
    apply list_elem_of_filter. split; [assumption|].
    apply elem_of_map_to_list. assumption.
Qed.

Lemma fetchRegistrationLimits_run w :
  faults w (issued w) = false →
  fetchRegistrationLimits w =
    (Ok (mkRegistrationLimits
           (limit_or_zero (settings (db w) !! "max_game_registrations"))
           (limit_or_zero (settings (db w) !! "max_athletic_registrations"))),
     mkWorld (db w) (faults w) (S (issued w))).
Proof.
  intros Hf. unfold fetchRegistrationLimits, checked, bind.
  rewrite request_answered by assumption. simpl.
  unfold ret. rewrite !settingsMap_of_select.
  rewrite !decide_True by (repeat constructor). reflexivity.
Qed.

(** ** The quota evaluator *)

Lemma quota_status_cases (s : registration_status) :
  s ∈ [pending; approved] ↔ s = pending ∨ s = approved.
Proof. rewrite !elem_of_cons, elem_of_nil. tauto. Qed.

Lemma quota_rows_count d (ids : list uuid) sid cat (l : list Registration) :
  sid ∈ ids →
  length (filter (λ reg, qr_sport_type reg = cat)
            (filter (λ reg, qr_student_id reg = sid)
               (omap (quota_row d)
                  (filter (λ r, reg_student_id r ∈ ids ∧
                                reg_status r ∈ [pending; approved]) l)))) =
  length (filter (counts_toward_quota d sid cat) l).
Proof.
  intros Hsid. induction l as [|r l IH]; [reflexivity|].
  rewrite (filter_cons (counts_toward_quota d sid cat)).
  rewrite (filter_cons (λ r, reg_student_id r ∈ ids ∧ _)).
  destruct (decide (counts_toward_quota d sid cat r)) as [(Hs & Hst & Hcat)|Hno].
  - rewrite decide_True
      by (split; [congruence | apply quota_status_cases; assumption]).
    unfold category_of in Hcat. simpl omap. unfold quota_row at 1.
    destruct (sport_of d r) as [sp|]; [|discriminate]. simpl in *.
    rewrite filter_cons. simpl. rewrite decide_True by assumption.
    rewrite filter_cons. simpl. rewrite decide_True by congruence.
    simpl. f_equal. exact IH.
  - case_decide as Hq; [|exact IH]. destruct Hq as [_ Hst].
    simpl omap. unfold quota_row at 1.
    destruct (sport_of d r) as [sp|] eqn:Hsp; simpl; [|exact IH].
    rewrite filter_cons. simpl. case_decide as Hs; [|exact IH].
    rewrite filter_cons. simpl. case_decide as Hc; [|exact IH].
    exfalso. apply Hno. split; [assumption|]. split.
    + apply quota_status_cases. assumption.
    + unfold category_of. rewrite Hsp. simpl. congruence.
Qed.

Lemma getStudentRegistrationInfo_run w (ids : list uuid) cat :
  reliable w → ids ≠ [] →
  ∃ infos,
    getStudentRegistrationInfo ids cat w =
      (Ok infos, mkWorld (db w) (faults w) (S (S (S (issued w))))) ∧
    Forall2 (info_matches (db w) cat)
      (filter (λ s, st_id s ∈ ids) (students (db w))) infos.
Proof.
  intros Hrel Hne. unfold getStudentRegistrationInfo.
  destruct ids as [|i ids]; [contradiction|]. cbn [length Nat.eqb].
  unfold bind, checked, bind.
  rewrite fetchRegistrationLimits_run by apply Hrel. cbv beta iota.
  rewrite request_answered by apply Hrel. cbn [fst snd db faults issued].
  unfold select_students_in at 1, query at 1. cbn [fst snd]. unfold ret at 1.
  rewrite request_answered by apply Hrel. cbn [fst snd db faults issued].
  unfold select_quota_rows at 1, query at 1. cbn [fst snd]. unfold ret at 1.
  unfold ret. eexists. split; [reflexivity|].
  apply Forall2_fmap_r, Forall_Forall2_diag, Forall_forall.
  intros s Hs. apply list_elem_of_filter in Hs as [Hs _].
  unfold info_matches. simpl. split; [reflexivity|]. split.
  - destruct cat; reflexivity.
  - f_equal. unfold quota_count. apply quota_rows_count. assumption.
Qed.

Lemma getStudentRegistrationInfo_returns w (ids : list uuid) cat :
  reliable w → ∃ infos w', getStudentRegistrationInfo ids cat w = (Ok infos, w').
Proof.
  intros Hrel. destruct ids as [|i ids].
  - exists [], w. reflexivity.
  - destruct (getStudentRegistrationInfo_run w (i :: ids) cat Hrel)
      as (infos & Hrun & _); [discriminate|].
    eexists _, _. exact Hrun.
Qed.

Lemma filter_none_selected (l : list Student) :
  filter (λ s, st_id s ∈ @nil nat) l = [].
Proof.
  induction l as [|s l IH]; [reflexivity|].
  rewrite filter_cons_False by apply not_elem_of_nil. exact IH.
Qed.

Lemma getStudentRegistrationInfo_ok w (ids : list uuid) cat infos w' :
  getStudentRegistrationInfo ids cat w = (Ok infos, w') →
  db w' = db w ∧
  Forall2 (info_matches (db w) cat)
    (filter (λ s, st_id s ∈ ids) (students (db w))) infos.
Proof.
  unfold getStudentRegistrationInfo. destruct ids as [|i ids].
  - cbn [length Nat.eqb]. intros H. injection H as <- <-.
    split; [reflexivity|]. rewrite filter_none_selected. constructor.
  - cbn [length Nat.eqb]. unfold bind, checked, bind, fetchRegistrationLimits.
    unfold bind, checked, bind.
    destruct (faults w (issued w)) eqn:Hf0;
      [rewrite request_failed by exact Hf0; cbv beta iota; unfold throw;
       discriminate|].
    rewrite request_answered by exact Hf0. cbn [fst snd db faults issued].
    unfold select_settings_in at 1, query at 1. cbn [fst snd]. unfold ret at 1.
    unfold ret at 1. cbv beta iota.
    destruct (faults w (S (issued w))) eqn:Hf1;
      [rewrite request_failed by exact Hf1; cbv beta iota; unfold throw;
       discriminate|].
    rewrite request_answered by exact Hf1. cbn [fst snd db faults issued].
    unfold select_students_in at 1, query at 1. cbn [fst snd]. unfold ret at 1.
    destruct (faults w (S (S (issued w)))) eqn:Hf2;
      [rewrite request_failed by exact Hf2; cbv beta iota; unfold throw;
       discriminate|].
    rewrite request_answered by exact Hf2. cbn [fst snd db faults issued].
    unfold select_quota_rows at 1, query at 1. cbn [fst snd]. unfold ret.
    intros H. injection H as <- <-. split; [reflexivity|].
    apply Forall2_fmap_r, Forall_Forall2_diag, Forall_forall.
    intros s Hs. apply list_elem_of_filter in Hs as [Hs _].
    unfold info_matches. split; [reflexivity|]. split.
    + cbv beta iota delta [limit]. rewrite !settingsMap_of_select.
      rewrite !decide_True by (repeat constructor). destruct cat; reflexivity.
    + simpl. f_equal. unfold quota_count. apply quota_rows_count. assumption.
Qed.

Lemma filter_length_split {A} (P Q : A → Prop)
    `{!∀ x, Decision (P x), !∀ x, Decision (Q x)} (l : list A) :
  length (filter P l) =
    (length (filter (λ x, P x ∧ ¬ Q x) l) + length (filter (λ x, P x ∧ Q x) l))%nat.
Proof.
  induction l as [|x l IH]; [reflexivity|].
  rewrite !filter_cons.
  destruct (decide (P x)) as [HP|HP]; destruct (decide (Q x)) as [HQ|HQ].
  - rewrite decide_False by tauto. rewrite decide_True by tauto.
    cbn [length]. rewrite IH. lia.
  - rewrite decide_True by tauto. rewrite decide_False by tauto.
    cbn [length]. rewrite IH. lia.
  - rewrite !decide_False by tauto. exact IH.
  - rewrite !decide_False by tauto. exact IH.
Qed.

Lemma filter_all {A} (P : A → Prop) `{!∀ x, Decision (P x)} (l : list A) :
  Forall P l → filter P l = l.
Proof.
  induction 1 as [|x l Hx _ IH]; [reflexivity|].
  rewrite filter_cons_True by assumption. rewrite IH. reflexivity.
Qed.

Lemma counts_toward_quota_sports d d' sid cat r :
  sports d' = sports d →
  counts_toward_quota d' sid cat r ↔ counts_toward_quota d sid cat r.
Proof.
  intros Hsp. unfold counts_toward_quota, category_of, sport_of.
  rewrite Hsp. reflexivity.
Qed.

Lemma evaluator_covers_selection d cat (ids : list uuid) infos :
  Forall2 (info_matches d cat) (filter (λ s, st_id s ∈ ids) (students d)) infos →
  (∀ student, student ∈ students d → st_id student ∈ ids →
     ∃ info, info ∈ infos ∧ id info = st_id student) ∧
  (∀ info, info ∈ infos →
     id info ∈ ids ∧
     limit info = limit_or_zero (settings d !! limit_key cat) ∧
     currentCount info = Z.of_nat (quota_count d (id info) cat)).
Proof.
  intros HF. split.
  - intros s Hs Hin.
    assert (Hsel : s ∈ filter (λ s, st_id s ∈ ids) (students d))
      by (apply list_elem_of_filter; split; assumption).
    apply list_elem_of_lookup in Hsel as [i Hi].
    destruct (Forall2_lookup_l _ _ _ _ _ HF Hi) as (info & Hinfo & Hm & _).
    exists info. split; [|assumption].
    apply list_elem_of_lookup. exists i. assumption.
  - intros info Hin. apply list_elem_of_lookup in Hin as [i Hi].
    destruct (Forall2_lookup_r _ _ _ _ _ HF Hi) as (s & Hs & Hid & Hl & Hc).
    apply list_elem_of_lookup_2, list_elem_of_filter in Hs as [Hs _].
    rewrite Hid. repeat split; assumption.
Qed.

(** ** The counts of the form *)

Lemma count_rows_zero (ids : list uuid) sid :
  ∀ counts : gmap nat Counts,
    foldl (λ counts i, <[i := mkCounts 0 0]> counts) counts ids !! sid =
      if decide (sid ∈ ids) then Some (mkCounts 0 0) else counts !! sid.
Proof.
  induction ids as [|i ids IH]; intros counts; [reflexivity|].
  cbn [foldl]. rewrite IH.
  destruct (decide (sid ∈ ids)) as [Hin|Hin].
  - rewrite decide_True by (apply list_elem_of_further; exact Hin). reflexivity.
  - destruct (decide (sid = i)) as [->|Hne].
    + rewrite decide_True by apply list_elem_of_here. apply lookup_insert_eq.
    + rewrite decide_False
        by (intros H; apply elem_of_cons in H as [H|H]; contradiction).
      apply lookup_insert_ne. congruence.
Qed.

Lemma count_rows_increments (data : list QuotaRow) sid :
  ∀ (counts : gmap nat Counts) c,
    counts !! sid = Some c →
    foldl (λ counts reg,
             match counts !! qr_student_id reg with
             | Some c =>
                 if decide (qr_sport_type reg = game)
                 then <[qr_student_id reg := mkCounts (games c + 1) (athletics c)]> counts
                 else <[qr_student_id reg := mkCounts (games c) (athletics c + 1)]> counts
             | None => counts
             end) counts data !! sid =
    Some (mkCounts
            (games c + Z.of_nat (length (filter
               (λ reg, qr_sport_type reg = game)
               (filter (λ reg, qr_student_id reg = sid) data))))
            (athletics c + Z.of_nat (length (filter
               (λ reg, qr_sport_type reg = athletic)
               (filter (λ reg, qr_student_id reg = sid) data))))).
Proof.
  induction data as [|reg data IH]; intros counts c Hc.
  - cbn. rewrite Hc, !Z.add_0_r. destruct c; reflexivity.
  - cbn [foldl]. rewrite (filter_cons (λ reg, qr_student_id reg = sid)).
    destruct (decide (qr_student_id reg = sid)) as [Hs|Hs].
    + rewrite Hs, Hc. rewrite !filter_cons.
      destruct (decide (qr_sport_type reg = game)) as [Hg|Hg].
      * rewrite (IH _ (mkCounts (games c + 1) (athletics c)))
          by apply lookup_insert_eq.
        rewrite decide_False by congruence. cbn [length games athletics].
        f_equal. f_equal; lia.
      * rewrite (IH _ (mkCounts (games c) (athletics c + 1)))
          by apply lookup_insert_eq.
        rewrite decide_True by (destruct (qr_sport_type reg); congruence).
        cbn [length games athletics]. f_equal. f_equal; lia.
    + destruct (counts !! qr_student_id reg) as [c'|]; [|apply IH; exact Hc].
      destruct (decide (qr_sport_type reg = game));
        apply IH; rewrite lookup_insert_ne by exact Hs; exact Hc.
Qed.

Lemma count_rows_lookup (ids : list uuid) (data : list QuotaRow) sid :
  sid ∈ ids →
  count_rows ids data !! sid =
    Some (mkCounts
            (Z.of_nat (length (filter (λ reg, qr_sport_type reg = game)
               (filter (λ reg, qr_student_id reg = sid) data))))
            (Z.of_nat (length (filter (λ reg, qr_sport_type reg = athletic)
               (filter (λ reg, qr_student_id reg = sid) data))))).
Proof.
  intros Hin. unfold count_rows.
  rewrite (count_rows_increments data sid _ (mkCounts 0 0)).
  - reflexivity.
  - rewrite count_rows_zero. rewrite decide_True by exact Hin. reflexivity.
Qed.

Lemma fetchStudentRegistrationCounts_run (st : FormState) (w : World) :
  reliable w → form_students st ≠ [] →
  ∃ st' w',
    fetchStudentRegistrationCounts st w = (Ok st', w') ∧
    ∀ s, s ∈ form_students st →
      studentRegistrationCounts st' !! st_id s =
        Some (mkCounts (Z.of_nat (quota_count (db w) (st_id s) game))
                       (Z.of_nat (quota_count (db w) (st_id s) athletic))).
Proof.
  intros Hrel Hne. unfold fetchStudentRegistrationCounts.
  destruct (form_students st) as [|s0 l] eqn:Hst; [contradiction|].
  cbn [length Nat.eqb]. unfold bind, checked, bind.
  rewrite request_answered by apply Hrel. cbn [fst snd db faults issued].
  unfold select_quota_rows at 1, query at 1. cbn [fst snd]. unfold ret.
  eexists _, _. split; [reflexivity|].
  intros s Hs. cbn [studentRegistrationCounts setStudentRegistrationCounts].
  assert (Hid : st_id s ∈ map st_id (s0 :: l)).
  { apply list_elem_of_fmap. exists s. split; [reflexivity|exact Hs]. }
  rewrite (count_rows_lookup _ _ (st_id s) Hid).
  unfold quota_count. rewrite !quota_rows_count by exact Hid. reflexivity.
Qed.

(** ** Properties of the quota evaluator *)

(** C9. For the empty list of student ids the evaluator returns the empty
    result and leaves the world as it is: no request is issued, the database
    is not touched. For a list that is not empty it always issues a request,
    whether it is answered or not. *)
Theorem evaluate_empty_selection (cat : sport_type) (w : World) :
  getStudentRegistrationInfo [] cat w = (Ok [], w) ∧
  ∀ i ids,
    (issued w < issued (getStudentRegistrationInfo (i :: ids) cat w).2)%nat.
Proof.
  split; [reflexivity|]. intros i ids.
  unfold getStudentRegistrationInfo. cbn [length Nat.eqb].
  unfold bind, checked, bind, fetchRegistrationLimits. unfold bind, checked, bind.
  destruct (faults w (issued w)) eqn:Hf0;
    [rewrite request_failed by exact Hf0; cbn; lia|].
  rewrite request_answered by exact Hf0. cbn [fst snd db faults issued].
  unfold select_settings_in at 1, query at 1. cbn [fst snd]. unfold ret at 1.
  unfold ret at 1. cbv beta iota.
  destruct (faults w (S (issued w))) eqn:Hf1;
    [rewrite request_failed by exact Hf1; cbn; lia|].
  rewrite request_answered by exact Hf1. cbn [fst snd db faults issued].
  unfold select_students_in at 1, query at 1. cbn [fst snd]. unfold ret at 1.
  destruct (faults w (S (S (issued w)))) eqn:Hf2;
    [rewrite request_failed by exact Hf2; cbn; lia|].
  rewrite request_answered by exact Hf2. cbn [fst snd db faults issued].
  unfold select_quota_rows at 1, query at 1. cbn [fst snd]. unfold ret.
  cbn [snd issued]. lia.
Qed.

(** C5. The evaluator returns whenever the storage answers, and in every
    report it returns the count of a student is the number of rows of the
    ledger that belong to the student, are pending or approved, and are for a
    sport of the category. Rejected rows add nothing to it, and a deleted row
    is no longer counted. The counts the form loads for its students, per
    category, are the same numbers. *)
Theorem quota_count_pending_or_approved (w : World) (ids : list uuid)
    (cat : sport_type) :
  (reliable w → ∃ infos w', getStudentRegistrationInfo ids cat w = (Ok infos, w')) ∧
  (∀ infos w',
     getStudentRegistrationInfo ids cat w = (Ok infos, w') →
     (∀ student, student ∈ students (db w) → st_id student ∈ ids →
        ∃ info, info ∈ infos ∧ id info = st_id student) ∧
     (∀ info, info ∈ infos →
        currentCount info =
          Z.of_nat (length (filter
            (λ r, reg_student_id r = id info ∧
                  (reg_status r = pending ∨ reg_status r = approved) ∧
                  category_of (db w) r = Some cat)
            (registrations (db w)))) ∧
        currentCount info =
          Z.of_nat (length (filter
            (λ r, counts_toward_quota (db w) (id info) cat r)
            (filter (λ r, reg_status r ≠ rejected) (registrations (db w))))) ∧
        ∀ rid now,
          Z.of_nat (quota_count (delete_registration rid now (db w)).2 (id info) cat) =
            currentCount info -
            Z.of_nat (length (filter
              (λ r, counts_toward_quota (db w) (id info) cat r ∧ reg_id r = rid)
              (registrations (db w)))))) ∧
  (∀ st, reliable w → form_students st ≠ [] →
     ∃ st' w',
       fetchStudentRegistrationCounts st w = (Ok st', w') ∧
       ∀ s, s ∈ form_students st →
         studentRegistrationCounts st' !! st_id s =
           Some (mkCounts (Z.of_nat (quota_count (db w) (st_id s) game))
                          (Z.of_nat (quota_count (db w) (st_id s) athletic)))).
Proof.
  split; [apply getStudentRegistrationInfo_returns|].
  split; [|intros st Hrel Hst; apply fetchStudentRegistrationCounts_run; assumption].
  intros infos w' Hrun.
  apply getStudentRegistrationInfo_ok in Hrun as [_ HF].
  apply evaluator_covers_selection in HF as [Hcover Hinfo].
  split; [exact Hcover|].
  intros info Hin. destruct (Hinfo info Hin) as (_ & _ & Hc).
  split; [exact Hc|]. split.
  - rewrite Hc. f_equal. unfold quota_count.
    rewrite list_filter_filter. f_equal.
    apply list_filter_iff. intros r. unfold counts_toward_quota.
    split; [|tauto]. intros (? & [Hs|Hs] & ?); rewrite Hs; repeat split; auto.
  - intros rid now. rewrite Hc. unfold quota_count at 1.
    change (registrations (delete_registration rid now (db w)).2)
      with (filter (λ r, reg_id r ≠ rid) (registrations (db w))).
    rewrite list_filter_filter.
    rewrite (list_filter_iff _
               (λ r, counts_toward_quota (db w) (id info) cat r ∧ ¬ reg_id r = rid))
      by (intros r;
          rewrite (counts_toward_quota_sports (db w)
                     (delete_registration rid now (db w)).2) by reflexivity;
          reflexivity).
    unfold quota_count.
    rewrite (filter_length_split (counts_toward_quota (db w) (id info) cat)
               (λ r, reg_id r = rid)).
    lia.
Qed.



(** ** The system settings reader *)

Lemma strict_ne_false_spec (v : js_value) :
  strict_ne_false v = false ↔ v = JBool false.
Proof.
  destruct v as [| |[]| | |]; simpl; split; intros H;
    try reflexivity; try discriminate.
Qed.

(** C10. [fetchSystemSettings] never throws: whatever the world, it returns
    settings and leaves the database as it is. [signUpEnabled] is true when
    the request fails and when there is no [sign_up_enabled] row; it is false
    exactly when the request is answered and the row's [enabled] is the
    boolean [false]. *)
Theorem fetchSystemSettings_never_throws (w : World) :
  ∃ s w',
    fetchSystemSettings w = (Ok s, w') ∧ db w' = db w ∧
    (faults w (issued w) = true → signUpEnabled s = true) ∧
    (settings (db w) !! "sign_up_enabled" = None → signUpEnabled s = true) ∧
    (signUpEnabled s = false ↔
       faults w (issued w) = false ∧
       ∃ v, settings (db w) !! "sign_up_enabled" = Some v ∧
            sv_enabled v = JBool false).
Proof.
  unfold fetchSystemSettings, try_catch, bind, checked, bind.
  destruct (faults w (issued w)) eqn:Hf.
  - rewrite request_failed by assumption. cbn.
    eexists _, _. split; [reflexivity|]. split; [reflexivity|].
    split; [reflexivity|]. split; [reflexivity|]. cbn.
    split; [discriminate|]. intros [? _]. discriminate.
  - rewrite request_answered by assumption.
    unfold select_settings_in at 1, query at 1. cbn [fst snd].
    unfold ret. eexists _, _. split; [reflexivity|]. split; [reflexivity|].
    cbn [signUpEnabled]. rewrite settingsMap_of_select.
    rewrite decide_True by (repeat constructor).
    split; [discriminate|]. split.
    + intros ->. reflexivity.
    + rewrite strict_ne_false_spec. split.
      * intros He. split; [reflexivity|].
        destruct (settings (db w) !! "sign_up_enabled") as [v|]; [|discriminate].
        exists v. split; [reflexivity|exact He].
      * intros (_ & v & -> & He). exact He.
Qed.

(** ** Role scoping *)

Lemma coordinator_year_text_label (p : Profile) :
  role p ≠ admin →
  ∃ y, coordinator_year_text (Some p) = year_label y ∧
       parse_year (coordinator_year_text (Some p)) = Some y ∧
       ∀ y', coordinator_policy (role p) y' = true ↔ y' = y.
Proof.
  intros Hne. unfold coordinator_year_text.
  destruct (role p); [contradiction| | | |].
  - exists first. repeat split; try reflexivity; destruct y'; try discriminate; reflexivity.
  - exists second. repeat split; try reflexivity; destruct y'; try discriminate; reflexivity.
  - exists third. repeat split; try reflexivity; destruct y'; try discriminate; reflexivity.
  - exists fourth. repeat split; try reflexivity; destruct y'; try discriminate; reflexivity.
Qed.

Lemma is_admin_role (p : Profile) : is_admin (Some p) = bool_decide (role p = admin).
Proof. reflexivity. Qed.

Lemma fetchRegistrations_run (w : World) (profile : option Profile) (ps : PageState) :
  reliable w →
  ∃ ps' w',
    fetchRegistrations profile ps w = (Ok ps', w') ∧ db w' = db w ∧
    faults w' = faults w ∧
    ((page_toasts ps' = page_toasts ps ∧
      (fst (select_registration_views
              (if negb (is_admin profile) then Some (coordinator_year_text profile)
               else None) (issued w) (db w))) = RData (page_registrations ps')) ∨
     (page_toasts ps' = page_toasts ps ++ [LoadFailed] ∧
      page_registrations ps' = page_registrations ps ∧
      ∃ e, (fst (select_registration_views
              (if negb (is_admin profile) then Some (coordinator_year_text profile)
               else None) (issued w) (db w))) = RError e)).
Proof.
  intros Hrel. unfold fetchRegistrations, try_catch, bind, checked, bind.
  rewrite request_answered by apply Hrel. cbn [fst snd db faults issued].
  assert (Hdb : ∀ yf n d, (select_registration_views yf n d).2 = d).
  { intros yf n d. unfold select_registration_views.
    destruct yf as [y|]; [destruct (parse_year y)|]; reflexivity. }
  rewrite Hdb.
  destruct (select_registration_views _ (issued w) (db w)).1 as [data|e] eqn:Hsel.
  - unfold ret at 1. cbv beta iota.
    destruct (is_admin profile) eqn:Hadm.
    + unfold fetchRegistrationLimitsData, try_catch, bind.
      rewrite fetchRegistrationLimits_run by apply Hrel. unfold ret at 1.
      cbv beta iota.
      unfold page_fetchStudentRegistrationCounts, try_catch, bind, checked, bind.
      rewrite request_answered by apply Hrel. cbn [fst snd db faults issued].
      unfold select_quota_rows at 1, query at 1. cbn [fst snd]. unfold ret.
      eexists _, _. split; [reflexivity|]. split; [reflexivity|].
      split; [reflexivity|]. left. split; reflexivity.
    + unfold ret. eexists _, _. split; [reflexivity|]. split; [reflexivity|].
      split; [reflexivity|]. left. split; reflexivity.
  - unfold throw, ret. eexists _, _. split; [reflexivity|].
    split; [reflexivity|]. split; [reflexivity|]. right.
    split; [reflexivity|]. split; [reflexivity|]. exists e. reflexivity.
Qed.

(** C6. For each of the four coordinator roles the text obtained by
    stripping ["_coordinator"] and ["_year"] from the role is the label of the
    year the migration's policy gives the role, and [fetchStudents] loads
    exactly the students of that year; the [Registrations] page shows a
    coordinator exactly the registrations of students of that year, and shows
    an admin every registration: for admin no year filter is applied. *)
Theorem role_scope_is_own_year (w : World) (p : Profile) (st : FormState)
    (ps : PageState) :
  reliable w →
  (role p ≠ admin →
     ∃ y, coordinator_year_text (Some p) = year_label y ∧
          (∀ y', coordinator_policy (role p) y' = true ↔ y' = y) ∧
          ∃ st' w',
            fetchStudents (Some p) st w = (Ok st', w') ∧
            ∀ s, s ∈ form_students st' ↔ s ∈ students (db w) ∧ st_year s = y) ∧
  (∃ ps' w',
     fetchRegistrations (Some p) ps w = (Ok ps', w') ∧
     ∀ v, v ∈ page_registrations ps' ↔
          v ∈ omap (registration_view (db w)) (registrations (db w)) ∧
          may_view_student (role p) (st_year (rv_student v)) = true) ∧
  (∀ y, may_view_student admin y = true).
Proof.
  intros Hrel. split; [|split].
  - intros Hne.
    destruct (coordinator_year_text_label p Hne) as (y & Htext & Hparse & Hpol).
    exists y. split; [exact Htext|]. split; [exact Hpol|].
    unfold fetchStudents. rewrite is_admin_role, bool_decide_eq_false_2 by assumption.
    unfold bind, checked, bind.
    rewrite request_answered by apply Hrel. cbn [fst snd db faults issued].
    unfold select_students_by_year at 1. rewrite Hparse. cbn [fst snd].
    unfold ret. eexists _, _. split; [reflexivity|].
    intros s. cbn [form_students setStudents].
    rewrite merge_sort_Permutation, list_elem_of_filter. tauto.
  - destruct (fetchRegistrations_run w (Some p) ps Hrel)
      as (ps' & w' & Hrun & _ & _ & Hcases).
    exists ps', w'. split; [exact Hrun|].
    rewrite is_admin_role in Hcases. unfold select_registration_views in Hcases.
    destruct (decide (role p = admin)) as [Hadm|Hne].
    + rewrite bool_decide_eq_true_2 in Hcases by assumption. cbn in Hcases.
      destruct Hcases as [[_ Hdata]|(_ & _ & e & He)]; [|discriminate].
      injection Hdata as <-. intros v. rewrite merge_sort_Permutation.
      unfold may_view_student. rewrite bool_decide_eq_true_2 by assumption.
      cbn. tauto.
    + rewrite bool_decide_eq_false_2 in Hcases by assumption. cbn [negb] in Hcases.
      destruct (coordinator_year_text_label p Hne) as (y & Htext & Hparse & Hpol).
      rewrite Hparse in Hcases. cbn [fst] in Hcases.
      destruct Hcases as [[_ Hdata]|(_ & _ & e & He)]; [|discriminate].
      injection Hdata as <-. intros v.
      rewrite merge_sort_Permutation, list_elem_of_filter.
      unfold may_view_student. rewrite bool_decide_eq_false_2 by assumption.
      cbn [orb]. rewrite Hpol. tauto.
  - intros y. reflexivity.
Qed.

(** C6 at the example, for the coordinator of the second year. *)
Lemma role_scope_is_own_year_demo :
  (role second_year ≠ admin →
     ∃ y, coordinator_year_text (Some second_year) = year_label y ∧
          (∀ y', coordinator_policy (role second_year) y' = true ↔ y' = y) ∧
          ∃ st' w',
            fetchStudents (Some second_year) empty_form demo_world = (Ok st', w') ∧
            ∀ s, s ∈ form_students st' ↔
                 s ∈ students (db demo_world) ∧ st_year s = y) ∧
  (∃ ps' w',
     fetchRegistrations (Some second_year) empty_page demo_world = (Ok ps', w') ∧
     ∀ v, v ∈ page_registrations ps' ↔
          v ∈ omap (registration_view (db demo_world)) (registrations (db demo_world)) ∧
          may_view_student (role second_year) (st_year (rv_student v)) = true) ∧
  (∀ y, may_view_student admin y = true).
Proof.
  apply (role_scope_is_own_year demo_world second_year empty_form empty_page).
  intros n. reflexivity.
Defined.

(** ** Inserts, updates and deletes on the ledger *)

Lemma insert_rows_Some now rows :
  ∀ d d',
    insert_rows now rows d = Some d' →
    registrations d' = registrations d ++ new_registrations now (next_uuid d) rows ∧
    students d' = students d ∧ sports d' = sports d ∧ settings d' = settings d ∧
    NoDup (map nr_pair rows) ∧
    (∀ row, row ∈ rows → nr_pair row ∉ map pair_of (registrations d)).
Proof.
  induction rows as [|row rest IH]; intros d d' Hins; simpl in Hins.
  - injection Hins as <-. rewrite app_nil_r.
    repeat split; try constructor. intros row Hrow. apply elem_of_nil in Hrow.
    contradiction.
  - case_decide as Hdup; [discriminate|].
    apply IH in Hins as (Hreg & Hst & Hsp & Hset & Hnd & Hfresh).
    simpl in Hreg, Hst, Hsp, Hset. rewrite <- app_assoc in Hreg. simpl in Hreg.
    split; [exact Hreg|]. repeat split; try assumption.
    + simpl. apply NoDup_cons. split; [|exact Hnd].
      intros Hin. apply list_elem_of_fmap in Hin as (row' & Heq & Hrow').
      apply (Hfresh row' Hrow'). simpl. rewrite map_app. simpl.
      apply elem_of_app. right. rewrite <- Heq. apply list_elem_of_here.
    + intros row' Hrow'. apply elem_of_cons in Hrow' as [->|Hrow']; [exact Hdup|].
      intros Hin. apply (Hfresh row' Hrow'). simpl. rewrite map_app.
      apply elem_of_app. left. exact Hin.
Qed.

Lemma insert_rows_accepts now rows :
  ∀ d,
    NoDup (map nr_pair rows) →
    (∀ row, row ∈ rows → nr_pair row ∉ map pair_of (registrations d)) →
    ∃ d', insert_rows now rows d = Some d'.
Proof.
  induction rows as [|row rest IH]; intros d Hnd Hfresh; simpl.
  - exists d. reflexivity.
  - apply NoDup_cons in Hnd as [Hrow Hnd].
    rewrite decide_False by (apply Hfresh, list_elem_of_here).
    apply IH; [exact Hnd|]. intros row' Hrow'. simpl. rewrite map_app.
    rewrite elem_of_app. intros [Hin|Hin].
    + apply (Hfresh row'); [apply list_elem_of_further; exact Hrow'|exact Hin].
    + simpl in Hin. apply list_elem_of_singleton in Hin.
      apply Hrow. apply list_elem_of_fmap. exists row'. split; [symmetry|]; assumption.
Qed.

Lemma insert_rows_rejects now rows :
  ∀ d row,
    row ∈ rows → nr_pair row ∈ map pair_of (registrations d) →
    insert_rows now rows d = None.
Proof.
  intros d row Hrow Hin.
  destruct (insert_rows now rows d) as [d'|] eqn:Hins; [|reflexivity].
  apply insert_rows_Some in Hins as (_ & _ & _ & _ & _ & Hfresh).
  exfalso. exact (Hfresh row Hrow Hin).
Qed.

Lemma new_registrations_pairs now next rows :
  map pair_of (new_registrations now next rows) = map nr_pair rows.
Proof.
  revert next. induction rows as [|row rest IH]; intros next; [reflexivity|].
  simpl. rewrite IH. reflexivity.
Qed.

Lemma insert_registrations_unique rows now d :
  ledger_unique d → ledger_unique (insert_registrations rows now d).2.
Proof.
  intros Hu. unfold insert_registrations.
  destruct (insert_rows now rows d) as [d'|] eqn:Hins; [|exact Hu].
  case_decide; [|exact Hu]. cbn [snd].
  apply insert_rows_Some in Hins as (Hreg & _ & _ & _ & Hnd & Hfresh).
  unfold ledger_unique. rewrite Hreg, map_app, new_registrations_pairs.
  apply NoDup_app. split; [exact Hu|]. split; [|exact Hnd].
  intros pr Hin Hin'. apply list_elem_of_fmap in Hin' as (row & -> & Hrow).
  exact (Hfresh row Hrow Hin).
Qed.

Lemma update_registration_status_pairs rid s now d :
  map pair_of (registrations (update_registration_status rid s now d).2) =
  map pair_of (registrations d).
Proof.
  cbn [update_registration_status snd registrations].
  rewrite map_map. apply map_ext. intros r. case_decide; reflexivity.
Qed.

Lemma update_registration_status_unique rid s now d :
  ledger_unique d → ledger_unique (update_registration_status rid s now d).2.
Proof.
  unfold ledger_unique. rewrite update_registration_status_pairs. tauto.
Qed.

Lemma delete_registration_unique rid now d :
  ledger_unique d → ledger_unique (delete_registration rid now d).2.
Proof.
  unfold ledger_unique. cbn [delete_registration snd registrations].
  intros Hu. apply (sublist_NoDup _ (map pair_of (registrations d))); [exact Hu|].
  apply fmap_sublist, sublist_filter.
Qed.

(** ** The registration workflow *)

Lemma truthy_js_or_false (v : js_value) :
  truthy (js_or v (JBool false)) = truthy v.
Proof. unfold js_or. destruct (truthy v) eqn:Hv; [exact Hv|reflexivity]. Qed.

Lemma select_setting_single_run key now d :
  select_setting_single key now d =
    (match settings d !! key with
     | Some v => RData v
     | None => RError NoRows
     end, d).
Proof. unfold select_setting_single. destruct (settings d !! key); reflexivity. Qed.

Lemma insert_registrations_cases rows now d :
  (∃ d', insert_registrations rows now d = (RData (), d') ∧
         insert_rows now rows d = Some d' ∧ Forall (references_ok d) rows) ∨
  (∃ e, insert_registrations rows now d = (RError e, d)).
Proof.
  unfold insert_registrations.
  destruct (insert_rows now rows d) as [d'|]; [|right; eexists; reflexivity].
  case_decide; [left|right]; eexists; auto.
Qed.

Lemma performRegistration_run sport profile st w :
  let status := if faults w (issued w) then pending else initial_status_of (db w) in
  let rows := registration_rows sport profile status (selectedStudents st) in
  ∃ st' w',
    performRegistration sport profile st w = (Ok st', w') ∧
    selectedStudents st' = selectedStudents st ∧
    ((faults w (S (issued w)) = false ∧
      (∃ d1, insert_registrations rows (S (issued w)) (db w) = (RData (), d1) ∧
             registrations (db w') = registrations d1 ∧
             students (db w') = students d1 ∧ sports (db w') = sports d1 ∧
             settings (db w') = settings d1) ∧
      ∃ b, form_toasts st' =
             form_toasts st ++ [RegistrationSucceeded (length (selectedStudents st)) b])
     ∨
     ((faults w (S (issued w)) = true ∨
       ∃ e, insert_registrations rows (S (issued w)) (db w) = (RError e, db w)) ∧
      db w' = db w ∧ form_toasts st' = form_toasts st ++ [RegistrationFailed])).
Proof.
  intros status rows.
  assert (Hrows :
    map (λ studentId, mkNewRegistration studentId (sp_id sport)
           (profile_id <$> profile)
           (if truthy (js_or (data_enabled
                 (if faults w (issued w) then RError NetworkError
                  else match settings (db w) !! "auto_approve_registrations" with
                       | Some v => RData v
                       | None => RError NoRows
                       end)) (JBool false))
            then approved else pending))
        (selectedStudents st) = rows).
  { subst rows status. unfold registration_rows. f_equal.
    rewrite truthy_js_or_false. unfold initial_status_of.
    destruct (faults w (issued w)); [reflexivity|].
    destruct (settings (db w) !! "auto_approve_registrations"); reflexivity. }
  unfold performRegistration, try_catch, bind, checked, bind.
  assert (Hfirst : request (select_setting_single "auto_approve_registrations") w =
    (Ok (if faults w (issued w) then RError NetworkError
         else match settings (db w) !! "auto_approve_registrations" with
              | Some v => RData v
              | None => RError NoRows
              end),
     mkWorld (db w) (faults w) (S (issued w)))).
  { unfold request. rewrite select_setting_single_run.
    destruct (faults w (issued w)); reflexivity. }
  rewrite Hfirst. cbv beta iota. rewrite Hrows.
  destruct (faults w (S (issued w))) eqn:Hf1.
  - rewrite request_failed by exact Hf1. cbv beta iota. unfold throw, ret.
    eexists _, _. split; [reflexivity|]. split; [reflexivity|].
    right. split; [left; reflexivity|]. split; reflexivity.
  - rewrite request_answered by exact Hf1. cbn [fst snd db faults issued].
    destruct (insert_registrations_cases rows (S (issued w)) (db w))
      as [(d1 & Hins & _)|(e & Hins)]; rewrite Hins; cbn [fst snd].
    + unfold ret at 1. cbv beta iota.
      unfold request. cbn [db faults issued].
      destruct (faults w (S (S (issued w)))); cbn; unfold ret;
        (eexists _, _; split; [reflexivity|]; split; [reflexivity|];
         left; split; [reflexivity|]; split;
         [exists d1; repeat split; reflexivity | eexists; reflexivity]).
    + unfold throw, ret. eexists _, _. split; [reflexivity|]. split; [reflexivity|].
      right. split; [right; exists e; reflexivity|]. split; reflexivity.
Qed.

Lemma handleSubmit_warning sport profile st w infos w1 :
  selectedStudents st ≠ [] →
  getStudentRegistrationInfo (selectedStudents st) (sp_type sport) w = (Ok infos, w1) →
  getStudentsExceedingLimits infos (sp_type sport) ≠ [] →
  handleSubmit sport profile st w =
    (Ok (setShowWarningDialog true
           (setStudentsExceedingLimits
              (getStudentsExceedingLimits infos (sp_type sport)) st)), w1).
Proof.
  intros Hsel Hrun Hex. unfold handleSubmit.
  destruct (selectedStudents st) as [|i sel] eqn:Hs; [contradiction|].
  cbn [length Nat.eqb]. unfold try_catch, bind at 1. unfold bind at 1.
  rewrite Hrun. unfold getStudentsExceedingLimits in Hex |- *.
  destruct (filter _ infos) as [|x l]; [contradiction|].
  cbn [length Nat.ltb Nat.leb]. unfold ret. reflexivity.
Qed.

Lemma new_registrations_students now next sport profile status (sel : list uuid) :
  map reg_student_id
    (new_registrations now next (registration_rows sport profile status sel)) = sel ∧
  Forall (λ r, reg_sport_id r = sp_id sport ∧ reg_status r = status)
    (new_registrations now next (registration_rows sport profile status sel)).
Proof.
  revert next. induction sel as [|i sel IH]; intros next; [split; constructor|].
  destruct (IH (S next)) as [Hm HF]. simpl. split.
  - f_equal. exact Hm.
  - constructor; [split; reflexivity|exact HF].
Qed.

Lemma registration_rows_accepted sport profile status (sel : list uuid) now d :
  NoDup sel →
  (∀ sid, sid ∈ sel → sid ∈ map st_id (students d)) →
  sp_id sport ∈ map sp_id (sports d) →
  (∀ sid, sid ∈ sel → (sid, sp_id sport) ∉ map pair_of (registrations d)) →
  ∃ d1,
    insert_registrations (registration_rows sport profile status sel) now d =
      (RData (), d1) ∧
    registrations d1 =
      registrations d ++
      new_registrations now (next_uuid d) (registration_rows sport profile status sel).
Proof.
  intros Hnd Hst Hsp Hfresh.
  destruct (insert_rows_accepts now (registration_rows sport profile status sel) d)
    as [d1 Hins].
  - unfold registration_rows. rewrite map_map. cbn.
    apply (NoDup_fmap_2 (λ sid : nat, (sid, sp_id sport))). exact Hnd.
  - intros row Hrow. apply list_elem_of_fmap in Hrow as (sid & -> & Hsid).
    apply Hfresh. exact Hsid.
  - exists d1. unfold insert_registrations. rewrite Hins.
    rewrite decide_True.
    + split; [reflexivity|]. apply insert_rows_Some in Hins as (Hreg & _). exact Hreg.
    + apply Forall_forall. intros row Hrow.
      apply list_elem_of_fmap in Hrow as (sid & -> & Hsid).
      split; [apply Hst; exact Hsid|exact Hsp].
Qed.




(** ** A limit of zero *)

Lemma info_matches_ids d cat (l : list Student) infos :
  Forall2 (info_matches d cat) l infos → map id infos = map st_id l.
Proof.
  induction 1 as [|s info l infos (Hid & _) _ IH]; [reflexivity|].
  cbn [map]. rewrite Hid, IH. reflexivity.
Qed.

(** C1, as the code has it. When the limit stored for the category is 0 or
    there is none, the evaluator returns whenever the storage answers, and
    every report it returns has every selected student, each with limit 0,
    and every reported student is in the list of students exceeding the
    limit, whatever the student's count: no student passes the check
    [currentCount >= limit]. The check is therefore not switched off: when
    the storage answers, [handleSubmit] for a sport of the category and a
    selection with at least one student in it opens the warning dialog with
    every selected student, shows no toast and leaves the database as it
    is. *)
Theorem zero_limit_exceeds_everyone (w : World) (ids : list uuid)
    (cat : sport_type) :
  stored_limit (db w) cat = None ∨ stored_limit (db w) cat = Some 0 →
  (reliable w → ∃ infos w', getStudentRegistrationInfo ids cat w = (Ok infos, w')) ∧
  (∀ infos w',
     getStudentRegistrationInfo ids cat w = (Ok infos, w') →
     (∀ student, student ∈ students (db w) → st_id student ∈ ids →
        ∃ info, info ∈ infos ∧ id info = st_id student) ∧
     (∀ info, info ∈ infos → limit info = 0) ∧
     getStudentsExceedingLimits infos cat = infos ∧
     canRegister (checkRegistrationLimits infos cat) = bool_decide (infos = [])) ∧
  (∀ sport profile st,
     sp_type sport = cat → selectedStudents st = ids → reliable w →
     (∃ student, student ∈ students (db w) ∧ st_id student ∈ ids) →
     ∃ exceeding w',
       handleSubmit sport profile st w =
         (Ok (setShowWarningDialog true (setStudentsExceedingLimits exceeding st)),
          w') ∧
       db w' = db w ∧
       map id exceeding =
         map st_id (filter (λ s, st_id s ∈ ids) (students (db w))) ∧
       (∀ info, info ∈ exceeding →
          limit info = 0 ∧
          currentCount info = Z.of_nat (quota_count (db w) (id info) cat))).
Proof.
  intros Hlim.
  assert (Hreport : ∀ infos w',
    getStudentRegistrationInfo ids cat w = (Ok infos, w') →
    (∀ student, student ∈ students (db w) → st_id student ∈ ids →
       ∃ info, info ∈ infos ∧ id info = st_id student) ∧
    (∀ info, info ∈ infos → limit info = 0) ∧
    getStudentsExceedingLimits infos cat = infos).
  { intros infos w' Hrun.
    apply getStudentRegistrationInfo_ok in Hrun as [_ HF].
    apply evaluator_covers_selection in HF as [Hcover Hinfo].
    split; [exact Hcover|].
    assert (Hzero : ∀ info, info ∈ infos → limit info = 0).
    { intros info Hin. destruct (Hinfo info Hin) as (_ & Hl & _).
      rewrite Hl. unfold limit_or_zero. unfold stored_limit in Hlim.
      destruct Hlim as [-> | ->]; reflexivity. }
    split; [exact Hzero|].
    unfold getStudentsExceedingLimits. apply filter_all, Forall_forall.
    intros info Hin. rewrite (Hzero info Hin).
    destruct (Hinfo info Hin) as (_ & _ & ->). lia. }
  split; [apply getStudentRegistrationInfo_returns|]. split.
  - intros infos w' Hrun. destruct (Hreport infos w' Hrun) as (Hcover & Hzero & Hall).
    split; [exact Hcover|]. split; [exact Hzero|]. split; [exact Hall|].
    unfold checkRegistrationLimits. cbn [canRegister].
    unfold getStudentsExceedingLimits in Hall. rewrite Hall.
    destruct infos; reflexivity.
  - intros sport profile st Hcat Hsel Hrel (student & Hst & Hin).
    destruct (getStudentRegistrationInfo_returns w ids cat Hrel) as (infos & w' & Hrun).
    destruct (Hreport infos w' Hrun) as (Hcover & Hzero & Hall).
    destruct (getStudentRegistrationInfo_ok w ids cat infos w' Hrun) as [Hdb HF].
    destruct (Hcover student Hst Hin) as (info & Hinfo & _).
    exists infos, w'. split.
    + rewrite <- Hall, <- Hcat.
      apply handleSubmit_warning.
      * rewrite Hsel. intros ->. apply elem_of_nil in Hin. exact Hin.
      * rewrite Hsel, Hcat. exact Hrun.
      * rewrite Hcat, Hall. intros ->. apply elem_of_nil in Hinfo. exact Hinfo.
    + split; [exact Hdb|]. split; [apply (info_matches_ids _ _ _ _ HF)|].
      intros i Hi. split; [apply Hzero; exact Hi|].
      apply evaluator_covers_selection in HF as [_ Hi']. apply (Hi' i Hi).
Qed.

(** C1, as the code has it, at the example with the game limit 0: students 2
    and 3 are selected for cricket. *)
Lemma zero_limit_exceeds_everyone_demo :
  (∃ infos w',
     getStudentRegistrationInfo [2; 3]%nat game zero_limit_world = (Ok infos, w') ∧
     (∀ info, info ∈ infos → limit info = 0) ∧
     getStudentsExceedingLimits infos game = infos) ∧
  (∃ exceeding w',
     handleSubmit cricket demo_coordinator (setSelectedStudents [2; 3]%nat empty_form)
       zero_limit_world =
       (Ok (setShowWarningDialog true
              (setStudentsExceedingLimits exceeding
                 (setSelectedStudents [2; 3]%nat empty_form))), w') ∧
     db w' = db zero_limit_world ∧
     map id exceeding = [2; 3]%nat).
Proof.
  destruct (zero_limit_exceeds_everyone zero_limit_world [2; 3]%nat game
              (or_intror eq_refl)) as (Hreturns & Hreport & Hsubmit).
  split.
  - destruct (Hreturns (λ _, eq_refl)) as (infos & w' & Hrun).
    exists infos, w'. split; [exact Hrun|].
    destruct (Hreport infos w' Hrun) as (_ & Hzero & Hall & _).
    split; assumption.
  - destruct (Hsubmit cricket demo_coordinator
                (setSelectedStudents [2; 3]%nat empty_form) eq_refl eq_refl
                (λ _, eq_refl))
      as (exceeding & w' & Hrun & Hdb & Hids & _).
    + exists (mkStudent 2 "Binu" "R002" "ECE" second). split; compute_done.
    + exists exceeding, w'. split; [exact Hrun|]. split; [exact Hdb|].
      rewrite Hids. reflexivity.
Defined.

(** C1, as the specification states it, fails: the game limit is 0, student 3
    has no registration at all, and the evaluator's report puts the student
    in the list of students exceeding the limit; submitting the student for
    cricket opens the warning dialog and registers nobody. *)
Lemma zero_limit_student_reported_exceeding :
  stored_limit (db zero_limit_world) game = Some 0 ∧
  quota_count (db zero_limit_world) 3 game = 0%nat ∧
  (∃ infos w' info,
     getStudentRegistrationInfo [3]%nat game zero_limit_world = (Ok infos, w') ∧
     info ∈ infos ∧ id info = 3%nat ∧ currentCount info = 0 ∧ limit info = 0 ∧
     info ∈ getStudentsExceedingLimits infos game) ∧
  (∃ st1 w1,
     handleSubmit cricket demo_coordinator third_selected zero_limit_world =
       (Ok st1, w1) ∧
     showWarningDialog st1 = true ∧
     map id (studentsExceedingLimits st1) = [3]%nat ∧
     registrations (db w1) = registrations (db zero_limit_world)).
Proof.
  split; [reflexivity|]. split; [reflexivity|]. split.
  - eexists _, _, _. split; [vm_compute; reflexivity|].
    split; [apply list_elem_of_here|].
    repeat split. unfold getStudentsExceedingLimits.
    apply list_elem_of_filter. split; [simpl; lia|apply list_elem_of_here].
  - eexists _, _. split; [vm_compute; reflexivity|].
    split; [reflexivity|]. split; reflexivity.
Qed.

Lemma performRegistration_appends sport profile st w :
  ∃ st' w' new,
    performRegistration sport profile st w = (Ok st', w') ∧
    registrations (db w') = registrations (db w) ++ new.
Proof.
  destruct (performRegistration_run sport profile st w)
    as (st' & w' & Hrun & _ & Hcases).
  destruct Hcases as [(_ & (d1 & Hins & Hreg & _) & _)|(_ & Hdb & _)].
  - destruct (insert_registrations_cases
                (registration_rows sport profile
                   (if faults w (issued w) then pending else initial_status_of (db w))
                   (selectedStudents st)) (S (issued w)) (db w))
      as [(d1' & Hins' & Hrows & _)|(e & Hins')]; rewrite Hins' in Hins.
    + injection Hins as <-. apply insert_rows_Some in Hrows as (Hreg' & _).
      eexists st', w', _. split; [exact Hrun|]. rewrite Hreg. exact Hreg'.
    + discriminate.
  - exists st', w', []. split; [exact Hrun|]. rewrite Hdb, app_nil_r. reflexivity.
Qed.

(** ** What a run does to the database *)

Section Respects.
Variable R : Database → Database → Prop.
Hypothesis R_refl : ∀ d, R d d.
Hypothesis R_trans : ∀ d1 d2 d3, R d1 d2 → R d2 d3 → R d1 d3.

Lemma respects_ret {A} (a : A) : respects R (ret a).
Proof. intros w o w' H. injection H as _ <-. apply R_refl. Qed.

Lemma respects_throw {A} e : respects R (@throw A e).
Proof. intros w o w' H. injection H as _ <-. apply R_refl. Qed.

Lemma respects_bind {A B} (c : M A) (k : A → M B) :
  respects R c → (∀ a, respects R (k a)) → respects R (bind c k).
Proof.
  intros Hc Hk w o w' H. unfold bind in H.
  destruct (c w) as [[a|e] w1] eqn:Hcw.
  - eapply R_trans; [eapply Hc; exact Hcw|eapply Hk; exact H].
  - injection H as _ <-. eapply Hc; exact Hcw.
Qed.

Lemma respects_try_catch {A} (c : M A) (h : PgError → M A) :
  respects R c → (∀ e, respects R (h e)) → respects R (try_catch c h).
Proof.
  intros Hc Hh w o w' H. unfold try_catch in H.
  destruct (c w) as [[a|e] w1] eqn:Hcw.
  - injection H as _ <-. eapply Hc; exact Hcw.
  - eapply R_trans; [eapply Hc; exact Hcw|eapply Hh; exact H].
Qed.

Lemma respects_request {A} (q : Statement A) :
  (∀ now d, R d (q now d).2) → respects R (request q).
Proof.
  intros Hq w o w' H. unfold request in H.
  destruct (faults w (issued w)).
  - injection H as _ <-. apply R_refl.
  - specialize (Hq (issued w) (db w)).
    destruct (q (issued w) (db w)) as [r d]. injection H as _ <-. exact Hq.
Qed.

Lemma respects_read {A} (q : Statement A) :
  read_only q → respects R (request q).
Proof. intros Hq. apply respects_request. intros now d. rewrite Hq. apply R_refl. Qed.

Lemma respects_checked {A} (c : M (Response A)) :
  respects R c → respects R (checked c).
Proof.
  intros Hc. unfold checked. apply respects_bind; [exact Hc|].
  intros [a|e]; [apply respects_ret|apply respects_throw].
Qed.
End Respects.

Lemma read_only_query {A} (f : Database → A) : read_only (query f).
Proof. intros now d. reflexivity. Qed.

Lemma read_only_select_setting_single key : read_only (select_setting_single key).
Proof. intros now d. rewrite select_setting_single_run. reflexivity. Qed.

Lemma read_only_select_students_by_year y : read_only (select_students_by_year y).
Proof.
  intros now d. unfold select_students_by_year. destruct (parse_year y); reflexivity.
Qed.

Lemma read_only_select_registration_views yf : read_only (select_registration_views yf).
Proof.
  intros now d. unfold select_registration_views.
  destruct yf as [y|]; [destruct (parse_year y)|]; reflexivity.
Qed.

Section Handlers.
Variable R : Database → Database → Prop.
Hypothesis R_refl : ∀ d, R d d.
Hypothesis R_trans : ∀ d1 d2 d3, R d1 d2 → R d2 d3 → R d1 d3.
Hypothesis R_log : ∀ user action now d, R d (insert_activity_log user action now d).2.

Ltac respects_step :=
  first
    [ apply (respects_ret R R_refl)
    | apply (respects_throw R R_refl)
    | apply (respects_checked R R_refl R_trans)
    | apply (respects_read R R_refl);
        first [ apply read_only_query
              | apply read_only_select_setting_single
              | apply read_only_select_students_by_year
              | apply read_only_select_registration_views ]
    | apply (respects_request R R_refl); intros ? ?; apply R_log
    | apply (respects_bind R R_trans); [|intros ?]
    | apply (respects_try_catch R R_trans); [|intros ?] ].

Lemma respects_fetchRegistrationLimits : respects R fetchRegistrationLimits.
Proof. unfold fetchRegistrationLimits. repeat respects_step. Qed.

Lemma respects_getStudentRegistrationInfo ids cat :
  respects R (getStudentRegistrationInfo ids cat).
Proof.
  unfold getStudentRegistrationInfo. destruct (Nat.eqb _ _).
  - respects_step.
  - apply (respects_bind R R_trans); [|intros ?].
    + apply respects_fetchRegistrationLimits.
    + repeat respects_step.
Qed.

Lemma respects_fetchRegistrations profile ps :
  respects R (fetchRegistrations profile ps).
Proof.
  unfold fetchRegistrations.
  apply (respects_try_catch R R_trans); [|intros ?; respects_step].
  apply (respects_bind R R_trans); [|intros data].
  - repeat respects_step.
  - destruct (is_admin profile); [|respects_step].
    apply (respects_bind R R_trans); [|intros ps1].
    + unfold fetchRegistrationLimitsData.
      apply (respects_try_catch R R_trans); [|intros ?; respects_step].
      apply (respects_bind R R_trans); [|intros ?; respects_step].
      apply respects_fetchRegistrationLimits.
    + unfold page_fetchStudentRegistrationCounts. repeat respects_step.
Qed.

Lemma respects_performRegistration sport profile st :
  (∀ rows now d, R d (insert_registrations rows now d).2) →
  respects R (performRegistration sport profile st).
Proof.
  intros R_insert. unfold performRegistration.
  apply (respects_bind R R_trans); [|intros ?; respects_step].
  apply (respects_try_catch R R_trans); [|intros ?; respects_step].
  apply (respects_bind R R_trans); [|intros resp].
  - respects_step.
  - apply (respects_bind R R_trans); [|intros ?].
    + apply (respects_checked R R_refl R_trans).
      apply (respects_request R R_refl). intros now d. apply R_insert.
    + repeat respects_step.
Qed.

Lemma respects_handleSubmit sport profile st :
  (∀ rows now d, R d (insert_registrations rows now d).2) →
  respects R (handleSubmit sport profile st).
Proof.
  intros R_insert. unfold handleSubmit. destruct (Nat.eqb _ _); [respects_step|].
  apply (respects_bind R R_trans); [|intros [st'|]].
  - apply (respects_try_catch R R_trans); [|intros ?; respects_step].
    apply (respects_bind R R_trans); [|intros infos].
    + apply respects_getStudentRegistrationInfo.
    + destruct (Nat.ltb _ _); respects_step.
  - respects_step.
  - apply respects_performRegistration. exact R_insert.
Qed.

Lemma respects_updateRegistrationStatus profile rid ns ps :
  (∀ now d, R d (update_registration_status rid (status_of ns) now d).2) →
  respects R (updateRegistrationStatus profile rid ns ps).
Proof.
  intros R_update. unfold updateRegistrationStatus.
  apply (respects_try_catch R R_trans); [|intros ?; respects_step].
  apply (respects_bind R R_trans); [|intros ?].
  - apply (respects_checked R R_refl R_trans).
    apply (respects_request R R_refl). exact R_update.
  - apply (respects_bind R R_trans); [|intros ?].
    + respects_step.
    + apply respects_fetchRegistrations.
Qed.

Lemma respects_deleteRegistration profile rid confirmed ps :
  (∀ now d, R d (delete_registration rid now d).2) →
  respects R (deleteRegistration profile rid confirmed ps).
Proof.
  intros R_delete. unfold deleteRegistration.
  destruct (negb confirmed); [respects_step|].
  apply (respects_bind R R_trans); [|intros ?; respects_step].
  apply (respects_try_catch R R_trans); [|intros ?; respects_step].
  apply (respects_bind R R_trans); [|intros ?].
  - apply (respects_checked R R_refl R_trans).
    apply (respects_request R R_refl). exact R_delete.
  - apply respects_fetchRegistrations.
Qed.

Lemma respects_fetchStudents profile st : respects R (fetchStudents profile st).
Proof. unfold fetchStudents. destruct (is_admin profile); repeat respects_step. Qed.

Lemma respects_fetchExistingRegistrations sport st :
  respects R (fetchExistingRegistrations sport st).
Proof. unfold fetchExistingRegistrations. repeat respects_step. Qed.

Lemma respects_form_fetchRegistrationLimits st :
  respects R (form_fetchRegistrationLimits st).
Proof. unfold form_fetchRegistrationLimits. repeat respects_step. Qed.

Lemma respects_fetchStudentRegistrationCounts st :
  respects R (fetchStudentRegistrationCounts st).
Proof.
  unfold fetchStudentRegistrationCounts. destruct (Nat.eqb _ _); repeat respects_step.
Qed.

Lemma respects_fetchSystemSettings : respects R fetchSystemSettings.
Proof. unfold fetchSystemSettings. repeat respects_step. Qed.
End Handlers.

Section AppSteps.
Variable R : Database → Database → Prop.
Hypothesis R_refl : ∀ d, R d d.
Hypothesis R_trans : ∀ d1 d2 d3, R d1 d2 → R d2 d3 → R d1 d3.
Hypothesis R_log : ∀ user action now d, R d (insert_activity_log user action now d).2.
Hypothesis R_insert : ∀ rows now d, R d (insert_registrations rows now d).2.
Hypothesis R_update : ∀ rid s now d, R d (update_registration_status rid s now d).2.
Hypothesis R_delete : ∀ rid now d, R d (delete_registration rid now d).2.

Lemma app_step_respects w w' : app_step w w' → R (db w) (db w').
Proof.
  intros [sport profile st o w1 w2 H|sport profile st o w1 w2 H
         |profile ev ps o w1 w2 H|profile st o w1 w2 H|sport st o w1 w2 H
         |st o w1 w2 H|st o w1 w2 H|o w1 w2 H].
  - eapply (respects_handleSubmit R R_refl R_trans R_log); [exact R_insert|exact H].
  - eapply (respects_performRegistration R R_refl R_trans R_log);
      [exact R_insert|exact H].
  - destruct ev as [row|row|row confirmed|]; cbn [handle_event] in H.
    + eapply (respects_updateRegistrationStatus R R_refl R_trans R_log);
        [intros now d; apply R_update|exact H].
    + eapply (respects_updateRegistrationStatus R R_refl R_trans R_log);
        [intros now d; apply R_update|exact H].
    + eapply (respects_deleteRegistration R R_refl R_trans);
        [intros now d; apply R_delete|exact H].
    + eapply (respects_fetchRegistrations R R_refl R_trans); exact H.
  - eapply (respects_fetchStudents R R_refl R_trans); exact H.
  - eapply (respects_fetchExistingRegistrations R R_refl R_trans); exact H.
  - eapply (respects_form_fetchRegistrationLimits R R_refl R_trans); exact H.
  - eapply (respects_fetchStudentRegistrationCounts R R_refl R_trans); exact H.
  - eapply (respects_fetchSystemSettings R R_refl R_trans); exact H.
Qed.

Lemma app_steps_respect w w' : rtc app_step w w' → R (db w) (db w').
Proof.
  induction 1 as [w|w1 w2 w3 Hstep _ IH]; [apply R_refl|].
  eapply R_trans; [apply app_step_respects; exact Hstep|exact IH].
Qed.
End AppSteps.

(** ** One registration per student and sport *)

Lemma NoDup_fmap_count {A B} `{EqDecision B} (f : A → B) (l : list A) (y : B) :
  NoDup (map f l) → (length (filter (λ x, f x = y) l) ≤ 1)%nat.
Proof.
  induction l as [|x l IH]; intros Hnd; [simpl; lia|].
  simpl in Hnd. apply NoDup_cons in Hnd as [Hx Hnd].
  rewrite filter_cons. case_decide as Hy; [|apply IH; exact Hnd].
  cbn [length]. destruct (filter (λ x, f x = y) l) as [|z l'] eqn:Hf; [simpl; lia|].
  exfalso. apply Hx.
  assert (Hz : z ∈ filter (λ x, f x = y) l) by (rewrite Hf; apply list_elem_of_here).
  apply list_elem_of_filter in Hz as [Hzy Hz].
  apply list_elem_of_fmap. exists z. split; [congruence|exact Hz].
Qed.

(** C4. In every state the application reaches from an empty ledger, the
    ledger has at most one registration per (student, sport) pair. There, an
    insert with a row for a pair the ledger already has fails with the unique
    violation and leaves the database as it is, and [performRegistration]
    with a selected student who already has a registration for the sport
    reports the failure and changes nothing: the existing registration is
    not updated. *)
Theorem one_registration_per_pair (w0 w : World) :
  registrations (db w0) = [] → rtc app_step w0 w →
  ledger_unique (db w) ∧
  (∀ sid spid,
     (length (filter (λ r, pair_of r = (sid, spid)) (registrations (db w))) ≤ 1)%nat) ∧
  (∀ rows now row,
     row ∈ rows → nr_pair row ∈ map pair_of (registrations (db w)) →
     insert_registrations rows now (db w) = (RError UniqueViolation, db w)) ∧
  (∀ sport profile st sid,
     sid ∈ selectedStudents st →
     (sid, sp_id sport) ∈ map pair_of (registrations (db w)) →
     ∃ st' w',
       performRegistration sport profile st w = (Ok st', w') ∧
       db w' = db w ∧
       form_toasts st' = form_toasts st ++ [RegistrationFailed]).
Proof.
  intros Hempty Hreach.
  assert (Hu : ledger_unique (db w)).
  { refine (app_steps_respect (λ d d', ledger_unique d → ledger_unique d')
              _ _ _ _ _ _ w0 w Hreach _).
    - intros d Hd. exact Hd.
    - intros d1 d2 d3 H12 H23 Hd. apply H23, H12, Hd.
    - intros user action now d Hd. exact Hd.
    - intros rows now d. apply insert_registrations_unique.
    - intros rid s now d. apply update_registration_status_unique.
    - intros rid now d. apply delete_registration_unique.
    - unfold ledger_unique. rewrite Hempty. constructor. }
  split; [exact Hu|]. split; [|split].
  - intros sid spid. apply NoDup_fmap_count. exact Hu.
  - intros rows now row Hrow Hin. unfold insert_registrations.
    rewrite (insert_rows_rejects now rows (db w) row Hrow Hin). reflexivity.
  - intros sport profile st sid Hsid Hin.
    destruct (performRegistration_run sport profile st w)
      as (st' & w' & Hrun & _ & Hcases).
    exists st', w'. split; [exact Hrun|].
    destruct Hcases as [(_ & (d1 & Hins & _) & _)|(_ & Hdb & Ht)];
      [|split; assumption].
    exfalso. unfold insert_registrations in Hins.
    rewrite (insert_rows_rejects _ _ (db w)
               (mkNewRegistration sid (sp_id sport) (profile_id <$> profile)
                  (if faults w (issued w) then pending else initial_status_of (db w))))
      in Hins.
    + discriminate.
    + unfold registration_rows. apply list_elem_of_fmap. exists sid.
      split; [reflexivity|exact Hsid].
    + exact Hin.
Qed.

(** C4 at the state reached by registering students 1 and 2 for football. *)
Lemma one_registration_per_pair_demo :
  ledger_unique (db after_first_submit) ∧
  (∀ sid spid,
     (length (filter (λ r, pair_of r = (sid, spid))
                (registrations (db after_first_submit))) ≤ 1)%nat) ∧
  (∀ rows now row,
     row ∈ rows → nr_pair row ∈ map pair_of (registrations (db after_first_submit)) →
     insert_registrations rows now (db after_first_submit) =
       (RError UniqueViolation, db after_first_submit)) ∧
  (∀ sport profile st sid,
     sid ∈ selectedStudents st →
     (sid, sp_id sport) ∈ map pair_of (registrations (db after_first_submit)) →
     ∃ st' w',
       performRegistration sport profile st after_first_submit = (Ok st', w') ∧
       db w' = db after_first_submit ∧
       form_toasts st' = form_toasts st ++ [RegistrationFailed]).
Proof.
  apply (one_registration_per_pair fresh_world after_first_submit).
  - reflexivity.
  - eapply rtc_l; [|apply rtc_refl].
    eapply (step_handleSubmit football demo_coordinator first_selection).
    apply surjective_pairing.
Defined.

(** ** The initial status *)

Lemma performRegistration_status sport profile st w :
  ∃ st' w' new,
    performRegistration sport profile st w = (Ok st', w') ∧
    registrations (db w') = registrations (db w) ++ new ∧
    ((form_toasts st' = form_toasts st ++ [RegistrationFailed] ∧ new = []) ∨
     (form_toasts st' =
        form_toasts st ++
        [RegistrationSucceeded (length (selectedStudents st)) (auto_approve_read w)] ∧
      map reg_student_id new = selectedStudents st)) ∧
    (∀ r, r ∈ new →
       reg_status r = if auto_approve_read w then approved else pending) ∧
    (faults w (S (issued w)) = false →
     NoDup (selectedStudents st) →
     (∀ sid, sid ∈ selectedStudents st →
        sid ∈ map st_id (students (db w)) ∧
        (sid, sp_id sport) ∉ map pair_of (registrations (db w))) →
     sp_id sport ∈ map sp_id (sports (db w)) →
     form_toasts st' =
       form_toasts st ++
       [RegistrationSucceeded (length (selectedStudents st)) (auto_approve_read w)] ∧
     map reg_student_id new = selectedStudents st).
Proof.
  set (status := if auto_approve_read w then approved else pending).
  set (rows := registration_rows sport profile status (selectedStudents st)).
  assert (Hauto :
    truthy (js_or (data_enabled
                 (if faults w (issued w) then RError NetworkError
                  else match settings (db w) !! "auto_approve_registrations" with
                       | Some v => RData v
                       | None => RError NoRows
                       end)) (JBool false)) = auto_approve_read w).
  { unfold auto_approve_read. rewrite truthy_js_or_false.
    destruct (faults w (issued w)); [reflexivity|].
    destruct (settings (db w) !! "auto_approve_registrations"); reflexivity. }
  unfold performRegistration, try_catch, bind, checked, bind.
  assert (Hfirst : request (select_setting_single "auto_approve_registrations") w =
    (Ok (if faults w (issued w) then RError NetworkError
         else match settings (db w) !! "auto_approve_registrations" with
              | Some v => RData v
              | None => RError NoRows
              end),
     mkWorld (db w) (faults w) (S (issued w)))).
  { unfold request. rewrite select_setting_single_run.
    destruct (faults w (issued w)); reflexivity. }
  rewrite Hfirst. cbv beta iota. rewrite Hauto.
  change (map _ (selectedStudents st)) with rows.
  destruct (faults w (S (issued w))) eqn:Hf1.
  - rewrite request_failed by exact Hf1. cbv beta iota. unfold throw, ret.
    eexists _, _, []. split; [reflexivity|]. cbn [db]. rewrite app_nil_r.
    split; [reflexivity|]. split; [left; split; reflexivity|].
    split; [|discriminate].
    intros r Hr. apply elem_of_nil in Hr. contradiction.
  - rewrite request_answered by exact Hf1. cbn [fst snd db faults issued].
    destruct (insert_registrations_cases rows (S (issued w)) (db w))
      as [(d1 & Hins & Hrows & _)|(e & Hins)].
    + rewrite Hins. cbn [fst snd].
      apply insert_rows_Some in Hrows as (Hreg & _).
      destruct (new_registrations_students (S (issued w)) (next_uuid (db w)) sport
                  profile status (selectedStudents st)) as [Hm HFa].
      unfold ret at 1. cbv beta iota. unfold request. cbn [db faults issued].
      destruct (faults w (S (S (issued w)))); cbn; unfold ret;
        (eexists _, _, _; split; [reflexivity|]; cbn [db registrations];
         split; [exact Hreg|]; split; [right; split; [reflexivity|exact Hm]|];
         split; [intros r Hr; rewrite Forall_forall in HFa; apply (HFa r Hr)|];
         intros _ _ _ _; split; [reflexivity|exact Hm]).
    + rewrite Hins. cbn [fst snd]. unfold throw, ret.
      eexists _, _, []. split; [reflexivity|]. cbn [db].
      rewrite app_nil_r. split; [reflexivity|]. split; [left; split; reflexivity|].
      split; [intros r Hr; apply elem_of_nil in Hr; contradiction|].
      intros _ Hnd Hsel Hsp. exfalso.
      destruct (registration_rows_accepted sport profile status (selectedStudents st)
                  (S (issued w)) (db w) Hnd) as (d1 & Hok & _).
      * intros sid Hsid. apply (Hsel sid Hsid).
      * exact Hsp.
      * intros sid Hsid. apply (Hsel sid Hsid).
      * fold rows in Hok. rewrite Hok in Hins. discriminate.
Qed.

(** C7, as the code has it. [performRegistration] either reports a failure
    and adds nothing, or reports success and adds one registration per
    selected student. Every registration it adds has status approved when
    the read of the auto-approve setting is answered and the setting's
    [enabled] is truthy, and pending otherwise: when [enabled] is falsy,
    when there is no such setting, and when the read fails, whose error the
    code does not look at. So all registrations of a batch have the same
    status. The batch succeeds whenever the insert is answered, the selection
    has no repeated id, every selected id is a student without a
    registration for the sport, and the sport exists. *)
Theorem initial_status_by_auto_approve (sport : Sport) (profile : option Profile)
    (st : FormState) (w : World) :
  ∃ st' w' new,
    performRegistration sport profile st w = (Ok st', w') ∧
    registrations (db w') = registrations (db w) ++ new ∧
    ((form_toasts st' = form_toasts st ++ [RegistrationFailed] ∧ new = []) ∨
     (form_toasts st' =
        form_toasts st ++
        [RegistrationSucceeded (length (selectedStudents st)) (auto_approve_read w)] ∧
      map reg_student_id new = selectedStudents st)) ∧
    (∀ r, r ∈ new →
       reg_status r = if auto_approve_read w then approved else pending) ∧
    (faults w (issued w) = false →
     truthy (enabled_of (settings (db w) !! "auto_approve_registrations")) = true →
     ∀ r, r ∈ new → reg_status r = approved) ∧
    (faults w (issued w) = true ∨
     truthy (enabled_of (settings (db w) !! "auto_approve_registrations")) = false ∨
     settings (db w) !! "auto_approve_registrations" = None →
     ∀ r, r ∈ new → reg_status r = pending) ∧
    (∀ r1 r2, r1 ∈ new → r2 ∈ new → reg_status r1 = reg_status r2) ∧
    (faults w (S (issued w)) = false →
     NoDup (selectedStudents st) →
     (∀ sid, sid ∈ selectedStudents st →
        sid ∈ map st_id (students (db w)) ∧
        (sid, sp_id sport) ∉ map pair_of (registrations (db w))) →
     sp_id sport ∈ map sp_id (sports (db w)) →
     form_toasts st' =
       form_toasts st ++
       [RegistrationSucceeded (length (selectedStudents st)) (auto_approve_read w)] ∧
     map reg_student_id new = selectedStudents st).
Proof.
  destruct (performRegistration_status sport profile st w)
    as (st' & w' & new & Hrun & Hreg & Hcases & Hstatus & Hsuccess).
  exists st', w', new. split; [exact Hrun|]. split; [exact Hreg|].
  split; [exact Hcases|]. split; [exact Hstatus|].
  split; [|split; [|split; [|exact Hsuccess]]].
  - intros Hf Hen r Hr. rewrite (Hstatus r Hr). unfold auto_approve_read.
    rewrite Hf, Hen. reflexivity.
  - intros Hoff r Hr. rewrite (Hstatus r Hr). unfold auto_approve_read.
    destruct Hoff as [-> | [-> | ->]]; [reflexivity| |].
    + rewrite andb_false_r. reflexivity.
    + cbn. rewrite andb_false_r. reflexivity.
  - intros r1 r2 H1 H2. rewrite (Hstatus r1 H1), (Hstatus r2 H2). reflexivity.
Qed.

(** C7, as the code has it, at the example with auto-approval switched on. *)
Lemma initial_status_by_auto_approve_demo :
  ∃ st' w' new,
    performRegistration cricket demo_coordinator third_selected auto_approve_world =
      (Ok st', w') ∧
    registrations (db w') = registrations (db auto_approve_world) ++ new ∧
    form_toasts st' = [RegistrationSucceeded 1 true] ∧
    map reg_student_id new = [3]%nat ∧
    (∀ r, r ∈ new → reg_status r = approved).
Proof.
  destruct (initial_status_by_auto_approve cricket demo_coordinator third_selected
              auto_approve_world)
    as (st' & w' & new & Hrun & Hreg & _ & _ & Happroved & _ & _ & Hsuccess).
  exists st', w', new. split; [exact Hrun|]. split; [exact Hreg|].
  destruct Hsuccess as [Htoast Hnew].
  - reflexivity.
  - compute_done.
  - intros sid Hsid. apply list_elem_of_singleton in Hsid as ->. split; compute_done.
  - compute_done.
  - split; [exact Htoast|]. split; [exact Hnew|].
    apply Happroved; reflexivity.
Defined.

(** C7, as the specification states it, fails: auto-approval is switched on,
    the read of the setting fails, the insert is answered, and the batch
    succeeds with a registration that is pending. *)
Lemma unread_setting_registers_pending :
  truthy (enabled_of
            (settings (db unread_setting_world) !! "auto_approve_registrations")) =
    true ∧
  ∃ st' w' r,
    performRegistration cricket demo_coordinator third_selected unread_setting_world =
      (Ok st', w') ∧
    form_toasts st' = [RegistrationSucceeded 1 false] ∧
    registrations (db w') = registrations (db unread_setting_world) ++ [r] ∧
    reg_student_id r = 3%nat ∧
    reg_status r = pending.
Proof.
  split; [reflexivity|]. eexists _, _, _.
  split; [vm_compute; reflexivity|].
  split; [reflexivity|]. split; [reflexivity|]. split; reflexivity.
Qed.

(** ** Status changes *)

Lemma ledger_evolves_refl allowed d : ledger_evolves allowed d d.
Proof. intros r Hr. exists r. repeat split; auto. Qed.

Lemma ledger_evolves_trans allowed d1 d2 d3 :
  ledger_evolves allowed d1 d2 → ledger_evolves allowed d2 d3 →
  ledger_evolves allowed d1 d3.
Proof.
  intros H12 H23 r3 Hr3.
  destruct (H23 r3 Hr3) as (r2 & Hr2 & Hid2 & Hp2 & Hs2).
  destruct (H12 r2 Hr2) as (r1 & Hr1 & Hid1 & Hp1 & Hs1).
  exists r1. split; [exact Hr1|]. split; [congruence|]. split; [congruence|].
  destruct Hs2 as [Hs2|Hs2].
  - rewrite Hs2. destruct Hs1 as [Hs1|Hs1]; [left; exact Hs1|right; exact Hs1].
  - right. rewrite Hid1. exact Hs2.
Qed.

Lemma ledger_evolves_log allowed user action now d :
  ledger_evolves allowed d (insert_activity_log user action now d).2.
Proof. intros r Hr. exists r. repeat split; auto. Qed.

Lemma ledger_evolves_update (allowed : uuid → registration_status → Prop)
    rid s now d :
  allowed rid s →
  ledger_evolves allowed d (update_registration_status rid s now d).2.
Proof.
  intros Hal r' Hr'. cbn [update_registration_status snd registrations] in Hr'.
  apply list_elem_of_fmap in Hr' as (r & -> & Hr). exists r.
  split; [exact Hr|]. case_decide as Hid.
  - repeat split. right. cbn. rewrite Hid. exact Hal.
  - repeat split. left. reflexivity.
Qed.

Lemma ledger_evolves_delete allowed rid now d :
  ledger_evolves allowed d (delete_registration rid now d).2.
Proof.
  intros r' Hr'. cbn [delete_registration snd registrations] in Hr'.
  apply list_elem_of_filter in Hr' as [_ Hr']. exists r'. repeat split; auto.
Qed.

Lemma try_catch_ret_total {A} (c : M A) (f : PgError → A) w :
  ∃ a w', try_catch c (λ e, ret (f e)) w = (Ok a, w').
Proof.
  unfold try_catch. destruct (c w) as [[a|e] w1]; eexists _, _; reflexivity.
Qed.

Lemma handle_event_total profile ev ps w :
  ∃ ps' w', handle_event profile ev ps w = (Ok ps', w').
Proof.
  destruct ev as [row|row|row confirmed|]; cbn [handle_event].
  - apply try_catch_ret_total.
  - apply try_catch_ret_total.
  - unfold deleteRegistration. destruct (negb confirmed).
    + eexists _, _. reflexivity.
    + unfold bind.
      destruct (try_catch_ret_total
                  (let* _ := checked (request (delete_registration (rv_id row))) in
                   fetchRegistrations profile
                     (page_toast RegistrationRemoved
                        (setDeletingId (Some (rv_id row)) ps)))
                  (λ _, page_toast RemoveFailed (setDeletingId (Some (rv_id row)) ps))
                  w) as (a & w' & Hrun).
      unfold bind in Hrun. rewrite Hrun. eexists _, _. reflexivity.
  - apply try_catch_ret_total.
Qed.

Lemma handle_event_evolves profile ev ps :
  respects (ledger_evolves (event_decides ev)) (handle_event profile ev ps).
Proof.
  destruct ev as [row|row|row confirmed|]; cbn [handle_event].
  - apply respects_updateRegistrationStatus.
    + apply ledger_evolves_refl.
    + apply ledger_evolves_trans.
    + apply ledger_evolves_log.
    + intros now d. apply ledger_evolves_update. split; reflexivity.
  - apply respects_updateRegistrationStatus.
    + apply ledger_evolves_refl.
    + apply ledger_evolves_trans.
    + apply ledger_evolves_log.
    + intros now d. apply ledger_evolves_update. split; reflexivity.
  - apply respects_deleteRegistration.
    + apply ledger_evolves_refl.
    + apply ledger_evolves_trans.
    + intros now d. apply ledger_evolves_delete.
  - apply respects_fetchRegistrations.
    + apply ledger_evolves_refl.
    + apply ledger_evolves_trans.
Qed.

(** C8, as the code has it. An event the page offers is handled without an
    exception. Afterwards every registration of the ledger was there before,
    for the same student and sport, and it has the status it had unless the
    event was a click on Approve or Reject of a row with its id: then the
    user is an admin, the page showed that row as pending, and the new status
    is approved or rejected, never pending. The stored status is not looked
    at: only when the statuses the page shows are those of the ledger was the
    status before the change pending. The other writer of statuses,
    [performRegistration], only adds registrations and leaves those of the
    ledger as they are. *)
Theorem status_changes_only_by_decision (profile : option Profile)
    (ps : PageState) (ev : PageEvent) (w : World) :
  event_enabled profile ps ev →
  (∃ ps' w',
    handle_event profile ev ps w = (Ok ps', w') ∧
    (∀ r', r' ∈ registrations (db w') →
       ∃ r, r ∈ registrations (db w) ∧ reg_id r = reg_id r' ∧
            pair_of r = pair_of r' ∧
            (reg_status r' = reg_status r ∨
             (is_admin profile = true ∧
              (reg_status r' = approved ∨ reg_status r' = rejected) ∧
              ∃ row, row ∈ page_registrations ps ∧ rv_id row = reg_id r ∧
                     rv_status row = pending ∧
                     (ev = ClickApprove row ∨ ev = ClickReject row)) ∧
             ((∀ row r0, row ∈ page_registrations ps → r0 ∈ registrations (db w) →
                         rv_id row = reg_id r0 → rv_status row = reg_status r0) →
              reg_status r = pending)))) ∧
  (∀ sport st,
     ∃ st' w' new,
       performRegistration sport profile st w = (Ok st', w') ∧
       registrations (db w') = registrations (db w) ++ new).
Proof.
  intros Hen. split; [|intros sport st; apply performRegistration_appends].
  destruct (handle_event_total profile ev ps w) as (ps' & w' & Hrun).
  exists ps', w'. split; [exact Hrun|].
  intros r' Hr'.
  destruct (handle_event_evolves profile ev ps w _ _ Hrun r' Hr')
    as (r & Hr & Hid & Hp & Hs).
  exists r. split; [exact Hr|]. split; [exact Hid|]. split; [exact Hp|].
  destruct Hs as [Hs|Hs]; [left; exact Hs|right].
  assert (Hrow : ∃ row, (ev = ClickApprove row ∨ ev = ClickReject row) ∧
                        rv_id row = reg_id r ∧
                        (reg_status r' = approved ∨ reg_status r' = rejected)).
  { destruct ev as [row|row|row confirmed|]; cbn [event_decides] in Hs.
    - destruct Hs as [Hrid ->]. exists row. auto.
    - destruct Hs as [Hrid ->]. exists row. auto.
    - contradiction.
    - contradiction. }
  destruct Hrow as (row & Hev & Hrid & Hnew).
  assert (Hoff : row ∈ page_registrations ps ∧ approve_reject_offered profile row = true).
  { destruct Hev as [-> | ->]; exact Hen. }
  destruct Hoff as [Hin Hoff]. unfold approve_reject_offered in Hoff.
  apply andb_true_iff in Hoff as [Hadm Hpend].
  apply bool_decide_eq_true in Hpend.
  split.
  - split; [exact Hadm|]. split; [exact Hnew|].
    exists row. repeat split; assumption.
  - intros Hagree. rewrite <- (Hagree row r Hin Hr Hrid). exact Hpend.
Qed.

(** C8, as the specification states it, fails: approved is not terminal. Two
    pages of an admin load the ledger while registration 101 is pending. On
    the first the admin approves it; the second still shows it as pending,
    offers Reject, and the click takes the registration from approved to
    rejected. *)
Lemma approved_registration_rejected_from_stale_page :
  ∃ pageA w1 pageB w2 pageA' w3 pageB' w4,
    fetchRegistrations demo_admin empty_page demo_world = (Ok pageA, w1) ∧
    fetchRegistrations demo_admin empty_page w1 = (Ok pageB, w2) ∧
    status_in (db w2) 101 = Some pending ∧
    event_enabled demo_admin pageA (ClickApprove chess_row) ∧
    handle_event demo_admin (ClickApprove chess_row) pageA w2 = (Ok pageA', w3) ∧
    status_in (db w3) 101 = Some approved ∧
    event_enabled demo_admin pageB (ClickReject chess_row) ∧
    handle_event demo_admin (ClickReject chess_row) pageB w3 = (Ok pageB', w4) ∧
    status_in (db w4) 101 = Some rejected.
Proof.
  eexists _, _, _, _, _, _, _, _.
  split; [vm_compute; reflexivity|].
  split; [vm_compute; reflexivity|].
  split; [vm_compute; reflexivity|].
  split; [split; [repeat first [apply list_elem_of_here|apply list_elem_of_further]|reflexivity]|].
  split; [vm_compute; reflexivity|].
  split; [vm_compute; reflexivity|].
  split; [split; [repeat first [apply list_elem_of_here|apply list_elem_of_further]|reflexivity]|].
  split; [vm_compute; reflexivity|].
  vm_compute; reflexivity.
Qed.

(** C8, as the code has it, at the example: the admin approves the pending
    registration 101 the page shows. *)
Lemma status_changes_only_by_decision_demo :
  (∃ ps' w',
    handle_event demo_admin (ClickApprove chess_row) page_with_chess demo_world =
      (Ok ps', w') ∧
    (∀ r', r' ∈ registrations (db w') →
       ∃ r, r ∈ registrations (db demo_world) ∧ reg_id r = reg_id r' ∧
            pair_of r = pair_of r' ∧
            (reg_status r' = reg_status r ∨
             (is_admin demo_admin = true ∧
              (reg_status r' = approved ∨ reg_status r' = rejected) ∧
              ∃ row, row ∈ page_registrations page_with_chess ∧
                     rv_id row = reg_id r ∧ rv_status row = pending ∧
                     (ClickApprove chess_row = ClickApprove row ∨
                      ClickApprove chess_row = ClickReject row)) ∧
             ((∀ row r0, row ∈ page_registrations page_with_chess →
                         r0 ∈ registrations (db demo_world) →
                         rv_id row = reg_id r0 → rv_status row = reg_status r0) →
              reg_status r = pending)))) ∧
  (∀ sport st,
     ∃ st' w' new,
       performRegistration sport demo_admin st demo_world = (Ok st', w') ∧
       registrations (db w') = registrations (db demo_world) ++ new).
Proof.
  apply (status_changes_only_by_decision demo_admin page_with_chess
           (ClickApprove chess_row) demo_world).
  split; [apply list_elem_of_here|reflexivity].
Defined.

(** ** Further properties of [lib/registration-limits.ts] *)

Lemma limit_or_zero_default (x : option SettingValue) :
  limit_or_zero x = default 0 (x ≫= sv_limit).
Proof.
  unfold limit_or_zero. destruct (x ≫= sv_limit) as [n|]; [|reflexivity].
  simpl. destruct (Z.eqb_spec n 0); congruence.
Qed.

Lemma fetchRegistrationLimits_failed w :
  faults w (issued w) = true →
  fetchRegistrationLimits w =
    (Throw NetworkError, mkWorld (db w) (faults w) (S (issued w))).
Proof.
  intros Hf. unfold fetchRegistrationLimits, checked, bind.
  rewrite request_failed by assumption. reflexivity.
Qed.

Lemma form_fetchRegistrationLimits_eq st w :
  form_fetchRegistrationLimits st w =
    match fetchRegistrationLimits w with
    | (Ok limits, w') => (Ok (setRegistrationLimits limits st), w')
    | (Throw e, w') => (Throw e, w')
    end.
Proof.
  unfold form_fetchRegistrationLimits, fetchRegistrationLimits, checked, bind.
  destruct (request _ w) as [[[data|e]|e] w']; reflexivity.
Qed.

(** X1. [fetchRegistrationLimits] issues one request and leaves the database
    as it is. When the request fails it throws the network error; when it is
    answered it returns, for each category, 0 when the category's key or its
    [limit] is missing, and the [limit] stored under the key when that is an
    integer a JavaScript number holds exactly, at most 2^53 in absolute
    value. The form's own copy of the function computes the same limits and
    fails in the same cases. *)
Theorem fetchRegistrationLimits_outcomes (w : World) :
  db (fetchRegistrationLimits w).2 = db w ∧
  issued (fetchRegistrationLimits w).2 = S (issued w) ∧
  (faults w (issued w) = true →
     (fetchRegistrationLimits w).1 = Throw NetworkError) ∧
  (faults w (issued w) = false →
     ∃ limits,
       (fetchRegistrationLimits w).1 = Ok limits ∧
       (stored_limit (db w) game = None → maxGameRegistrations limits = 0) ∧
       (∀ n, stored_limit (db w) game = Some n → - 2 ^ 53 ≤ n ≤ 2 ^ 53 →
          maxGameRegistrations limits = n) ∧
       (stored_limit (db w) athletic = None → maxAthleticRegistrations limits = 0) ∧
       (∀ n, stored_limit (db w) athletic = Some n → - 2 ^ 53 ≤ n ≤ 2 ^ 53 →
          maxAthleticRegistrations limits = n)) ∧
  (∀ st,
     form_fetchRegistrationLimits st w =
       match fetchRegistrationLimits w with
       | (Ok limits, w') => (Ok (setRegistrationLimits limits st), w')
       | (Throw e, w') => (Throw e, w')
       end).
Proof.
  destruct (faults w (issued w)) eqn:Hf.
  - rewrite fetchRegistrationLimits_failed by exact Hf.
    repeat split; try reflexivity; try discriminate.
    intros st. rewrite form_fetchRegistrationLimits_eq.
    rewrite fetchRegistrationLimits_failed by exact Hf. reflexivity.
  - rewrite fetchRegistrationLimits_run by exact Hf.
    split; [reflexivity|]. split; [reflexivity|]. split; [discriminate|]. split.
    + intros _. eexists. split; [reflexivity|].
      cbn [maxGameRegistrations maxAthleticRegistrations].
      rewrite !limit_or_zero_default. unfold stored_limit. cbn [limit_key].
      repeat split.
      * intros ->. reflexivity.
      * intros n -> _. reflexivity.
      * intros ->. reflexivity.
      * intros n -> _. reflexivity.
    + intros st. rewrite form_fetchRegistrationLimits_eq.
      rewrite fetchRegistrationLimits_run by exact Hf. reflexivity.
Qed.


Lemma filter_nil_iff {A} (P : A → Prop) `{!∀ x, Decision (P x)} (l : list A) :
  filter P l = [] ↔ ∀ x, x ∈ l → ¬ P x.
Proof.
  split.
  - intros Hnil x Hx HP. exact (filter_nil_not_elem_of P l x Hnil HP Hx).
  - intros Hall. induction l as [|x l IH]; [reflexivity|].
    rewrite filter_cons_False by (apply Hall, list_elem_of_here).
    apply IH. intros y Hy. apply Hall, list_elem_of_further, Hy.
Qed.

(** X2. In the result of [checkRegistrationLimits] the students over the
    limit are among those at the limit, in the same order, and these are among
    the students given; [studentsAtLimit] is the list
    [getStudentsExceedingLimits] returns; [canRegister] holds exactly when
    every student's count is below the student's limit, and then nobody is
    over the limit; the students at the limit that are not over it are those
    whose count equals the limit; the [sportType] argument has no effect. *)
Theorem checkRegistrationLimits_lists (students : list StudentRegistrationInfo)
    (sportType : sport_type) :
  let check := checkRegistrationLimits students sportType in
  studentsOverLimit check `sublist_of` studentsAtLimit check ∧
  studentsAtLimit check `sublist_of` students ∧
  studentsAtLimit check = getStudentsExceedingLimits students sportType ∧
  (canRegister check = true ↔ ∀ s, s ∈ students → currentCount s < limit s) ∧
  (canRegister check = true → studentsOverLimit check = []) ∧
  (∀ s, s ∈ studentsAtLimit check ∧ s ∉ studentsOverLimit check ↔
        s ∈ students ∧ currentCount s = limit s) ∧
  checkRegistrationLimits students game = checkRegistrationLimits students athletic.
Proof.
  cbv zeta. unfold checkRegistrationLimits, getStudentsExceedingLimits.
  cbn [studentsOverLimit studentsAtLimit canRegister].
  assert (Hsub : filter (λ s, limit s < currentCount s) students
                 `sublist_of` filter (λ s, limit s ≤ currentCount s) students).
  { induction students as [|s l IH]; [constructor|].
    rewrite !filter_cons.
    destruct (decide (limit s < currentCount s)).
    - rewrite decide_True by lia. apply sublist_skip. exact IH.
    - case_decide; [apply sublist_cons|]; exact IH. }
  assert (Hcan : Nat.eqb (length (filter (λ s, limit s ≤ currentCount s) students)) 0
                 = true ↔ ∀ s, s ∈ students → currentCount s < limit s).
  { rewrite Nat.eqb_eq, length_zero_iff_nil, filter_nil_iff.
    split; intros H s Hs; specialize (H s Hs); lia. }
  split; [exact Hsub|]. split; [apply sublist_filter|]. split; [reflexivity|].
  split; [exact Hcan|]. split.
  - intros Hc. apply filter_nil_iff. intros s Hs.
    pose proof (proj1 Hcan Hc s Hs). lia.
  - split; [|reflexivity]. intros s. rewrite !list_elem_of_filter. split.
    + intros [[Hle Hs] Hno]. split; [exact Hs|].
      destruct (decide (limit s < currentCount s)) as [Hlt|]; [|lia].
      exfalso. apply Hno. split; assumption.
    + intros [Hs Heq]. split; [split; [lia|exact Hs]|]. intros [Hlt _]. lia.
Qed.

Lemma getStudentRegistrationInfo_faults i (ids : list uuid) cat w :
  ∃ o n,
    getStudentRegistrationInfo (i :: ids) cat w = (o, mkWorld (db w) (faults w) n) ∧
    if faults w (issued w)
    then o = Throw NetworkError ∧ n = S (issued w)
    else if faults w (S (issued w))
    then o = Throw NetworkError ∧ n = S (S (issued w))
    else if faults w (S (S (issued w)))
    then o = Throw NetworkError ∧ n = S (S (S (issued w)))
    else (∃ infos, o = Ok infos) ∧ n = S (S (S (issued w))).
Proof.
  unfold getStudentRegistrationInfo. cbn [length Nat.eqb].
  unfold bind, checked, bind, fetchRegistrationLimits. unfold bind, checked, bind.
  destruct (faults w (issued w)) eqn:Hf0.
  { rewrite request_failed by exact Hf0. cbv beta iota. unfold throw.
    eexists _, _. repeat split; reflexivity. }
  rewrite request_answered by exact Hf0. cbn [fst snd db faults issued].
  unfold select_settings_in at 1, query at 1. cbn [fst snd]. unfold ret at 1.
  unfold ret at 1. cbv beta iota.
  destruct (faults w (S (issued w))) eqn:Hf1.
  { rewrite request_failed by exact Hf1. cbv beta iota. unfold throw.
    eexists _, _. repeat split; reflexivity. }
  rewrite request_answered by exact Hf1. cbn [fst snd db faults issued].
  unfold select_students_in at 1, query at 1. cbn [fst snd]. unfold ret at 1.
  destruct (faults w (S (S (issued w)))) eqn:Hf2.
  { rewrite request_failed by exact Hf2. cbv beta iota. unfold throw.
    eexists _, _. repeat split; reflexivity. }
  rewrite request_answered by exact Hf2. cbn [fst snd db faults issued].
  unfold select_quota_rows at 1, query at 1. cbn [fst snd]. unfold ret.
  eexists _, _. repeat split. eexists. reflexivity.
Qed.

(** X3. On a non-empty selection [getStudentRegistrationInfo] leaves the
    database as it is; it returns a report exactly when its three requests
    (limits, students, registrations) are all answered, and otherwise throws
    the network error right after the first request that failed, without
    issuing the later ones. *)
Theorem evaluator_fails_with_its_requests (i : uuid) (ids : list uuid)
    (cat : sport_type) (w : World) :
  let r := getStudentRegistrationInfo (i :: ids) cat w in
  db r.2 = db w ∧
  ((∃ infos, r.1 = Ok infos) ↔
     ∀ n, (n < 3)%nat → faults w (issued w + n)%nat = false) ∧
  (∀ e, r.1 = Throw e →
     e = NetworkError ∧
     ∃ n, (n < 3)%nat ∧ faults w (issued w + n)%nat = true ∧
          issued r.2 = S (issued w + n) ∧
          ∀ m, (m < n)%nat → faults w (issued w + m)%nat = false).
Proof.
  cbv zeta.
  destruct (getStudentRegistrationInfo_faults i ids cat w) as (o & k & Hrun & Hcases).
  rewrite Hrun. cbn [fst snd db issued].
  assert (H0 : (issued w + 0)%nat = issued w) by lia.
  assert (H1 : (issued w + 1)%nat = S (issued w)) by lia.
  assert (H2 : (issued w + 2)%nat = S (S (issued w))) by lia.
  split; [reflexivity|].
  destruct (faults w (issued w)) eqn:Hf0;
    [|destruct (faults w (S (issued w))) eqn:Hf1;
      [|destruct (faults w (S (S (issued w)))) eqn:Hf2]].
  - destruct Hcases as [Hr Hi]. rewrite Hr. split.
    + split.
      * intros [infos Hinfos]. discriminate.
      * intros Hall. specialize (Hall 0%nat ltac:(lia)). congruence.
    + intros e He. injection He as <-. split; [reflexivity|].
      exists 0%nat. rewrite H0. repeat split; [lia|assumption|assumption|lia].
  - destruct Hcases as [Hr Hi]. rewrite Hr. split.
    + split.
      * intros [infos Hinfos]. discriminate.
      * intros Hall. specialize (Hall 1%nat ltac:(lia)). congruence.
    + intros e He. injection He as <-. split; [reflexivity|].
      exists 1%nat. rewrite H1. repeat split; [lia|assumption|assumption|].
      intros m Hm. replace m with 0%nat by lia. congruence.
  - destruct Hcases as [Hr Hi]. rewrite Hr. split.
    + split.
      * intros [infos Hinfos]. discriminate.
      * intros Hall. specialize (Hall 2%nat ltac:(lia)). congruence.
    + intros e He. injection He as <-. split; [reflexivity|].
      exists 2%nat. rewrite H2. repeat split; [lia|assumption|assumption|].
      intros m Hm. assert (m = 0 ∨ m = 1)%nat as [->| ->] by lia; congruence.
  - destruct Hcases as [[infos Hr] Hi]. rewrite Hr. split.
    + split.
      * intros _ n Hn.
        assert (n = 0 ∨ n = 1 ∨ n = 2)%nat as [->|[->| ->]] by lia; congruence.
      * intros _. exists infos. reflexivity.
    + intros e He. discriminate.
Qed.

Lemma quota_rows_names d (ids : list uuid) sid cat (l : list Registration) :
  sid ∈ ids →
  map (λ reg, (qr_sport_name reg, qr_sport_type reg))
    (filter (λ reg, qr_sport_type reg = cat)
       (filter (λ reg, qr_student_id reg = sid)
          (omap (quota_row d)
             (filter (λ r, reg_student_id r ∈ ids ∧
                           reg_status r ∈ [pending; approved]) l)))) =
  omap (λ r, (λ sp, (sp_name sp, cat)) <$> sport_of d r)
    (filter (counts_toward_quota d sid cat) l).
Proof.
  intros Hsid. induction l as [|r l IH]; [reflexivity|].
  rewrite (filter_cons (counts_toward_quota d sid cat)).
  rewrite (filter_cons (λ r, reg_student_id r ∈ ids ∧ _)).
  destruct (decide (counts_toward_quota d sid cat r)) as [(Hs & Hst & Hcat)|Hno].
  - rewrite decide_True
      by (split; [congruence | apply quota_status_cases; assumption]).
    unfold category_of in Hcat. simpl omap. unfold quota_row at 1.
    destruct (sport_of d r) as [sp|]; [|discriminate]. simpl in *.
    rewrite filter_cons. simpl. rewrite decide_True by assumption.
    rewrite filter_cons. simpl. rewrite decide_True by congruence.
    simpl. f_equal; [f_equal; congruence|]. exact IH.
  - case_decide as Hq; [|exact IH]. destruct Hq as [_ Hst].
    simpl omap. unfold quota_row at 1.
    destruct (sport_of d r) as [sp|] eqn:Hsp; simpl; [|exact IH].
    rewrite filter_cons. simpl. case_decide as Hs; [|exact IH].
    rewrite filter_cons. simpl. case_decide as Hc; [|exact IH].
    exfalso. apply Hno. split; [assumption|]. split.
    + apply quota_status_cases. assumption.
    + unfold category_of. rewrite Hsp. simpl. congruence.
Qed.

Lemma getStudentRegistrationInfo_report w (ids : list uuid) cat infos w' :
  getStudentRegistrationInfo ids cat w = (Ok infos, w') →
  infos =
    map (λ s,
           {| id := st_id s;
              name := st_name s;
              roll_number := st_roll_number s;
              department := st_department s;
              year := st_year s;
              currentCount := Z.of_nat (quota_count (db w) (st_id s) cat);
              limit := limit_or_zero (settings (db w) !! limit_key cat);
              info_registrations :=
                omap (λ r, (λ sp, (sp_name sp, cat)) <$> sport_of (db w) r)
                  (filter (counts_toward_quota (db w) (st_id s) cat)
                     (registrations (db w))) |})
      (filter (λ s, st_id s ∈ ids) (students (db w))).
Proof.
  unfold getStudentRegistrationInfo. destruct ids as [|i ids].
  - cbn [length Nat.eqb]. intros H. injection H as <- <-.
    rewrite filter_none_selected. reflexivity.
  - cbn [length Nat.eqb]. unfold bind, checked, bind, fetchRegistrationLimits.
    unfold bind, checked, bind.
    destruct (faults w (issued w)) eqn:Hf0;
      [rewrite request_failed by exact Hf0; cbv beta iota; unfold throw;
       discriminate|].
    rewrite request_answered by exact Hf0. cbn [fst snd db faults issued].
    unfold select_settings_in at 1, query at 1. cbn [fst snd]. unfold ret at 1.
    unfold ret at 1. cbv beta iota.
    destruct (faults w (S (issued w))) eqn:Hf1;
      [rewrite request_failed by exact Hf1; cbv beta iota; unfold throw;
       discriminate|].
    rewrite request_answered by exact Hf1. cbn [fst snd db faults issued].
    unfold select_students_in at 1, query at 1. cbn [fst snd]. unfold ret at 1.
    destruct (faults w (S (S (issued w)))) eqn:Hf2;
      [rewrite request_failed by exact Hf2; cbv beta iota; unfold throw;
       discriminate|].
    rewrite request_answered by exact Hf2. cbn [fst snd db faults issued].
    unfold select_quota_rows at 1, query at 1. cbn [fst snd]. unfold ret.
    intros H. injection H as <- <-.
    apply list_eq_Forall2, Forall2_fmap, Forall_Forall2_diag, Forall_forall.
    intros s Hs. apply list_elem_of_filter in Hs as [Hs _].
    f_equal.
    + f_equal. unfold quota_count. apply quota_rows_count. assumption.
    + rewrite !settingsMap_of_select.
      rewrite !decide_True by (repeat constructor). destruct cat; reflexivity.
    + apply quota_rows_names. assumption.
Qed.

Lemma map_filter_st_id (ids : list uuid) (l : list Student) :
  map st_id (filter (λ s, st_id s ∈ ids) l) = filter (λ i, i ∈ ids) (map st_id l).
Proof.
  induction l as [|s l IH]; [reflexivity|].
  cbn [map]. rewrite !filter_cons.
  case_decide; [cbn [map]; f_equal|]; exact IH.
Qed.

(** X4. The report of [getStudentRegistrationInfo]. It has one entry for each
    row of [students] whose id is selected, in the order of the table: a
    selected id that is no student has no entry, an id selected twice has one.
    An entry copies the student's columns, carries the limit of the category,
    counts the student's pending or approved registrations in the category
    and lists the names of their sports, as many as it counts. The report is
    returned whenever the storage answers. *)
Theorem evaluator_report (w : World) (ids : list uuid) (cat : sport_type) :
  (reliable w → ∃ infos w', getStudentRegistrationInfo ids cat w = (Ok infos, w')) ∧
  (∀ infos w',
     getStudentRegistrationInfo ids cat w = (Ok infos, w') →
     infos =
       map (λ s,
              {| id := st_id s;
                 name := st_name s;
                 roll_number := st_roll_number s;
                 department := st_department s;
                 year := st_year s;
                 currentCount := Z.of_nat (quota_count (db w) (st_id s) cat);
                 limit := limit_or_zero (settings (db w) !! limit_key cat);
                 info_registrations :=
                   omap (λ r, (λ sp, (sp_name sp, cat)) <$> sport_of (db w) r)
                     (filter (counts_toward_quota (db w) (st_id s) cat)
                        (registrations (db w))) |})
         (filter (λ s, st_id s ∈ ids) (students (db w))) ∧
     map id infos = filter (λ i, i ∈ ids) (map st_id (students (db w))) ∧
     ∀ info, info ∈ infos →
       Z.of_nat (length (info_registrations info)) = currentCount info).
Proof.
  split; [apply getStudentRegistrationInfo_returns|].
  intros infos w' Hrun.
  pose proof (getStudentRegistrationInfo_report _ _ _ _ _ Hrun) as ->.
  split; [reflexivity|]. split.
  - rewrite <- map_filter_st_id. rewrite <- list_fmap_compose.
    apply list_fmap_ext. intros k s _. reflexivity.
  - intros info Hin. apply list_elem_of_fmap in Hin as (s & -> & Hs).
    cbn [info_registrations currentCount]. f_equal. unfold quota_count.
    generalize (registrations (db w)). intros l.
    induction l as [|r l IH]; [reflexivity|].
    rewrite filter_cons. case_decide as Hc; [|exact IH].
    cbn [omap list_omap length]. destruct Hc as (_ & _ & Hcat).
    unfold category_of in Hcat.
    destruct (sport_of (db w) r) as [sp|]; [|discriminate].
    cbn [fmap option_fmap option_map length]. f_equal. exact IH.
Qed.

(** ** The selection of the form *)

Lemma handleStudentToggle_elem (studentId other : uuid) (st : FormState) :
  other ∈ selectedStudents (handleStudentToggle studentId st) ↔
  (other ≠ studentId ∧ other ∈ selectedStudents st) ∨
  (other = studentId ∧ studentId ∉ selectedStudents st).
Proof.
  unfold handleStudentToggle. cbn [selectedStudents setSelectedStudents].
  case_decide as Hin.
  - rewrite list_elem_of_filter. split.
    + intros [Hne Ho]. left. split; assumption.
    + intros [[Hne Ho]|[-> Hno]]; [split; assumption|contradiction].
  - rewrite elem_of_app, list_elem_of_singleton. split.
    + intros [Ho| ->]; [left|right; split; [reflexivity|assumption]].
      split; [|assumption]. intros ->. contradiction.
    + intros [[_ Ho]|[-> _]]; [left; assumption|right; reflexivity].
Qed.

Lemma handleStudentToggle_NoDup (studentId : uuid) (st : FormState) :
  NoDup (selectedStudents st) →
  NoDup (selectedStudents (handleStudentToggle studentId st)).
Proof.
  intros Hnd. unfold handleStudentToggle. cbn [selectedStudents setSelectedStudents].
  case_decide as Hin.
  - apply NoDup_filter. exact Hnd.
  - apply NoDup_app. split; [exact Hnd|]. split; [|apply NoDup_singleton].
    intros x Hx Hx'. apply list_elem_of_singleton in Hx'. subst. contradiction.
Qed.

Lemma setSelectedStudents_same (st : FormState) :
  setSelectedStudents (selectedStudents st) st = st.
Proof. destruct st. reflexivity. Qed.

Lemma setSelectedStudents_twice (v v' : list uuid) (st : FormState) :
  setSelectedStudents v (setSelectedStudents v' st) = setSelectedStudents v st.
Proof. reflexivity. Qed.

(** X5. [handleStudentToggle] flips the membership of the toggled id in the
    selection and of no other id, keeps a selection without repetitions
    without them, and changes nothing but the selection. Toggling an id that
    is not selected twice gives the state back; toggling a selected id twice
    moves it to the end of the selection. *)
Theorem handleStudentToggle_flips (studentId : uuid) (st : FormState) :
  let st' := handleStudentToggle studentId st in
  (studentId ∈ selectedStudents st' ↔ studentId ∉ selectedStudents st) ∧
  (∀ other, other ≠ studentId →
     (other ∈ selectedStudents st' ↔ other ∈ selectedStudents st)) ∧
  (NoDup (selectedStudents st) → NoDup (selectedStudents st')) ∧
  (studentId ∉ selectedStudents st → handleStudentToggle studentId st' = st) ∧
  (studentId ∈ selectedStudents st →
     selectedStudents (handleStudentToggle studentId st') =
       filter (λ i, i ≠ studentId) (selectedStudents st) ++ [studentId]) ∧
  setSelectedStudents (selectedStudents st) st' = st.
Proof.
  cbv zeta. split; [|split; [|split; [|split; [|split]]]].
  - rewrite handleStudentToggle_elem. split.
    + intros [[Hne _]|[_ Hno]]; [contradiction|assumption].
    + intros Hno. right. split; [reflexivity|assumption].
  - intros other Hne. rewrite handleStudentToggle_elem. split.
    + intros [[_ Ho]|[-> _]]; [assumption|contradiction].
    + intros Ho. left. split; assumption.
  - apply handleStudentToggle_NoDup.
  - intros Hno. unfold handleStudentToggle.
    cbn [selectedStudents setSelectedStudents].
    rewrite (decide_False (P := studentId ∈ selectedStudents st)) by exact Hno.
    cbn [selectedStudents setSelectedStudents].
    rewrite decide_True by (apply elem_of_app; right; apply list_elem_of_here).
    rewrite filter_app, filter_cons_False, filter_nil, app_nil_r by tauto.
    rewrite filter_all.
    + destruct st. reflexivity.
    + apply Forall_forall. intros x Hx ->. contradiction.
  - intros Hin. unfold handleStudentToggle.
    cbn [selectedStudents setSelectedStudents].
    rewrite (decide_True (P := studentId ∈ selectedStudents st)) by exact Hin.
    cbn [selectedStudents setSelectedStudents].
    rewrite decide_False; [reflexivity|].
    rewrite list_elem_of_filter. tauto.
  - unfold handleStudentToggle. destruct st. reflexivity.
Qed.

Lemma includes_empty (s : string) : includes s EmptyString = true.
Proof. destruct s; reflexivity. Qed.

Lemma canStudentRegister_setSelectedStudents sport v st sid :
  canStudentRegister sport (setSelectedStudents v st) sid =
  canStudentRegister sport st sid.
Proof. reflexivity. Qed.

Lemma eligibleStudents_form_students toLowerCase sport searchTerm st :
  eligibleStudents toLowerCase sport searchTerm st `sublist_of`
    filter (λ s, canStudentRegister sport st (st_id s) = true) (form_students st).
Proof.
  unfold eligibleStudents, filteredStudents.
  rewrite list_filter_filter.
  induction (form_students st) as [|s l IH]; [constructor|].
  rewrite !filter_cons.
  destruct (decide (canStudentRegister sport st (st_id s) = true)) as [He|He].
  - case_decide; [apply sublist_skip|apply sublist_cons]; exact IH.
  - rewrite decide_False by tauto. exact IH.
Qed.

Lemma eligibleStudents_empty_search toLowerCase sport st :
  toLowerCase EmptyString = EmptyString →
  eligibleStudents toLowerCase sport EmptyString st =
    filter (λ s, canStudentRegister sport st (st_id s) = true) (form_students st).
Proof.
  intros Hlow. unfold eligibleStudents, filteredStudents. f_equal.
  apply filter_all, Forall_forall. intros s _.
  unfold matches_student. rewrite Hlow, includes_empty. reflexivity.
Qed.

Lemma prefix_spec (sub s : string) :
  String.prefix sub s = true ↔ ∃ post, s = sub +:+ post.
Proof.
  revert s. induction sub as [|c sub IH]; intros s.
  - split; [intros _; exists s; reflexivity|]. intros _. destruct s; reflexivity.
  - destruct s as [|c' s]; cbn [String.prefix].
    + split; [discriminate|]. intros [post H]. discriminate.
    + destruct (Ascii.ascii_dec c c') as [<-|Hne].
      * rewrite IH. split; intros [post H]; exists post.
        -- cbn. rewrite H. reflexivity.
        -- cbn in H. injection H as H. exact H.
      * split; [discriminate|]. intros [post H]. cbn in H. injection H as H _.
        congruence.
Qed.

(** [includes] finds [sub] exactly when it is a part of [s]. *)
Lemma includes_spec (s sub : string) :
  includes s sub = true ↔ ∃ pre post, s = pre +:+ sub +:+ post.
Proof.
  induction s as [|c s IH].
  - cbn [includes]. rewrite orb_false_r, prefix_spec. split.
    + intros [post H]. exists EmptyString, post. exact H.
    + intros (pre & post & H). destruct pre as [|c pre]; [|discriminate].
      exists post. exact H.
  - cbn [includes]. rewrite orb_true_iff, prefix_spec, IH. split.
    + intros [[post H]|(pre & post & H)].
      * exists EmptyString, post. exact H.
      * exists (String c pre), post. cbn. rewrite H. reflexivity.
    + intros (pre & post & H). destruct pre as [|c' pre].
      * left. exists post. exact H.
      * right. cbn in H. injection H as _ H. exists pre, post. exact H.
Qed.

Lemma matches_student_spec toLowerCase searchTerm (s : Student) :
  matches_student toLowerCase searchTerm s = true ↔
  ∃ field pre post,
    field ∈ [st_name s; st_roll_number s; st_department s] ∧
    toLowerCase field = pre +:+ toLowerCase searchTerm +:+ post.
Proof.
  unfold matches_student. rewrite !orb_true_iff, !includes_spec. split.
  - intros [[(pre & post & H)|(pre & post & H)]|(pre & post & H)];
      eexists _, pre, post; (split; [|exact H]).
    + apply list_elem_of_here.
    + apply list_elem_of_further, list_elem_of_here.
    + apply list_elem_of_further, list_elem_of_further, list_elem_of_here.
  - intros (field & pre & post & Hin & H).
    apply elem_of_cons in Hin as [->|Hin]; [left; left; eauto|].
    apply elem_of_cons in Hin as [->|Hin]; [left; right; eauto|].
    apply list_elem_of_singleton in Hin as ->. right. eauto.
Qed.

(** X6. [Select All] replaces the selection by the ids of the listed students
    that match the search and that [canStudentRegister] accepts, in the order
    of the list. A student matches the search exactly when the lower-cased
    search term is a part of the lower-cased name, roll number or department;
    a listed student who does not match is not selected (the ids of the list
    being distinct). Each selected student is eligible and not known as
    registered. With an empty search box the selection is all the eligible
    students of the list (given that lower-casing the empty string gives the
    empty string). A second click on [Select All] changes nothing, and
    [Clear All] empties the selection. *)
Theorem select_all_selects_eligible (toLowerCase : string → string) (sport : Sport)
    (searchTerm : string) (st : FormState) :
  let st' := handle_form_event toLowerCase sport searchTerm ClickSelectAll st in
  selectedStudents st' =
    map st_id
      (filter (λ s, matches_student toLowerCase searchTerm s = true ∧
                    canStudentRegister sport st (st_id s) = true)
         (form_students st)) ∧
  (∀ s, matches_student toLowerCase searchTerm s = true ↔
        ∃ field pre post,
          field ∈ [st_name s; st_roll_number s; st_department s] ∧
          toLowerCase field = pre +:+ toLowerCase searchTerm +:+ post) ∧
  (∀ s, s ∈ form_students st →
     matches_student toLowerCase searchTerm s = false →
     NoDup (map st_id (form_students st)) →
     st_id s ∉ selectedStudents st') ∧
  (∀ sid, sid ∈ selectedStudents st' →
     canStudentRegister sport st' sid = true ∧
     isStudentAlreadyRegistered st' sid = false) ∧
  (toLowerCase EmptyString = EmptyString → searchTerm = EmptyString →
     selectedStudents st' =
       map st_id (filter (λ s, canStudentRegister sport st (st_id s) = true)
                    (form_students st))) ∧
  handle_form_event toLowerCase sport searchTerm ClickSelectAll st' = st' ∧
  selectedStudents
    (handle_form_event toLowerCase sport searchTerm ClickClearAll st') = [].
Proof.
  cbv zeta. cbn [handle_form_event selectedStudents setSelectedStudents].
  assert (Hsel : eligibleStudents toLowerCase sport searchTerm st =
    filter (λ s, matches_student toLowerCase searchTerm s = true ∧
                 canStudentRegister sport st (st_id s) = true) (form_students st)).
  { unfold eligibleStudents, filteredStudents. rewrite list_filter_filter.
    apply list_filter_iff. intros s. tauto. }
  split; [rewrite Hsel; reflexivity|].
  split; [intros s; apply matches_student_spec|].
  split; [|split; [|split; [|split; reflexivity]]].
  - intros s Hs Hno Hnd Hin. rewrite Hsel in Hin.
    apply list_elem_of_fmap in Hin as (s' & Hid & Hs').
    apply list_elem_of_filter in Hs' as [[Hm _] Hs'].
    assert (s' = s); [|congruence].
    apply list_elem_of_lookup in Hs as [i Hi]. apply list_elem_of_lookup in Hs' as [j Hj].
    assert (i = j); [|congruence].
    apply (NoDup_lookup _ i j (st_id s) Hnd); rewrite list_lookup_fmap.
    + rewrite Hi. reflexivity.
    + rewrite Hj. cbn. congruence.
  - intros sid Hsid. apply list_elem_of_fmap in Hsid as (s & -> & Hs).
    apply list_elem_of_filter in Hs as [He _].
    rewrite canStudentRegister_setSelectedStudents. split; [exact He|].
    unfold canStudentRegister in He.
    change (isStudentAlreadyRegistered (setSelectedStudents _ st) (st_id s))
      with (isStudentAlreadyRegistered st (st_id s)).
    destruct (isStudentAlreadyRegistered st (st_id s)); [discriminate|reflexivity].
  - intros Hlow ->. rewrite eligibleStudents_empty_search by exact Hlow. reflexivity.
Qed.

Lemma canStudentRegister_not_registered sport st sid :
  canStudentRegister sport st sid = true → isStudentAlreadyRegistered st sid = false.
Proof.
  unfold canStudentRegister.
  destruct (isStudentAlreadyRegistered st sid); [discriminate|reflexivity].
Qed.

(** The selection a session at the form builds. *)
Lemma form_session_invariant toLowerCase profile sport st st' :
  form_session toLowerCase profile sport st st' →
  NoDup (map st_id (form_students st)) →
  NoDup (selectedStudents st) →
  (∀ sid, sid ∈ selectedStudents st →
     sid ∈ map st_id (form_students st) ∧ canStudentRegister sport st sid = true) →
  setSelectedStudents (selectedStudents st) st' = st ∧
  NoDup (selectedStudents st') ∧
  ∀ sid, sid ∈ selectedStudents st' →
    sid ∈ map st_id (form_students st) ∧ canStudentRegister sport st sid = true.
Proof.
  intros Hsession Hids Hnd Hsel.
  induction Hsession as [st|st st' searchTerm ev Hsession IH Hen].
  - split; [apply setSelectedStudents_same|]. split; assumption.
  - specialize (IH Hids Hnd Hsel). destruct IH as (Hsame & Hnd' & Hsel').
    destruct Hen as [_ Hen].
    assert (Hfields : form_students st' = form_students st ∧
                      ∀ sid, canStudentRegister sport st' sid =
                             canStudentRegister sport st sid).
    { rewrite <- Hsame. split; reflexivity. }
    destruct Hfields as [Hstudents Hcan].
    destruct ev as [student| |]; cbn [handle_form_event form_event_enabled] in *.
    + destruct (canStudentRegister sport st' (st_id student)) eqn:He.
      * split; [|split].
        -- unfold handleStudentToggle. rewrite setSelectedStudents_twice. exact Hsame.
        -- apply handleStudentToggle_NoDup. exact Hnd'.
        -- intros sid Hsid. apply handleStudentToggle_elem in Hsid
             as [[_ Hsid]|[-> _]]; [apply Hsel'; exact Hsid|].
           split; [|rewrite <- Hcan; exact He].
           apply list_elem_of_filter in Hen as [_ Hen].
           rewrite <- Hstudents. apply list_elem_of_fmap.
           exists student. split; [reflexivity|exact Hen].
      * split; [exact Hsame|]. split; assumption.
    + pose proof (eligibleStudents_form_students toLowerCase sport searchTerm st')
        as Hsub.
      split; [rewrite setSelectedStudents_twice; exact Hsame|].
      cbn [selectedStudents setSelectedStudents]. split.
      * apply (sublist_NoDup _ (map st_id (form_students st'))).
        -- rewrite Hstudents. exact Hids.
        -- apply fmap_sublist. etransitivity; [exact Hsub|apply sublist_filter].
      * intros sid Hsid. apply list_elem_of_fmap in Hsid as (s & -> & Hs).
        apply (λ H, elem_of_sublist _ _ _ H Hsub) in Hs.
        apply list_elem_of_filter in Hs as [He Hs]. split.
        -- rewrite <- Hstudents. apply list_elem_of_fmap.
           exists s. split; [reflexivity|exact Hs].
        -- rewrite <- Hcan. exact He.
    + split; [rewrite setSelectedStudents_twice; exact Hsame|].
      cbn [selectedStudents setSelectedStudents]. split; [constructor|].
      intros sid Hsid. apply elem_of_nil in Hsid. contradiction.
Qed.

(** X7. From a form with nothing selected whose students have distinct ids,
    whatever the user clicks (cards of listed students, [Select All],
    [Clear All], with any text in the search box), only the selection
    changes, it has no repeated id, and every selected id is a listed student
    that [canStudentRegister] accepts, hence one the form does not know as
    registered for the sport. *)
Theorem form_session_selects_eligible (toLowerCase : string → string)
    (profile : option Profile) (sport : Sport) (st st' : FormState) :
  form_session toLowerCase profile sport st st' →
  selectedStudents st = [] →
  NoDup (map st_id (form_students st)) →
  setSelectedStudents [] st' = st ∧
  NoDup (selectedStudents st') ∧
  ∀ sid, sid ∈ selectedStudents st' →
    sid ∈ map st_id (form_students st') ∧
    canStudentRegister sport st' sid = true ∧
    isStudentAlreadyRegistered st' sid = false.
Proof.
  intros Hsession Hempty Hids.
  destruct (form_session_invariant toLowerCase profile sport st st' Hsession Hids)
    as (Hsame & Hnd & Hsel).
  - rewrite Hempty. constructor.
  - rewrite Hempty. intros sid Hsid. apply elem_of_nil in Hsid. contradiction.
  - rewrite Hempty in Hsame. split; [exact Hsame|]. split; [exact Hnd|].
    intros sid Hsid. destruct (Hsel sid Hsid) as [Hin He].
    rewrite <- Hsame in Hin, He.
    change (canStudentRegister sport st' sid = true) in He.
    split; [exact Hin|]. split; [exact He|].
    eapply canStudentRegister_not_registered. exact He.
Qed.

Lemma form_session_selects_eligible_demo :
  setSelectedStudents [] binu_clicked = form_after_load ∧
  NoDup (selectedStudents binu_clicked) ∧
  ∀ sid, sid ∈ selectedStudents binu_clicked →
    sid ∈ map st_id (form_students binu_clicked) ∧
    canStudentRegister cricket binu_clicked sid = true ∧
    isStudentAlreadyRegistered binu_clicked sid = false.
Proof.
  apply (form_session_selects_eligible ascii_lower demo_coordinator cricket
           form_after_load binu_clicked).
  - apply session_event; [apply session_start|]. split; [reflexivity|].
    vm_compute. apply list_elem_of_further, list_elem_of_here.
  - reflexivity.
  - compute_done.
Defined.

(** ** The failures to come *)

Lemma keeps_faults_ret {A} (a : A) : keeps_faults (ret a).
Proof. intros w o w' H. injection H as _ <-. reflexivity. Qed.

Lemma keeps_faults_throw {A} e : keeps_faults (@throw A e).
Proof. intros w o w' H. injection H as _ <-. reflexivity. Qed.

Lemma keeps_faults_bind {A B} (c : M A) (k : A → M B) :
  keeps_faults c → (∀ a, keeps_faults (k a)) → keeps_faults (bind c k).
Proof.
  intros Hc Hk w o w' H. unfold bind in H.
  destruct (c w) as [[a|e] w1] eqn:Hcw.
  - rewrite (Hk _ _ _ _ H). eapply Hc; exact Hcw.
  - injection H as _ <-. eapply Hc; exact Hcw.
Qed.

Lemma keeps_faults_try_catch {A} (c : M A) (h : PgError → M A) :
  keeps_faults c → (∀ e, keeps_faults (h e)) → keeps_faults (try_catch c h).
Proof.
  intros Hc Hh w o w' H. unfold try_catch in H.
  destruct (c w) as [[a|e] w1] eqn:Hcw.
  - injection H as _ <-. eapply Hc; exact Hcw.
  - rewrite (Hh _ _ _ _ H). eapply Hc; exact Hcw.
Qed.

Lemma keeps_faults_request {A} (q : Statement A) : keeps_faults (request q).
Proof.
  intros w o w' H. unfold request in H. destruct (faults w (issued w)).
  - injection H as _ <-. reflexivity.
  - destruct (q (issued w) (db w)) as [r d]. injection H as _ <-. reflexivity.
Qed.

Lemma keeps_faults_checked {A} (c : M (Response A)) :
  keeps_faults c → keeps_faults (checked c).
Proof.
  intros Hc. unfold checked. apply keeps_faults_bind; [exact Hc|].
  intros [a|e]; [apply keeps_faults_ret|apply keeps_faults_throw].
Qed.

Ltac keeps_faults_step :=
  first
    [ apply keeps_faults_ret
    | apply keeps_faults_throw
    | apply keeps_faults_request
    | apply keeps_faults_checked
    | apply keeps_faults_bind; [|intros ?]
    | apply keeps_faults_try_catch; [|intros ?] ].

Lemma keeps_faults_reliable {A} (c : M A) w o w' :
  keeps_faults c → c w = (o, w') → reliable w → reliable w'.
Proof. intros Hc Hrun Hrel n. rewrite (Hc _ _ _ Hrun). apply Hrel. Qed.

Lemma keeps_faults_fetchRegistrationLimits : keeps_faults fetchRegistrationLimits.
Proof. unfold fetchRegistrationLimits. repeat keeps_faults_step. Qed.

Lemma keeps_faults_getStudentRegistrationInfo ids cat :
  keeps_faults (getStudentRegistrationInfo ids cat).
Proof.
  unfold getStudentRegistrationInfo. destruct (Nat.eqb _ _).
  - keeps_faults_step.
  - apply keeps_faults_bind; [apply keeps_faults_fetchRegistrationLimits|intros ?].
    repeat keeps_faults_step.
Qed.

Lemma keeps_faults_fetchStudents profile st : keeps_faults (fetchStudents profile st).
Proof. unfold fetchStudents. destruct (is_admin profile); repeat keeps_faults_step. Qed.

Lemma keeps_faults_fetchExistingRegistrations sport st :
  keeps_faults (fetchExistingRegistrations sport st).
Proof. unfold fetchExistingRegistrations. repeat keeps_faults_step. Qed.

Lemma keeps_faults_form_fetchRegistrationLimits st :
  keeps_faults (form_fetchRegistrationLimits st).
Proof. unfold form_fetchRegistrationLimits. repeat keeps_faults_step. Qed.

Lemma keeps_faults_fetchStudentRegistrationCounts st :
  keeps_faults (fetchStudentRegistrationCounts st).
Proof.
  unfold fetchStudentRegistrationCounts.
  destruct (Nat.eqb _ _); repeat keeps_faults_step.
Qed.

Lemma keeps_faults_performRegistration sport profile st :
  keeps_faults (performRegistration sport profile st).
Proof. unfold performRegistration. repeat keeps_faults_step. Qed.

Lemma keeps_faults_fetchRegistrations profile ps :
  keeps_faults (fetchRegistrations profile ps).
Proof.
  unfold fetchRegistrations.
  apply keeps_faults_try_catch; [|intros ?; keeps_faults_step].
  apply keeps_faults_bind; [repeat keeps_faults_step|intros data].
  destruct (is_admin profile); [|keeps_faults_step].
  apply keeps_faults_bind; [|intros ps1].
  - unfold fetchRegistrationLimitsData.
    apply keeps_faults_try_catch; [|intros ?; keeps_faults_step].
    apply keeps_faults_bind; [|intros ?; keeps_faults_step].
    apply keeps_faults_fetchRegistrationLimits.
  - unfold page_fetchStudentRegistrationCounts. repeat keeps_faults_step.
Qed.

(** ** [fetchData] *)

Lemma settled_run {A} (c : M A) w :
  settled c w =
    match c w with
    | (Ok a, w') => (Ok (Some a), w')
    | (Throw e, w') => (Ok None, w')
    end.
Proof.
  unfold settled, try_catch, bind. destruct (c w) as [[a|e] w']; reflexivity.
Qed.

Lemma fetchStudents_failed profile st w :
  is_admin profile = false → faults w (issued w) = true →
  ∃ w', fetchStudents profile st w = (Throw NetworkError, w').
Proof.
  intros Hadm Hf. unfold fetchStudents. rewrite Hadm. unfold checked, bind.
  rewrite request_failed by exact Hf. eexists. reflexivity.
Qed.

Lemma fetchStudents_admin profile st w :
  is_admin profile = true → fetchStudents profile st w = (Ok st, w).
Proof. intros Hadm. unfold fetchStudents. rewrite Hadm. reflexivity. Qed.

Lemma fetchStudents_no_profile st w :
  ∃ e w', fetchStudents None st w = (Throw e, w').
Proof.
  unfold fetchStudents. cbn [is_admin coordinator_year_text]. unfold checked, bind.
  destruct (faults w (issued w)) eqn:Hf.
  - rewrite request_failed by exact Hf. eexists _, _. reflexivity.
  - rewrite request_answered by exact Hf. eexists _, _. reflexivity.
Qed.

Lemma fetchExistingRegistrations_failed sport st w :
  faults w (issued w) = true →
  ∃ w', fetchExistingRegistrations sport st w = (Throw NetworkError, w').
Proof.
  intros Hf. unfold fetchExistingRegistrations, checked, bind.
  rewrite request_failed by exact Hf. eexists. reflexivity.
Qed.

Lemma fetchExistingRegistrations_answered sport st w :
  faults w (issued w) = false →
  fetchExistingRegistrations sport st w =
    (Ok (setExistingRegistrations
           (map (λ r, mkExistingRegistration (reg_student_id r) (reg_sport_id r)
                        (reg_status r))
              (filter (λ r, reg_sport_id r = sp_id sport) (registrations (db w))))
           st),
     mkWorld (db w) (faults w) (S (issued w))).
Proof.
  intros Hf. unfold fetchExistingRegistrations, checked, bind.
  rewrite request_answered by exact Hf. reflexivity.
Qed.

Lemma fetchStudentRegistrationCounts_first_render st w :
  form_students st = [] → fetchStudentRegistrationCounts st w = (Ok st, w).
Proof. intros Hst. unfold fetchStudentRegistrationCounts. rewrite Hst. reflexivity. Qed.

Lemma fetchData_reads sport profile st : respects eq (fetchData sport profile st).
Proof.
  pose proof (@eq_refl Database) as Hrefl.
  pose proof (@eq_trans Database) as Htrans.
  assert (Hsettled : ∀ A (c : M A), respects eq c → respects eq (settled c)).
  { intros A c Hc. unfold settled.
    apply (respects_try_catch eq Htrans); [|intros ?; apply (respects_ret eq Hrefl)].
    apply (respects_bind eq Htrans);
      [exact Hc|intros ?; apply (respects_ret eq Hrefl)]. }
  unfold fetchData.
  apply (respects_bind eq Htrans);
    [apply Hsettled, (respects_fetchStudents eq Hrefl Htrans)|intros r1].
  apply (respects_bind eq Htrans);
    [apply Hsettled, (respects_fetchExistingRegistrations eq Hrefl Htrans)|intros r2].
  apply (respects_bind eq Htrans);
    [apply Hsettled, (respects_form_fetchRegistrationLimits eq Hrefl Htrans)|intros r3].
  apply (respects_bind eq Htrans);
    [apply Hsettled, (respects_fetchStudentRegistrationCounts eq Hrefl Htrans)
    |intros r4].
  destruct r1, r2, r3, r4; apply (respects_ret eq Hrefl).
Qed.

Lemma settled_returns {A} (c : M A) w :
  ∃ r w', settled c w = (Ok r, w') ∧
          match r with
          | Some a => c w = (Ok a, w')
          | None => ∃ e, c w = (Throw e, w')
          end.
Proof.
  rewrite settled_run. destruct (c w) as [[a|e] w'].
  - exists (Some a), w'. split; reflexivity.
  - exists None, w'. split; [reflexivity|]. exists e. reflexivity.
Qed.

Lemma fetchData_run sport profile st w :
  ∃ r1 r2 r3 r4 w1 w2 w3 w4,
    settled (fetchStudents profile st) w = (Ok r1, w1) ∧
    settled (fetchExistingRegistrations sport st) w1 = (Ok r2, w2) ∧
    settled (form_fetchRegistrationLimits st) w2 = (Ok r3, w3) ∧
    settled (fetchStudentRegistrationCounts st) w3 = (Ok r4, w4) ∧
    fetchData sport profile st w =
      (Ok (mkFormState
             (form_students (default st r1))
             (selectedStudents st)
             (existingRegistrations (default st r2))
             (registrationLimits (default st r3))
             (studentRegistrationCounts (default st r4))
             (registering st) (showWarningDialog st) (studentsExceedingLimits st)
             (if bool_decide (is_Some r1 ∧ is_Some r2 ∧ is_Some r3 ∧ is_Some r4)
              then form_toasts st else form_toasts st ++ [LoadFailed])),
       w4).
Proof.
  destruct (settled_returns (fetchStudents profile st) w) as (r1 & w1 & H1 & _).
  destruct (settled_returns (fetchExistingRegistrations sport st) w1)
    as (r2 & w2 & H2 & _).
  destruct (settled_returns (form_fetchRegistrationLimits st) w2)
    as (r3 & w3 & H3 & _).
  destruct (settled_returns (fetchStudentRegistrationCounts st) w3)
    as (r4 & w4 & H4 & _).
  exists r1, r2, r3, r4, w1, w2, w3, w4. repeat (split; [assumption|]).
  unfold fetchData, bind. rewrite H1, H2, H3, H4.
  destruct st, r1 as [[]|], r2 as [[]|], r3 as [[]|], r4 as [[]|]; reflexivity.
Qed.

Lemma fetchStudents_answered p st w :
  role p ≠ admin → faults w (issued w) = false →
  ∃ y, parse_year (coordinator_year_text (Some p)) = Some y ∧
       (∀ y', coordinator_policy (role p) y' = true ↔ y' = y) ∧
       fetchStudents (Some p) st w =
         (Ok (setStudents
                (merge_sort name_le (filter (λ s, st_year s = y) (students (db w))))
                st),
          mkWorld (db w) (faults w) (S (issued w))).
Proof.
  intros Hrole Hf.
  destruct (coordinator_year_text_label p Hrole) as (y & _ & Hparse & Hpol).
  exists y. split; [exact Hparse|]. split; [exact Hpol|].
  unfold fetchStudents. rewrite is_admin_role.
  rewrite bool_decide_eq_false_2 by exact Hrole.
  unfold checked, bind. rewrite request_answered by exact Hf.
  unfold select_students_by_year. rewrite Hparse. reflexivity.
Qed.

Lemma fetchStudents_returns p st w :
  faults w (issued w) = false → ∃ st' w', fetchStudents (Some p) st w = (Ok st', w').
Proof.
  intros Hf. destruct (decide (role p = admin)) as [Hadm|Hadm].
  - exists st, w. apply fetchStudents_admin. rewrite is_admin_role.
    apply bool_decide_eq_true_2. exact Hadm.
  - destruct (fetchStudents_answered p st w Hadm Hf) as (y & _ & _ & Hrun).
    eexists _, _. exact Hrun.
Qed.

Lemma fetchStudentRegistrationCounts_answered st w :
  faults w (issued w) = false →
  fetchStudentRegistrationCounts st w =
    if Nat.eqb (length (form_students st)) 0 then (Ok st, w)
    else (Ok (setStudentRegistrationCounts
                (count_rows (map st_id (form_students st))
                   (omap (quota_row (db w))
                      (filter (λ r, reg_student_id r ∈ map st_id (form_students st) ∧
                                    reg_status r ∈ [pending; approved])
                         (registrations (db w)))))
                st),
          mkWorld (db w) (faults w) (S (issued w))).
Proof.
  intros Hf. unfold fetchStudentRegistrationCounts.
  destruct (Nat.eqb _ _); [reflexivity|].
  unfold checked, bind. rewrite request_answered by exact Hf. reflexivity.
Qed.

(** X8. [fetchData] never throws, only reads, and leaves the selection alone.
    It shows the toast of a failed load at most once: always when there is no
    profile (the year filter is then the text [undefined], which the database
    rejects) and when the first request fails, never when a profile is there
    and the storage answers. Called from a render without students it leaves
    the registration counts as they were, since
    [fetchStudentRegistrationCounts] reads the students of that render. *)
Theorem fetchData_never_throws (sport : Sport) (profile : option Profile)
    (st : FormState) (w : World) :
  ∃ st' w',
    fetchData sport profile st w = (Ok st', w') ∧
    db w' = db w ∧
    selectedStudents st' = selectedStudents st ∧
    (form_toasts st' = form_toasts st ∨
     form_toasts st' = form_toasts st ++ [LoadFailed]) ∧
    (profile = None → form_toasts st' = form_toasts st ++ [LoadFailed]) ∧
    (faults w (issued w) = true →
       form_toasts st' = form_toasts st ++ [LoadFailed]) ∧
    (reliable w → is_Some profile → form_toasts st' = form_toasts st) ∧
    (form_students st = [] →
       studentRegistrationCounts st' = studentRegistrationCounts st).
Proof.
  destruct (fetchData_run sport profile st w)
    as (r1 & r2 & r3 & r4 & w1 & w2 & w3 & w4 & H1 & H2 & H3 & H4 & Hrun).
  eexists _, _. split; [exact Hrun|].
  split; [symmetry; exact (fetchData_reads _ _ _ _ _ _ Hrun)|].
  cbn [selectedStudents form_toasts studentRegistrationCounts].
  split; [reflexivity|]. split; [case_bool_decide; [left|right]; reflexivity|].
  rewrite settled_run in H1, H2, H3, H4.
  split; [|split; [|split]].
  - intros ->. destruct (fetchStudents_no_profile st w) as (e & w0 & Hthrow).
    rewrite Hthrow in H1. injection H1 as <- <-.
    rewrite bool_decide_eq_false_2; [reflexivity|].
    intros [[? ?] _]. discriminate.
  - intros Hf. rewrite bool_decide_eq_false_2; [reflexivity|].
    intros ([a1 ->] & [a2 ->] & _).
    destruct (is_admin profile) eqn:Hadm.
    + rewrite fetchStudents_admin in H1 by exact Hadm. injection H1 as _ <-.
      destruct (fetchExistingRegistrations_failed sport st w Hf) as [w0 Hthrow].
      rewrite Hthrow in H2. discriminate.
    + destruct (fetchStudents_failed profile st w Hadm Hf) as [w0 Hthrow].
      rewrite Hthrow in H1. discriminate.
  - intros Hrel [p ->].
    destruct (fetchStudents_returns p st w (Hrel _)) as (s1 & w1' & Hs1).
    rewrite Hs1 in H1. injection H1 as <- <-.
    assert (Hrel1 : reliable w1')
      by (exact (keeps_faults_reliable _ _ _ _
                   (keeps_faults_fetchStudents _ _) Hs1 Hrel)).
    rewrite fetchExistingRegistrations_answered in H2 by apply Hrel1.
    injection H2 as <- <-.
    rewrite form_fetchRegistrationLimits_eq, fetchRegistrationLimits_run in H3
      by apply Hrel1.
    injection H3 as <- <-.
    rewrite fetchStudentRegistrationCounts_answered in H4 by apply Hrel1.
    destruct (Nat.eqb _ _); injection H4 as <- <-;
      (rewrite bool_decide_eq_true_2; [reflexivity|repeat split; eexists; reflexivity]).
  - intros Hst. rewrite fetchStudentRegistrationCounts_first_render in H4 by exact Hst.
    injection H4 as <- _. reflexivity.
Qed.

Lemma existsb_existing (sid spid : uuid) (l : list Registration) :
  existsb (λ reg, Nat.eqb (er_student_id reg) sid)
    (map (λ r, mkExistingRegistration (reg_student_id r) (reg_sport_id r)
                 (reg_status r))
       (filter (λ r, reg_sport_id r = spid) l)) = true ↔
  (sid, spid) ∈ map pair_of l.
Proof.
  rewrite existsb_exists. split.
  - intros (er & Hin & Heq). apply list_elem_of_In in Hin.
    apply list_elem_of_fmap in Hin as (r & -> & Hr).
    apply list_elem_of_filter in Hr as [Hsp Hr]. cbn in Heq.
    apply Nat.eqb_eq in Heq. apply list_elem_of_fmap. exists r.
    split; [|exact Hr]. unfold pair_of. congruence.
  - intros Hin. apply list_elem_of_fmap in Hin as (r & Heq & Hr).
    unfold pair_of in Heq. injection Heq as Hs Hsp.
    exists (mkExistingRegistration (reg_student_id r) (reg_sport_id r) (reg_status r)).
    split.
    + apply list_elem_of_In, list_elem_of_fmap. exists r. split; [reflexivity|].
      apply list_elem_of_filter. split; [congruence|exact Hr].
    + cbn. apply Nat.eqb_eq. congruence.
Qed.

(** What [fetchData] loads when its requests are answered. *)
Lemma fetchData_loaded sport profile st w :
  reliable w →
  ∃ st' w',
    fetchData sport profile st w = (Ok st', w') ∧
    existingRegistrations st' =
      map (λ r, mkExistingRegistration (reg_student_id r) (reg_sport_id r)
                  (reg_status r))
        (filter (λ r, reg_sport_id r = sp_id sport) (registrations (db w))) ∧
    registrationLimits st' =
      mkRegistrationLimits
        (limit_or_zero (settings (db w) !! "max_game_registrations"))
        (limit_or_zero (settings (db w) !! "max_athletic_registrations")) ∧
    studentRegistrationCounts st' =
      if Nat.eqb (length (form_students st)) 0 then studentRegistrationCounts st
      else count_rows (map st_id (form_students st))
             (omap (quota_row (db w))
                (filter (λ r, reg_student_id r ∈ map st_id (form_students st) ∧
                              reg_status r ∈ [pending; approved])
                   (registrations (db w)))).
Proof.
  intros Hrel.
  destruct (fetchData_run sport profile st w)
    as (r1 & r2 & r3 & r4 & w1 & w2 & w3 & w4 & H1 & H2 & H3 & H4 & Hrun).
  eexists _, _. split; [exact Hrun|].
  cbn [existingRegistrations registrationLimits studentRegistrationCounts].
  rewrite settled_run in H1, H2, H3, H4.
  assert (Hw1 : db w1 = db w ∧ reliable w1).
  { destruct (fetchStudents profile st w) as [[a|e] w0] eqn:Hs1;
      injection H1 as _ <-;
      (split; [symmetry; exact (respects_fetchStudents eq (@eq_refl _) (@eq_trans _)
                                  _ _ _ _ _ Hs1)
              |exact (keeps_faults_reliable _ _ _ _
                        (keeps_faults_fetchStudents _ _) Hs1 Hrel)]). }
  destruct Hw1 as [Hdb1 Hrel1].
  rewrite fetchExistingRegistrations_answered in H2 by apply Hrel1.
  injection H2 as <- <-.
  rewrite form_fetchRegistrationLimits_eq, fetchRegistrationLimits_run in H3
    by apply Hrel1.
  injection H3 as <- <-.
  rewrite fetchStudentRegistrationCounts_answered in H4 by apply Hrel1.
  cbn [db default existingRegistrations setExistingRegistrations
       registrationLimits setRegistrationLimits] in *.
  rewrite Hdb1 in *. split; [reflexivity|]. split; [reflexivity|].
  destruct (Nat.eqb _ _); injection H4 as <- _; reflexivity.
Qed.

(** X9. The first load of the form applies no limit. When [fetchData] runs
    from a state without students and without counts and the storage answers,
    the counts stay empty, and afterwards [canStudentRegister] accepts a
    student exactly when the ledger has no registration, of any status, of the
    student for the sport, however many registrations the student has in the
    category. *)
Theorem first_load_ignores_limits (sport : Sport) (profile : option Profile)
    (st : FormState) (w : World) :
  reliable w → form_students st = [] → studentRegistrationCounts st = ∅ →
  ∃ st' w',
    fetchData sport profile st w = (Ok st', w') ∧
    studentRegistrationCounts st' = ∅ ∧
    ∀ sid, canStudentRegister sport st' sid = true ↔
           (sid, sp_id sport) ∉ map pair_of (registrations (db w)).
Proof.
  intros Hrel Hst Hcounts.
  destruct (fetchData_loaded sport profile st w Hrel)
    as (st' & w' & Hrun & Hex & _ & Hc).
  exists st', w'. split; [exact Hrun|].
  rewrite Hst in Hc. cbn [length Nat.eqb] in Hc. rewrite Hcounts in Hc.
  split; [exact Hc|]. intros sid. unfold canStudentRegister, isStudentAlreadyRegistered.
  rewrite Hex, Hc, lookup_empty.
  pose proof (existsb_existing sid (sp_id sport) (registrations (db w))) as Hiff.
  destruct (existsb _ _).
  - split; [discriminate|]. intros Hno. exfalso. apply Hno, Hiff. reflexivity.
  - split; [|reflexivity]. intros _ Hin. apply Hiff in Hin. discriminate.
Qed.

Lemma first_load_ignores_limits_demo :
  ∃ st' w',
    fetchData football demo_coordinator empty_form demo_world = (Ok st', w') ∧
    studentRegistrationCounts st' = ∅ ∧
    ∀ sid, canStudentRegister football st' sid = true ↔
           (sid, sp_id football) ∉ map pair_of (registrations (db demo_world)).
Proof.
  apply (first_load_ignores_limits football demo_coordinator empty_form demo_world).
  - intros n. reflexivity.
  - reflexivity.
  - reflexivity.
Defined.

(** X10. When [fetchData] runs from a state that lists a student and the
    storage answers, the student's counts are the numbers of the student's
    pending or approved game and athletic registrations,
    [isStudentAlreadyRegistered] holds exactly when the ledger has a
    registration of the student for the sport (a rejected one included), and
    [canStudentRegister] holds exactly when there is none and the count in the
    sport's category is below the stored limit (0 when none is stored: nobody
    is eligible then). *)
Theorem eligibility_reflects_ledger (sport : Sport) (profile : option Profile)
    (st : FormState) (w : World) (s : Student) :
  reliable w → s ∈ form_students st →
  ∃ st' w',
    fetchData sport profile st w = (Ok st', w') ∧
    studentRegistrationCounts st' !! st_id s =
      Some (mkCounts (Z.of_nat (quota_count (db w) (st_id s) game))
                     (Z.of_nat (quota_count (db w) (st_id s) athletic))) ∧
    (isStudentAlreadyRegistered st' (st_id s) = true ↔
       (st_id s, sp_id sport) ∈ map pair_of (registrations (db w))) ∧
    (canStudentRegister sport st' (st_id s) = true ↔
       ((st_id s, sp_id sport) ∉ map pair_of (registrations (db w))) ∧
       Z.of_nat (quota_count (db w) (st_id s) (sp_type sport)) <
         default 0 (stored_limit (db w) (sp_type sport))).
Proof.
  intros Hrel Hs.
  destruct (fetchData_loaded sport profile st w Hrel)
    as (st' & w' & Hrun & Hex & Hlim & Hc).
  exists st', w'. split; [exact Hrun|].
  destruct (form_students st) as [|s0 l] eqn:Hst;
    [apply elem_of_nil in Hs; contradiction|].
  cbn [length Nat.eqb] in Hc.
  assert (Hid : st_id s ∈ map st_id (s0 :: l)).
  { apply list_elem_of_fmap. exists s. split; [reflexivity|exact Hs]. }
  assert (Hcount : studentRegistrationCounts st' !! st_id s =
            Some (mkCounts (Z.of_nat (quota_count (db w) (st_id s) game))
                           (Z.of_nat (quota_count (db w) (st_id s) athletic)))).
  { rewrite Hc, (count_rows_lookup _ _ (st_id s) Hid).
    unfold quota_count. rewrite !quota_rows_count by exact Hid. reflexivity. }
  split; [exact Hcount|].
  pose proof (existsb_existing (st_id s) (sp_id sport) (registrations (db w))) as Hiff.
  unfold canStudentRegister, isStudentAlreadyRegistered.
  rewrite Hex, Hcount, Hlim. split; [exact Hiff|].
  cbn [games athletics maxGameRegistrations maxAthleticRegistrations].
  unfold stored_limit. rewrite <- limit_or_zero_default.
  destruct (existsb _ _).
  - split; [discriminate|]. intros [Hno _]. exfalso. apply Hno, Hiff. reflexivity.
  - rewrite Z.ltb_lt. destruct (sp_type sport); cbn [limit_key]; split.
    + intros Hlt. split; [|exact Hlt]. intros Hin. apply Hiff in Hin. discriminate.
    + intros [_ Hlt]. exact Hlt.
    + intros Hlt. split; [|exact Hlt]. intros Hin. apply Hiff in Hin. discriminate.
    + intros [_ Hlt]. exact Hlt.
Qed.

Lemma eligibility_reflects_ledger_demo :
  ∃ st' w',
    fetchData cricket demo_coordinator loaded_form demo_world = (Ok st', w') ∧
    studentRegistrationCounts st' !! st_id asha =
      Some (mkCounts (Z.of_nat (quota_count (db demo_world) (st_id asha) game))
                     (Z.of_nat (quota_count (db demo_world) (st_id asha) athletic))) ∧
    (isStudentAlreadyRegistered st' (st_id asha) = true ↔
       (st_id asha, sp_id cricket) ∈ map pair_of (registrations (db demo_world))) ∧
    (canStudentRegister cricket st' (st_id asha) = true ↔
       ((st_id asha, sp_id cricket) ∉ map pair_of (registrations (db demo_world))) ∧
       Z.of_nat (quota_count (db demo_world) (st_id asha) (sp_type cricket)) <
         default 0 (stored_limit (db demo_world) (sp_type cricket))).
Proof.
  apply (eligibility_reflects_ledger cricket demo_coordinator loaded_form demo_world
           asha).
  - intros n. reflexivity.
  - apply list_elem_of_here.
Defined.

(** ** [performRegistration] and [handleSubmit], request by request *)

Lemma performRegistration_explicit sport profile st w :
  let autoApprove :=
    if faults w (issued w) then false
    else truthy (enabled_of (settings (db w) !! "auto_approve_registrations")) in
  let rows :=
    registration_rows sport profile (if autoApprove then approved else pending)
      (selectedStudents st) in
  performRegistration sport profile st w =
    if faults w (S (issued w))
    then (Ok (setRegistering false (toast RegistrationFailed (setRegistering true st))),
          mkWorld (db w) (faults w) (S (S (issued w))))
    else
      match insert_registrations rows (S (issued w)) (db w) with
      | (RData _, d1) =>
          (Ok (setRegistering false
                 (toast (RegistrationSucceeded (length (selectedStudents st)) autoApprove)
                    (setRegistering true st))),
           mkWorld
             (if faults w (S (S (issued w))) then d1
              else (insert_activity_log (profile_id <$> profile) "students_registered"
                      (S (S (issued w))) d1).2)
             (faults w) (S (S (S (issued w)))))
      | (RError e, d1) =>
          (Ok (setRegistering false (toast RegistrationFailed (setRegistering true st))),
           mkWorld d1 (faults w) (S (S (issued w))))
      end.
Proof.
  intros autoApprove rows.
  assert (Hauto :
    truthy (js_or (data_enabled
                 (if faults w (issued w) then RError NetworkError
                  else match settings (db w) !! "auto_approve_registrations" with
                       | Some v => RData v
                       | None => RError NoRows
                       end)) (JBool false)) = autoApprove).
  { subst autoApprove. rewrite truthy_js_or_false.
    destruct (faults w (issued w)); [reflexivity|].
    destruct (settings (db w) !! "auto_approve_registrations"); reflexivity. }
  unfold performRegistration, try_catch, bind, checked, bind.
  assert (Hfirst : request (select_setting_single "auto_approve_registrations") w =
    (Ok (if faults w (issued w) then RError NetworkError
         else match settings (db w) !! "auto_approve_registrations" with
              | Some v => RData v
              | None => RError NoRows
              end),
     mkWorld (db w) (faults w) (S (issued w)))).
  { unfold request. rewrite select_setting_single_run.
    destruct (faults w (issued w)); reflexivity. }
  rewrite Hfirst. cbv beta iota. rewrite Hauto.
  change (map _ (selectedStudents st)) with rows.
  destruct (faults w (S (issued w))) eqn:Hf1.
  - rewrite request_failed by exact Hf1. reflexivity.
  - rewrite request_answered by exact Hf1. cbn [fst snd db faults issued].
    destruct (insert_registrations rows (S (issued w)) (db w)) as [[[]|e] d1];
      cbn [fst snd]; [|reflexivity].
    unfold ret at 1. cbv beta iota. unfold request. cbn [db faults issued].
    destruct (faults w (S (S (issued w)))); reflexivity.
Qed.

Lemma handleSubmit_explicit sport profile st w :
  handleSubmit sport profile st w =
    if Nat.eqb (length (selectedStudents st)) 0
    then (Ok (toast NoStudentsSelected st), w)
    else
      match getStudentRegistrationInfo (selectedStudents st) (sp_type sport) w with
      | (Ok infos, w1) =>
          match getStudentsExceedingLimits infos (sp_type sport) with
          | [] => performRegistration sport profile st w1
          | _ :: _ =>
              (Ok (setShowWarningDialog true
                     (setStudentsExceedingLimits
                        (getStudentsExceedingLimits infos (sp_type sport)) st)), w1)
          end
      | (Throw e, w1) => (Ok (toast LimitCheckFailed st), w1)
      end.
Proof.
  unfold handleSubmit. destruct (Nat.eqb _ _); [reflexivity|].
  unfold try_catch, bind at 1. unfold bind at 1.
  destruct (getStudentRegistrationInfo _ _ w) as [[infos|e] w1]; [|reflexivity].
  unfold getStudentsExceedingLimits.
  destruct (filter _ infos) as [|x l]; reflexivity.
Qed.

Lemma insert_rows_logs now rows :
  ∀ d d',
    insert_rows now rows d = Some d' →
    activity_logs d' =
      activity_logs d ++
      map (λ row, mkActivityLog (nr_registered_by row) "registration_created") rows.
Proof.
  induction rows as [|row rows IH]; intros d d' H; cbn [insert_rows] in H.
  - injection H as <-. cbn. rewrite app_nil_r. reflexivity.
  - case_decide; [discriminate|]. apply IH in H. rewrite H. cbn [add_row activity_logs].
    rewrite <- app_assoc. reflexivity.
Qed.

Lemma insert_registrations_ok rows now d d1 :
  insert_registrations rows now d = (RData (), d1) →
  registrations d1 = registrations d ++ new_registrations now (next_uuid d) rows ∧
  students d1 = students d ∧ sports d1 = sports d ∧ settings d1 = settings d ∧
  activity_logs d1 =
    activity_logs d ++
    map (λ row, mkActivityLog (nr_registered_by row) "registration_created") rows.
Proof.
  intros Hins.
  destruct (insert_registrations_cases rows now d) as [(d' & Hd' & Hrows & _)|(e & He)];
    [|rewrite He in Hins; discriminate].
  rewrite Hd' in Hins. injection Hins as <-.
  pose proof (insert_rows_logs _ _ _ _ Hrows) as Hlogs.
  apply insert_rows_Some in Hrows as (Hreg & Hst & Hsp & Hset & _).
  repeat split; assumption.
Qed.

Lemma insert_registrations_error rows now d e d1 :
  insert_registrations rows now d = (RError e, d1) → d1 = d.
Proof.
  intros Hins.
  destruct (insert_registrations_cases rows now d) as [(d' & Hd' & _)|(e' & He)].
  - rewrite Hd' in Hins. discriminate.
  - rewrite He in Hins. injection Hins as _ <-. reflexivity.
Qed.

(** X11. [performRegistration] never throws and always ends with
    [registering] reset; besides that it only adds a toast. On failure the
    database is as it was, the log included. On success the ledger has one
    more row per selected student and the log has got one
    [registration_created] row per selected student from the trigger,
    attributed to the profile, followed by the [students_registered] row of
    the form unless the request that writes it failed: that failure does not
    undo the registration and is not reported. *)
Theorem performRegistration_logging (sport : Sport) (profile : option Profile)
    (st : FormState) (w : World) :
  ∃ t w',
    performRegistration sport profile st w =
      (Ok (toast t (setRegistering false st)), w') ∧
    (t = RegistrationFailed ∧ db w' = db w ∨
     ∃ b tail,
       t = RegistrationSucceeded (length (selectedStudents st)) b ∧
       length (registrations (db w')) =
         (length (registrations (db w)) + length (selectedStudents st))%nat ∧
       activity_logs (db w') =
         activity_logs (db w) ++
         replicate (length (selectedStudents st))
           (mkActivityLog (profile_id <$> profile) "registration_created") ++
         tail ∧
       (faults w (S (S (issued w))) = true ∧ tail = [] ∨
        faults w (S (S (issued w))) = false ∧
        tail = [mkActivityLog (profile_id <$> profile) "students_registered"])).
Proof.
  rewrite performRegistration_explicit.
  destruct (faults w (S (issued w))).
  { eexists _, _. split; [reflexivity|]. left. split; reflexivity. }
  destruct (insert_registrations _ _ _) as [[[]|e] d1] eqn:Hins.
  - eexists _, _. split; [reflexivity|]. right.
    apply insert_registrations_ok in Hins as (Hreg & _ & _ & _ & Hlogs).
    assert (Hrep : ∀ status sel,
      map (λ row, mkActivityLog (nr_registered_by row) "registration_created")
        (registration_rows sport profile status sel) =
      replicate (length sel)
        (mkActivityLog (profile_id <$> profile) "registration_created")).
    { intros status sel. induction sel as [|i sel IH]; [reflexivity|].
      cbn. f_equal. exact IH. }
    assert (Hlen : ∀ now next status sel,
      length (new_registrations now next
                (registration_rows sport profile status sel)) = length sel).
    { intros now next status sel.
      rewrite <- (proj1 (new_registrations_students now next sport profile status sel))
        at 2.
      rewrite length_map. reflexivity. }
    rewrite Hrep in Hlogs.
    destruct (faults w (S (S (issued w)))).
    + eexists _, []. split; [reflexivity|]. cbn [db]. split.
      * rewrite Hreg, length_app, Hlen. reflexivity.
      * rewrite app_nil_r. split; [exact Hlogs|]. left. split; reflexivity.
    + eexists _, _. split; [reflexivity|]. cbn [db insert_activity_log snd
        registrations activity_logs]. split.
      * rewrite Hreg, length_app, Hlen. reflexivity.
      * rewrite Hlogs, <- app_assoc. split; [reflexivity|]. right.
        split; reflexivity.
  - apply insert_registrations_error in Hins. subst d1.
    eexists _, _. split; [reflexivity|]. left. split; reflexivity.
Qed.

Lemma length_nonempty {A} (l : list A) : l ≠ [] → Nat.eqb (length l) 0 = false.
Proof. destruct l; [contradiction|reflexivity]. Qed.

Lemma performRegistration_outcome sport profile st w :
  ∃ t w',
    performRegistration sport profile st w =
      (Ok (toast t (setRegistering false st)), w') ∧
    (t = RegistrationFailed ∧ db w' = db w ∨
     ∃ b new,
       t = RegistrationSucceeded (length (selectedStudents st)) b ∧
       registrations (db w') = registrations (db w) ++ new ∧
       map reg_student_id new = selectedStudents st ∧
       Forall (λ r, reg_sport_id r = sp_id sport ∧
                    reg_status r = if b then approved else pending) new).
Proof.
  rewrite performRegistration_explicit.
  destruct (faults w (S (issued w))).
  { eexists _, _. split; [reflexivity|]. left. split; reflexivity. }
  destruct (insert_registrations _ _ _) as [[[]|e] d1] eqn:Hins.
  - eexists _, _. split; [reflexivity|]. right.
    apply insert_registrations_ok in Hins as (Hreg & _).
    eexists _, _. split; [reflexivity|].
    destruct (new_registrations_students (S (issued w)) (next_uuid (db w)) sport
                profile
                (if (if faults w (issued w) then false
                     else truthy (enabled_of
                            (settings (db w) !! "auto_approve_registrations")))
                 then approved else pending)
                (selectedStudents st)) as [Hmap Hall].
    split; [|split; [exact Hmap|exact Hall]].
    destruct (faults w (S (S (issued w)))); exact Hreg.
  - apply insert_registrations_error in Hins. subst d1.
    eexists _, _. split; [reflexivity|]. left. split; reflexivity.
Qed.

(** X12. [handleSubmit] never throws and never changes the selection. It ends
    in one of five ways: nothing was selected (a toast, no request); the limit
    check failed (a toast, the database as it was); the warning dialog is
    opened with a non-empty list of selected students at or over their limit
    (the database as it was); the registration failed (a toast, the database
    as it was); or it succeeded, with one new registration per selected
    student, in the order of the selection. *)
Theorem handleSubmit_outcomes (sport : Sport) (profile : option Profile)
    (st : FormState) (w : World) :
  ∃ st' w',
    handleSubmit sport profile st w = (Ok st', w') ∧
    selectedStudents st' = selectedStudents st ∧
    ((selectedStudents st = [] ∧ st' = toast NoStudentsSelected st ∧ w' = w) ∨
     (selectedStudents st ≠ [] ∧ st' = toast LimitCheckFailed st ∧ db w' = db w) ∨
     (selectedStudents st ≠ [] ∧
      st' = setShowWarningDialog true
              (setStudentsExceedingLimits (studentsExceedingLimits st') st) ∧
      studentsExceedingLimits st' ≠ [] ∧
      (∀ info, info ∈ studentsExceedingLimits st' →
         id info ∈ selectedStudents st ∧ limit info ≤ currentCount info) ∧
      db w' = db w) ∨
     (selectedStudents st ≠ [] ∧
      st' = toast RegistrationFailed (setRegistering false st) ∧ db w' = db w) ∨
     (selectedStudents st ≠ [] ∧
      ∃ b new,
        st' = toast (RegistrationSucceeded (length (selectedStudents st)) b)
                (setRegistering false st) ∧
        registrations (db w') = registrations (db w) ++ new ∧
        map reg_student_id new = selectedStudents st)).
Proof.
  rewrite handleSubmit_explicit.
  destruct (decide (selectedStudents st = [])) as [Hsel|Hne].
  { assert (Heq : Nat.eqb (length (selectedStudents st)) 0 = true)
      by (rewrite Hsel; reflexivity).
    rewrite Heq. eexists _, _. split; [reflexivity|].
    split; [reflexivity|]. left. auto. }
  rewrite (length_nonempty _ Hne).
  destruct (getStudentRegistrationInfo _ _ w) as [[infos|e] w1] eqn:Hrun.
  - destruct (getStudentRegistrationInfo_ok _ _ _ _ _ Hrun) as [Hdb HF].
    destruct (getStudentsExceedingLimits infos (sp_type sport)) as [|x l] eqn:Hex.
    + destruct (performRegistration_outcome sport profile st w1)
        as (t & w' & Hperf & [[-> Hdb']|(b & new & -> & Hreg & Hmap & _)]).
      * eexists _, _. split; [exact Hperf|]. split; [reflexivity|].
        right. right. right. left. repeat split; [exact Hne|congruence].
      * eexists _, _. split; [exact Hperf|]. split; [reflexivity|].
        right. right. right. right. split; [exact Hne|].
        exists b, new. split; [reflexivity|]. split; [congruence|exact Hmap].
    + eexists _, _. split; [reflexivity|]. split; [reflexivity|].
      right. right. left. split; [exact Hne|]. split; [reflexivity|].
      cbn [studentsExceedingLimits setShowWarningDialog setStudentsExceedingLimits].
      split; [discriminate|]. split; [|exact Hdb].
      intros info Hin. rewrite <- Hex in Hin. unfold getStudentsExceedingLimits in Hin.
      apply list_elem_of_filter in Hin as [Hle Hin]. split; [|exact Hle].
      apply (proj2 (evaluator_covers_selection _ _ _ _ HF)). exact Hin.
  - eexists _, _. split; [reflexivity|]. split; [reflexivity|].
    right. left. split; [exact Hne|]. split; [reflexivity|].
    symmetry.
    exact (respects_getStudentRegistrationInfo eq (@eq_refl _) (@eq_trans _)
             _ _ _ _ _ Hrun).
Qed.

(** X13. If any of the three requests of the limit check fails,
    [handleSubmit] shows the toast of the failed check, registers nobody,
    changes nothing else in the form and issues at most three requests. *)
Theorem limit_check_failure_registers_nobody (sport : Sport)
    (profile : option Profile) (st : FormState) (w : World) (n : nat) :
  selectedStudents st ≠ [] →
  (n < 3)%nat → faults w (issued w + n)%nat = true →
  ∃ w',
    handleSubmit sport profile st w = (Ok (toast LimitCheckFailed st), w') ∧
    db w' = db w ∧ (issued w' ≤ issued w + 3)%nat.
Proof.
  intros Hne Hn Hf. rewrite handleSubmit_explicit, (length_nonempty _ Hne).
  destruct (selectedStudents st) as [|i ids]; [contradiction|].
  destruct (getStudentRegistrationInfo_faults i ids (sp_type sport) w)
    as (o & k & Hrun & Hcases).
  rewrite Hrun.
  assert (Hthrow : o = Throw NetworkError ∧ (k ≤ issued w + 3)%nat).
  { assert (H0 : (issued w + 0)%nat = issued w) by lia.
    assert (H1 : (issued w + 1)%nat = S (issued w)) by lia.
    assert (H2 : (issued w + 2)%nat = S (S (issued w))) by lia.
    destruct (faults w (issued w)) eqn:Hf0;
      [destruct Hcases as [-> ->]; split; [reflexivity|lia]|].
    destruct (faults w (S (issued w))) eqn:Hf1;
      [destruct Hcases as [-> ->]; split; [reflexivity|lia]|].
    destruct (faults w (S (S (issued w)))) eqn:Hf2;
      [destruct Hcases as [-> ->]; split; [reflexivity|lia]|].
    exfalso. assert (n = 0 ∨ n = 1 ∨ n = 2)%nat as [->|[->| ->]] by lia; congruence. }
  destruct Hthrow as [-> Hk]. eexists. split; [reflexivity|]. split; [reflexivity|].
  exact Hk.
Qed.

Lemma limit_check_failure_registers_nobody_demo :
  ∃ w',
    handleSubmit cricket demo_coordinator third_selected faulty_world =
      (Ok (toast LimitCheckFailed third_selected), w') ∧
    db w' = db faulty_world ∧ (issued w' ≤ issued faulty_world + 3)%nat.
Proof.
  apply (limit_check_failure_registers_nobody cricket demo_coordinator third_selected
           faulty_world 1).
  - discriminate.
  - lia.
  - reflexivity.
Defined.

Lemma nobody_exceeds d cat (ids : list uuid) infos :
  Forall2 (info_matches d cat) (filter (λ s, st_id s ∈ ids) (students d)) infos →
  (∀ s, s ∈ students d → st_id s ∈ ids →
     Z.of_nat (quota_count d (st_id s) cat) < default 0 (stored_limit d cat)) →
  getStudentsExceedingLimits infos cat = [].
Proof.
  intros HF Hbelow. unfold getStudentsExceedingLimits. apply filter_nil_iff.
  intros info Hin Hle. apply list_elem_of_lookup in Hin as [k Hk].
  destruct (Forall2_lookup_r _ _ _ _ _ HF Hk) as (s & Hs & Hid & Hl & Hc).
  apply list_elem_of_lookup_2, list_elem_of_filter in Hs as [Hsel Hs].
  specialize (Hbelow s Hs Hsel). unfold stored_limit in Hbelow.
  rewrite <- limit_or_zero_default in Hbelow. lia.
Qed.

(** X14. When the storage answers and every selected student is below the
    limit of the sport's category, [handleSubmit] raises no warning: it is
    [performRegistration], run after the three requests of the check. If
    moreover the selection has no repeated id, its ids are students, the sport
    exists and no selected student has a registration for the sport, it
    reports success and adds one registration per selected student, in the
    order of the selection, for the sport and with the status the
    auto-approve setting gives. *)
Theorem handleSubmit_registers_below_limit (sport : Sport)
    (profile : option Profile) (st : FormState) (w : World) :
  reliable w → selectedStudents st ≠ [] →
  (∀ s, s ∈ students (db w) → st_id s ∈ selectedStudents st →
     Z.of_nat (quota_count (db w) (st_id s) (sp_type sport)) <
       default 0 (stored_limit (db w) (sp_type sport))) →
  handleSubmit sport profile st w =
    performRegistration sport profile st
      (mkWorld (db w) (faults w) (S (S (S (issued w))))) ∧
  (NoDup (selectedStudents st) →
   (∀ sid, sid ∈ selectedStudents st → sid ∈ map st_id (students (db w))) →
   sp_id sport ∈ map sp_id (sports (db w)) →
   (∀ sid, sid ∈ selectedStudents st →
      (sid, sp_id sport) ∉ map pair_of (registrations (db w))) →
   ∃ w' new,
     handleSubmit sport profile st w =
       (Ok (toast (RegistrationSucceeded (length (selectedStudents st))
                     (truthy (enabled_of
                        (settings (db w) !! "auto_approve_registrations"))))
              (setRegistering false st)), w') ∧
     registrations (db w') = registrations (db w) ++ new ∧
     map reg_student_id new = selectedStudents st ∧
     Forall (λ r, reg_sport_id r = sp_id sport ∧
                  reg_status r = initial_status_of (db w)) new).
Proof.
  intros Hrel Hne Hbelow.
  assert (Hsubmit : handleSubmit sport profile st w =
    performRegistration sport profile st
      (mkWorld (db w) (faults w) (S (S (S (issued w)))))).
  { rewrite handleSubmit_explicit, (length_nonempty _ Hne).
    destruct (getStudentRegistrationInfo_run w (selectedStudents st) (sp_type sport)
                Hrel Hne) as (infos & Hrun & HF).
    rewrite Hrun, (nobody_exceeds _ _ _ _ HF Hbelow). reflexivity. }
  split; [exact Hsubmit|]. intros Hnd Hst Hsp Hfresh. rewrite Hsubmit.
  rewrite performRegistration_explicit. cbn [db faults issued].
  rewrite !Hrel.
  destruct (registration_rows_accepted sport profile
              (if truthy (enabled_of (settings (db w) !! "auto_approve_registrations"))
               then approved else pending)
              (selectedStudents st) (S (S (S (S (issued w))))) (db w)
              Hnd Hst Hsp Hfresh) as (d1 & Hins & Hreg).
  rewrite Hins. eexists _, _. split; [reflexivity|].
  cbn [db insert_activity_log snd registrations]. split; [exact Hreg|].
  apply new_registrations_students.
Qed.

Lemma handleSubmit_registers_below_limit_demo :
  handleSubmit cricket demo_coordinator third_selected demo_world =
    performRegistration cricket demo_coordinator third_selected
      (mkWorld (db demo_world) (faults demo_world) (S (S (S (issued demo_world))))) ∧
  (NoDup (selectedStudents third_selected) →
   (∀ sid, sid ∈ selectedStudents third_selected →
      sid ∈ map st_id (students (db demo_world))) →
   sp_id cricket ∈ map sp_id (sports (db demo_world)) →
   (∀ sid, sid ∈ selectedStudents third_selected →
      (sid, sp_id cricket) ∉ map pair_of (registrations (db demo_world))) →
   ∃ w' new,
     handleSubmit cricket demo_coordinator third_selected demo_world =
       (Ok (toast (RegistrationSucceeded (length (selectedStudents third_selected))
                     (truthy (enabled_of
                        (settings (db demo_world) !! "auto_approve_registrations"))))
              (setRegistering false third_selected)), w') ∧
     registrations (db w') = registrations (db demo_world) ++ new ∧
     map reg_student_id new = selectedStudents third_selected ∧
     Forall (λ r, reg_sport_id r = sp_id cricket ∧
                  reg_status r = initial_status_of (db demo_world)) new).
Proof.
  apply (handleSubmit_registers_below_limit cricket demo_coordinator third_selected
           demo_world).
  - intros n. reflexivity.
  - discriminate.
  - intros s Hs Hsel. apply list_elem_of_singleton in Hsel.
    apply elem_of_cons in Hs as [->|Hs]; [discriminate|].
    apply elem_of_cons in Hs as [->|Hs]; [discriminate|].
    apply list_elem_of_singleton in Hs as ->. vm_compute. reflexivity.
Defined.

(** X15. Submitting and cancelling the warning is a round trip. From a state
    with the dialog closed and no students listed in it, when the storage
    answers and a selected student is at or over the limit, [handleSubmit]
    opens the dialog and writes nothing, and [handleWarningCancel] then gives
    back the state the form had before the submission. *)
Theorem warning_cancel_round_trip (sport : Sport) (profile : option Profile)
    (st : FormState) (w : World) :
  reliable w → selectedStudents st ≠ [] →
  showWarningDialog st = false → studentsExceedingLimits st = [] →
  (∃ s, s ∈ students (db w) ∧ st_id s ∈ selectedStudents st ∧
        default 0 (stored_limit (db w) (sp_type sport)) ≤
          Z.of_nat (quota_count (db w) (st_id s) (sp_type sport))) →
  ∃ st1 w1,
    handleSubmit sport profile st w = (Ok st1, w1) ∧
    showWarningDialog st1 = true ∧
    db w1 = db w ∧
    handleWarningCancel st1 = st.
Proof.
  intros Hrel Hne Hclosed Hnone (s & Hs & Hsel & Hle).
  destruct (getStudentRegistrationInfo_run w (selectedStudents st) (sp_type sport)
              Hrel Hne) as (infos & Hrun & HF).
  destruct (proj1 (evaluator_covers_selection _ _ _ _ HF) s Hs Hsel)
    as (info & Hin & Hid).
  destruct (proj2 (evaluator_covers_selection _ _ _ _ HF) info Hin) as (_ & Hl & Hc).
  assert (Hex : getStudentsExceedingLimits infos (sp_type sport) ≠ []).
  { intros Hnil. unfold getStudentsExceedingLimits in Hnil.
    apply (filter_nil_not_elem_of _ _ info Hnil); [|exact Hin].
    unfold stored_limit in Hle. rewrite <- limit_or_zero_default in Hle.
    rewrite Hl, Hc, Hid. exact Hle. }
  rewrite (handleSubmit_warning _ _ _ _ _ _ Hne Hrun Hex).
  eexists _, _. split; [reflexivity|]. split; [reflexivity|]. split; [reflexivity|].
  unfold handleWarningCancel. destruct st. cbn in *. subst. reflexivity.
Qed.

Lemma warning_cancel_round_trip_demo :
  ∃ st1 w1,
    handleSubmit cricket demo_coordinator two_selected demo_world = (Ok st1, w1) ∧
    showWarningDialog st1 = true ∧
    db w1 = db demo_world ∧
    handleWarningCancel st1 = two_selected.
Proof.
  apply (warning_cancel_round_trip cricket demo_coordinator two_selected demo_world).
  - intros n. reflexivity.
  - discriminate.
  - reflexivity.
  - reflexivity.
  - exists asha. split; [apply list_elem_of_here|]. split; [apply list_elem_of_here|].
    vm_compute. discriminate.
Defined.

(** ** A selection the ledger accepts *)

Lemma performRegistration_accepted sport profile st w :
  reliable w →
  NoDup (selectedStudents st) →
  (∀ sid, sid ∈ selectedStudents st → sid ∈ map st_id (students (db w))) →
  sp_id sport ∈ map sp_id (sports (db w)) →
  (∀ sid, sid ∈ selectedStudents st →
     (sid, sp_id sport) ∉ map pair_of (registrations (db w))) →
  ∃ w' new,
    performRegistration sport profile st w =
      (Ok (toast (RegistrationSucceeded (length (selectedStudents st))
                    (truthy (enabled_of
                       (settings (db w) !! "auto_approve_registrations"))))
             (setRegistering false st)), w') ∧
    registrations (db w') = registrations (db w) ++ new ∧
    map reg_student_id new = selectedStudents st ∧
    Forall (λ r, reg_sport_id r = sp_id sport ∧
                 reg_status r = initial_status_of (db w)) new.
Proof.
  intros Hrel Hnd Hst Hsp Hfresh.
  rewrite performRegistration_explicit. rewrite !Hrel.
  destruct (registration_rows_accepted sport profile
              (if truthy (enabled_of (settings (db w) !! "auto_approve_registrations"))
               then approved else pending)
              (selectedStudents st) (S (issued w)) (db w)
              Hnd Hst Hsp Hfresh) as (d1 & Hins & Hreg).
  rewrite Hins. eexists _, _. split; [reflexivity|].
  cbn [db insert_activity_log snd registrations]. split; [exact Hreg|].
  apply new_registrations_students.
Qed.

Lemma keeps_faults_settled {A} (c : M A) : keeps_faults c → keeps_faults (settled c).
Proof. intros Hc. unfold settled. repeat keeps_faults_step. exact Hc. Qed.

Lemma keeps_faults_fetchData sport profile st :
  keeps_faults (fetchData sport profile st).
Proof.
  unfold fetchData.
  apply keeps_faults_bind;
    [apply keeps_faults_settled, keeps_faults_fetchStudents|intros r1].
  apply keeps_faults_bind;
    [apply keeps_faults_settled, keeps_faults_fetchExistingRegistrations|intros r2].
  apply keeps_faults_bind;
    [apply keeps_faults_settled, keeps_faults_form_fetchRegistrationLimits|intros r3].
  apply keeps_faults_bind;
    [apply keeps_faults_settled, keeps_faults_fetchStudentRegistrationCounts
    |intros r4].
  destruct r1, r2, r3, r4; apply keeps_faults_ret.
Qed.

Lemma fetchData_students sport p st w st' w' :
  faults w (issued w) = false → role p ≠ admin →
  fetchData sport (Some p) st w = (Ok st', w') →
  ∃ y, (∀ y', coordinator_policy (role p) y' = true ↔ y' = y) ∧
       form_students st' =
         merge_sort name_le (filter (λ s, st_year s = y) (students (db w))).
Proof.
  intros Hf Hrole Hrun.
  destruct (fetchData_run sport (Some p) st w)
    as (r1 & r2 & r3 & r4 & w1 & w2 & w3 & w4 & H1 & _ & _ & _ & Hrun').
  rewrite Hrun in Hrun'. injection Hrun' as -> ->.
  destruct (fetchStudents_answered p st w Hrole Hf) as (y & _ & Hpol & Hs).
  rewrite settled_run, Hs in H1. injection H1 as <- _.
  exists y. split; [exact Hpol|reflexivity].
Qed.

Lemma sorted_filter_ids (P : Student → Prop) `{!∀ s, Decision (P s)}
    (l : list Student) :
  NoDup (map st_id l) →
  NoDup (map st_id (merge_sort name_le (filter P l))) ∧
  ∀ s, s ∈ merge_sort name_le (filter P l) ↔ s ∈ l ∧ P s.
Proof.
  intros Hnd. split.
  - rewrite (merge_sort_Permutation name_le (filter P l)).
    apply (sublist_NoDup _ (map st_id l)); [exact Hnd|].
    apply fmap_sublist, sublist_filter.
  - intros s. rewrite (merge_sort_Permutation name_le (filter P l)).
    rewrite list_elem_of_filter. tauto.
Qed.

(** X16. A selection made with the form's controls on freshly loaded data is
    never refused by the ledger. A coordinator's form is loaded by
    [fetchData] from a database whose students have distinct ids and that has
    the sport, the user clicks a non-empty selection together, and the storage
    answers: then submitting either registers every selected student, or opens
    the warning dialog, and confirming it registers every selected student. *)
Theorem fresh_form_selection_is_accepted (toLowerCase : string → string)
    (sport : Sport) (p : Profile) (st0 st st' : FormState) (w w1 : World) :
  reliable w → role p ≠ admin →
  NoDup (map st_id (students (db w))) →
  sp_id sport ∈ map sp_id (sports (db w)) →
  selectedStudents st0 = [] →
  fetchData sport (Some p) st0 w = (Ok st, w1) →
  form_session toLowerCase (Some p) sport st st' →
  selectedStudents st' ≠ [] →
  ∃ st2 w2,
    handleSubmit sport (Some p) st' w1 = (Ok st2, w2) ∧
    ((∃ new,
        registrations (db w2) = registrations (db w) ++ new ∧
        map reg_student_id new = selectedStudents st' ∧
        form_toasts st2 =
          form_toasts st' ++
          [RegistrationSucceeded (length (selectedStudents st'))
             (truthy (enabled_of (settings (db w) !! "auto_approve_registrations")))])
     ∨
     (showWarningDialog st2 = true ∧ db w2 = db w ∧
      ∃ st3 w3 new,
        handleWarningConfirm sport (Some p) st2 w2 = (Ok st3, w3) ∧
        registrations (db w3) = registrations (db w) ++ new ∧
        map reg_student_id new = selectedStudents st' ∧
        form_toasts st3 =
          form_toasts st' ++
          [RegistrationSucceeded (length (selectedStudents st'))
             (truthy (enabled_of
                (settings (db w) !! "auto_approve_registrations")))])).
Proof.
  intros Hrel Hrole Hids Hsport Hempty Hload Hsession Hne.
  (* what was loaded *)
  destruct (fetchData_loaded sport (Some p) st0 w Hrel)
    as (st_ & w_ & Hload' & Hex & _ & _).
  rewrite Hload in Hload'. injection Hload' as <- <-.
  destruct (fetchData_students _ _ _ _ _ _ (Hrel _) Hrole Hload) as (y & _ & Hstudents).
  assert (Hdb1 : db w1 = db w)
    by (symmetry; exact (fetchData_reads _ _ _ _ _ _ Hload)).
  assert (Hrel1 : reliable w1)
    by (exact (keeps_faults_reliable _ _ _ _ (keeps_faults_fetchData _ _ _) Hload Hrel)).
  assert (Hsel0 : selectedStudents st = []).
  { destruct (fetchData_run sport (Some p) st0 w)
      as (r1 & r2 & r3 & r4 & ? & ? & ? & ? & _ & _ & _ & _ & Hrun').
    rewrite Hload in Hrun'. injection Hrun' as -> _. exact Hempty. }
  destruct (sorted_filter_ids (λ s, st_year s = y) (students (db w)) Hids)
    as [Hnd_form Hform].
  rewrite <- Hstudents in Hnd_form, Hform.
  (* the selection *)
  destruct (form_session_invariant toLowerCase (Some p) sport st st' Hsession Hnd_form)
    as (Hsame & Hnd & Hsel).
  { rewrite Hsel0. constructor. }
  { rewrite Hsel0. intros sid Hsid. apply elem_of_nil in Hsid. contradiction. }
  assert (Hst : ∀ sid, sid ∈ selectedStudents st' → sid ∈ map st_id (students (db w1))).
  { intros sid Hsid. destruct (Hsel sid Hsid) as [Hin _].
    apply list_elem_of_fmap in Hin as (s & -> & Hs). apply Hform in Hs as [Hs _].
    rewrite Hdb1. apply list_elem_of_fmap. exists s. split; [reflexivity|exact Hs]. }
  assert (Hfresh : ∀ sid, sid ∈ selectedStudents st' →
            (sid, sp_id sport) ∉ map pair_of (registrations (db w1))).
  { intros sid Hsid Hin. destruct (Hsel sid Hsid) as [_ Hcan].
    apply canStudentRegister_not_registered in Hcan.
    unfold isStudentAlreadyRegistered in Hcan. rewrite Hex in Hcan.
    rewrite Hdb1 in Hin. apply existsb_existing in Hin. congruence. }
  assert (Hsport1 : sp_id sport ∈ map sp_id (sports (db w1)))
    by (rewrite Hdb1; exact Hsport).
  (* the submission *)
  rewrite handleSubmit_explicit, (length_nonempty _ Hne).
  destruct (getStudentRegistrationInfo_run w1 (selectedStudents st') (sp_type sport)
              Hrel1 Hne) as (infos & Hrun & _).
  rewrite Hrun.
  set (w1' := mkWorld (db w1) (faults w1) (S (S (S (issued w1))))) in *.
  assert (Hrel1' : reliable w1') by (intros n; apply Hrel1).
  destruct (getStudentsExceedingLimits infos (sp_type sport)) as [|x l] eqn:Hexceed.
  - destruct (performRegistration_accepted sport (Some p) st' w1' Hrel1' Hnd Hst
                Hsport1 Hfresh) as (w2 & new & Hperf & Hreg & Hmap & _).
    eexists _, _. split; [exact Hperf|]. left. exists new.
    cbn [db w1'] in Hreg. rewrite Hdb1 in Hreg.
    split; [exact Hreg|]. split; [exact Hmap|]. cbn [db w1']. rewrite Hdb1.
    reflexivity.
  - eexists _, _. split; [reflexivity|]. right. split; [reflexivity|].
    split; [exact Hdb1|]. unfold handleWarningConfirm.
    destruct (performRegistration_accepted sport (Some p)
                (setShowWarningDialog false
                   (setShowWarningDialog true
                      (setStudentsExceedingLimits (x :: l) st')))
                w1' Hrel1' Hnd Hst Hsport1 Hfresh)
      as (w3 & new & Hperf & Hreg & Hmap & _).
    eexists _, _, new. split; [exact Hperf|].
    cbn [db w1'] in Hreg. rewrite Hdb1 in Hreg.
    split; [exact Hreg|]. split; [exact Hmap|]. cbn [db w1']. rewrite Hdb1.
    reflexivity.
Qed.

Lemma fresh_form_selection_is_accepted_demo :
  ∃ st2 w2,
    handleSubmit cricket (Some second_year) binu_clicked world_after_load =
      (Ok st2, w2) ∧
    ((∃ new,
        registrations (db w2) = registrations (db demo_world) ++ new ∧
        map reg_student_id new = selectedStudents binu_clicked ∧
        form_toasts st2 =
          form_toasts binu_clicked ++
          [RegistrationSucceeded (length (selectedStudents binu_clicked))
             (truthy (enabled_of
                (settings (db demo_world) !! "auto_approve_registrations")))])
     ∨
     (showWarningDialog st2 = true ∧ db w2 = db demo_world ∧
      ∃ st3 w3 new,
        handleWarningConfirm cricket (Some second_year) st2 w2 = (Ok st3, w3) ∧
        registrations (db w3) = registrations (db demo_world) ++ new ∧
        map reg_student_id new = selectedStudents binu_clicked ∧
        form_toasts st3 =
          form_toasts binu_clicked ++
          [RegistrationSucceeded (length (selectedStudents binu_clicked))
             (truthy (enabled_of
                (settings (db demo_world) !! "auto_approve_registrations")))])).
Proof.
  apply (fresh_form_selection_is_accepted ascii_lower cricket second_year empty_form
           form_after_load binu_clicked demo_world world_after_load).
  - intros n. reflexivity.
  - discriminate.
  - compute_done.
  - compute_done.
  - reflexivity.
  - vm_compute. reflexivity.
  - apply session_event; [apply session_start|]. split; [reflexivity|].
    vm_compute. apply list_elem_of_further, list_elem_of_here.
  - vm_compute. discriminate.
Defined.

Lemma insert_registrations_unreferenced rows now d row :
  row ∈ rows → ¬ references_ok d row →
  ∃ e, insert_registrations rows now d = (RError e, d).
Proof.
  intros Hrow Hno.
  destruct (insert_registrations_cases rows now d) as [(d' & _ & _ & Hall)|He];
    [|exact He].
  exfalso. apply Hno. exact (proj1 (Forall_forall _ _) Hall row Hrow).
Qed.

Lemma performRegistration_unreferenced sport profile st w sid :
  faults w (S (issued w)) = false →
  sid ∈ selectedStudents st → sid ∉ map st_id (students (db w)) →
  ∃ w',
    performRegistration sport profile st w =
      (Ok (toast RegistrationFailed (setRegistering false st)), w') ∧
    db w' = db w.
Proof.
  intros Hf Hsid Hno. rewrite performRegistration_explicit, Hf.
  match goal with |- context [insert_registrations ?rows ?now ?d] =>
    destruct (insert_registrations_unreferenced rows now d
                (mkNewRegistration sid (sp_id sport) (profile_id <$> profile)
                   (if (if faults w (issued w) then false
                        else truthy (enabled_of
                               (settings (db w) !! "auto_approve_registrations")))
                    then approved else pending)))
      as [e He]
  end.
  - unfold registration_rows. apply list_elem_of_fmap. exists sid.
    split; [reflexivity|exact Hsid].
  - intros [Hst _]. exact (Hno Hst).
  - rewrite He. eexists. split; reflexivity.
Qed.

(** X17. A selected id that is no student makes the whole batch fail. When
    the storage answers and the selection holds an id that is not in
    [students] (a student deleted since the form was loaded, say),
    [performRegistration] reports a failure and writes nothing, also for the
    selected students that exist. [handleSubmit] writes nothing either: it
    reports that failure, or it opens the warning dialog, whose list never
    names the unknown id, since the limit check skips such an id silently. *)
Theorem unknown_student_fails_batch (sport : Sport) (profile : option Profile)
    (st : FormState) (w : World) (sid : uuid) :
  reliable w →
  sid ∈ selectedStudents st → sid ∉ map st_id (students (db w)) →
  (∃ w',
     performRegistration sport profile st w =
       (Ok (toast RegistrationFailed (setRegistering false st)), w') ∧
     db w' = db w) ∧
  (∃ st' w',
     handleSubmit sport profile st w = (Ok st', w') ∧ db w' = db w ∧
     (st' = toast RegistrationFailed (setRegistering false st) ∨
      ∃ exceeding,
        st' = setShowWarningDialog true (setStudentsExceedingLimits exceeding st) ∧
        exceeding ≠ [] ∧
        ∀ info, info ∈ exceeding → id info ≠ sid)).
Proof.
  intros Hrel Hsid Hno. split.
  { apply (performRegistration_unreferenced _ _ _ _ sid); [apply Hrel|assumption..]. }
  assert (Hne : selectedStudents st ≠ []).
  { intros Hnil. rewrite Hnil in Hsid. apply elem_of_nil in Hsid. exact Hsid. }
  rewrite handleSubmit_explicit, (length_nonempty _ Hne).
  destruct (getStudentRegistrationInfo_run w (selectedStudents st) (sp_type sport)
              Hrel Hne) as (infos & Hrun & HF).
  rewrite Hrun.
  destruct (getStudentsExceedingLimits infos (sp_type sport)) as [|x l] eqn:Hex.
  - destruct (performRegistration_unreferenced sport profile st
                (mkWorld (db w) (faults w) (S (S (S (issued w))))) sid)
      as (w' & Hperf & Hdb); [apply Hrel|assumption..|].
    eexists _, _. split; [exact Hperf|]. split; [exact Hdb|]. left. reflexivity.
  - eexists _, _. split; [reflexivity|]. split; [reflexivity|]. right.
    exists (x :: l). split; [reflexivity|]. split; [discriminate|].
    intros info Hin Hid. rewrite <- Hex in Hin. unfold getStudentsExceedingLimits in Hin.
    apply list_elem_of_filter in Hin as [_ Hin].
    apply list_elem_of_lookup in Hin as [k Hk].
    destruct (Forall2_lookup_r _ _ _ _ _ HF Hk) as (s & Hs & Hids & _).
    apply list_elem_of_lookup_2, list_elem_of_filter in Hs as [_ Hs].
    apply Hno. rewrite <- Hid, Hids. apply list_elem_of_fmap.
    exists s. split; [reflexivity|exact Hs].
Qed.

Lemma unknown_student_fails_batch_demo :
  (∃ w',
     performRegistration cricket demo_coordinator stranger_selected demo_world =
       (Ok (toast RegistrationFailed (setRegistering false stranger_selected)), w') ∧
     db w' = db demo_world) ∧
  (∃ st' w',
     handleSubmit cricket demo_coordinator stranger_selected demo_world =
       (Ok st', w') ∧
     db w' = db demo_world ∧
     (st' = toast RegistrationFailed (setRegistering false stranger_selected) ∨
      ∃ exceeding,
        st' = setShowWarningDialog true
                (setStudentsExceedingLimits exceeding stranger_selected) ∧
        exceeding ≠ [] ∧
        ∀ info, info ∈ exceeding → id info ≠ 5%nat)).
Proof.
  apply (unknown_student_fails_batch cricket demo_coordinator stranger_selected
           demo_world 5).
  - intros n. reflexivity.
  - apply list_elem_of_further, list_elem_of_here.
  - compute_done.
Defined.

(** ** The [Registrations] page, request by request *)

Lemma fetchRegistrationLimitsData_explicit ps w :
  fetchRegistrationLimitsData ps w =
    (Ok (if faults w (issued w) then ps
         else page_setRegistrationLimits
                (mkRegistrationLimits
                   (limit_or_zero (settings (db w) !! "max_game_registrations"))
                   (limit_or_zero (settings (db w) !! "max_athletic_registrations")))
                ps),
     mkWorld (db w) (faults w) (S (issued w))).
Proof.
  unfold fetchRegistrationLimitsData, try_catch, bind.
  destruct (faults w (issued w)) eqn:Hf.
  - rewrite fetchRegistrationLimits_failed by exact Hf. reflexivity.
  - rewrite fetchRegistrationLimits_run by exact Hf. reflexivity.
Qed.

Lemma page_fetchStudentRegistrationCounts_explicit rows ps w :
  page_fetchStudentRegistrationCounts rows ps w =
    (Ok (if faults w (issued w) then ps
         else page_setStudentRegistrationCounts
                (count_rows (unique_student_ids rows)
                   (omap (quota_row (db w))
                      (filter (λ r, reg_student_id r ∈ unique_student_ids rows ∧
                                    reg_status r ∈ [pending; approved])
                         (registrations (db w)))))
                ps),
     mkWorld (db w) (faults w) (S (issued w))).
Proof.
  unfold page_fetchStudentRegistrationCounts, try_catch, bind, checked, bind.
  destruct (faults w (issued w)) eqn:Hf.
  - rewrite request_failed by exact Hf. reflexivity.
  - rewrite request_answered by exact Hf. reflexivity.
Qed.

Lemma fetchRegistrations_explicit profile ps w :
  fetchRegistrations profile ps w =
    match (if faults w (issued w) then RError NetworkError
           else (select_registration_views
                   (if negb (is_admin profile)
                    then Some (coordinator_year_text profile) else None)
                   (issued w) (db w)).1) with
    | RError e =>
        (Ok (page_toast LoadFailed ps), mkWorld (db w) (faults w) (S (issued w)))
    | RData data =>
        if is_admin profile then
          (Ok (mkPageState data
                 (if faults w (S (issued w)) then page_registrationLimits ps
                  else mkRegistrationLimits
                         (limit_or_zero (settings (db w) !! "max_game_registrations"))
                         (limit_or_zero
                            (settings (db w) !! "max_athletic_registrations")))
                 (if faults w (S (S (issued w))) then page_studentRegistrationCounts ps
                  else count_rows (unique_student_ids data)
                         (omap (quota_row (db w))
                            (filter (λ r, reg_student_id r ∈ unique_student_ids data ∧
                                          reg_status r ∈ [pending; approved])
                               (registrations (db w)))))
                 (deletingId ps) (page_toasts ps)),
           mkWorld (db w) (faults w) (S (S (S (issued w)))))
        else
          (Ok (setRegistrations data ps), mkWorld (db w) (faults w) (S (issued w)))
    end.
Proof.
  unfold fetchRegistrations, try_catch. unfold bind at 1. unfold checked, bind.
  destruct (faults w (issued w)) eqn:Hf.
  { rewrite request_failed by exact Hf. reflexivity. }
  rewrite request_answered by exact Hf.
  rewrite read_only_select_registration_views.
  destruct (select_registration_views _ _ _).1 as [data|e]; [|reflexivity].
  cbv beta iota. unfold ret at 1.
  destruct (is_admin profile); [|reflexivity].
  rewrite fetchRegistrationLimitsData_explicit. cbn [db faults issued].
  rewrite page_fetchStudentRegistrationCounts_explicit. cbn [db faults issued].
  destruct (faults w (S (issued w))), (faults w (S (S (issued w)))); reflexivity.
Qed.

Lemma fetchRegistrations_reads profile ps w :
  ∃ ps' w',
    fetchRegistrations profile ps w = (Ok ps', w') ∧ db w' = db w ∧
    faults w' = faults w ∧ deletingId ps' = deletingId ps ∧
    (page_toasts ps' = page_toasts ps ∨
     ps' = page_toast LoadFailed ps).
Proof.
  rewrite fetchRegistrations_explicit.
  destruct (if faults w (issued w) then _ else _) as [data|e].
  - destruct (is_admin profile); eexists _, _; repeat split; left; reflexivity.
  - eexists _, _; repeat split. right. reflexivity.
Qed.

Lemma select_registration_views_no_profile now d :
  ∃ e, (select_registration_views (Some (coordinator_year_text None)) now d).1 =
       RError e.
Proof. eexists. reflexivity. Qed.

Lemma select_registration_views_profile p now d :
  ∃ data,
    (select_registration_views
       (if negb (is_admin (Some p)) then Some (coordinator_year_text (Some p))
        else None) now d).1 = RData data.
Proof.
  rewrite is_admin_role. case_bool_decide as Hadm; cbn [negb].
  - eexists. reflexivity.
  - destruct (coordinator_year_text_label p Hadm) as (y & _ & Hparse & _).
    unfold select_registration_views. rewrite Hparse. eexists. reflexivity.
Qed.

(** X18. [fetchRegistrations] never throws and only reads. The toast of a
    failed load is shown when the request for the list fails or when there is
    no profile, and the page is then left as it was; with a profile and that
    request answered no toast is shown. A coordinator's page issues that one
    request and leaves limits and counts alone. On the admin's page a failure
    of the request for the limits, or of the one for the counts, is silent and
    leaves the previous limits, or counts, in place. *)
Theorem fetchRegistrations_failures (profile : option Profile) (ps : PageState)
    (w : World) :
  ∃ ps' w',
    fetchRegistrations profile ps w = (Ok ps', w') ∧
    db w' = db w ∧
    deletingId ps' = deletingId ps ∧
    (faults w (issued w) = true → ps' = page_toast LoadFailed ps) ∧
    (profile = None → ps' = page_toast LoadFailed ps) ∧
    (faults w (issued w) = false → is_Some profile →
       page_toasts ps' = page_toasts ps) ∧
    (is_admin profile = false →
       issued w' = S (issued w) ∧
       page_registrationLimits ps' = page_registrationLimits ps ∧
       page_studentRegistrationCounts ps' = page_studentRegistrationCounts ps) ∧
    (is_admin profile = true →
       (faults w (S (issued w)) = true →
          page_registrationLimits ps' = page_registrationLimits ps) ∧
       (faults w (S (S (issued w))) = true →
          page_studentRegistrationCounts ps' = page_studentRegistrationCounts ps)).
Proof.
  rewrite fetchRegistrations_explicit.
  destruct (faults w (issued w)) eqn:Hf.
  { eexists _, _. split; [reflexivity|]. split; [reflexivity|].
    split; [reflexivity|]. split; [reflexivity|]. split; [reflexivity|].
    split; [discriminate|]. split; intros _; repeat split; reflexivity. }
  destruct profile as [p|].
  - destruct (select_registration_views_profile p (issued w) (db w)) as [data ->].
    destruct (is_admin (Some p)) eqn:Hadm.
    + eexists _, _. split; [reflexivity|]. split; [reflexivity|].
      split; [reflexivity|]. split; [discriminate|]. split; [discriminate|].
      split; [reflexivity|]. split; [discriminate|]. intros _.
      cbn [page_registrationLimits page_studentRegistrationCounts].
      split; intros ->; reflexivity.
    + eexists _, _. split; [reflexivity|]. split; [reflexivity|].
      split; [reflexivity|]. split; [discriminate|]. split; [discriminate|].
      split; [reflexivity|]. split; [|discriminate]. intros _.
      repeat split; reflexivity.
  - eexists _, _. split; [reflexivity|]. split; [reflexivity|].
    split; [reflexivity|]. split; [discriminate|]. split; [reflexivity|].
    split; [intros _ [? ?]; discriminate|]. split; [|discriminate]. intros _.
    repeat split; reflexivity.
Qed.

Lemma newer_first_total : Total newer_first.
Proof. intros a b. unfold newer_first. lia. Qed.

(** X19. For an admin, when the storage answers, [fetchRegistrations] shows
    every registration that has its student and its sport, newest first, the
    stored limits (0 for a missing one), and for every student shown the
    numbers of the student's pending or approved game and athletic
    registrations. *)
Theorem admin_page_shows_ledger (p : Profile) (ps : PageState) (w : World) :
  reliable w → role p = admin →
  ∃ ps' w',
    fetchRegistrations (Some p) ps w = (Ok ps', w') ∧
    page_registrations ps' ≡ₚ
      omap (registration_view (db w)) (registrations (db w)) ∧
    Sorted newer_first (page_registrations ps') ∧
    page_registrationLimits ps' =
      mkRegistrationLimits (default 0 (stored_limit (db w) game))
                           (default 0 (stored_limit (db w) athletic)) ∧
    ∀ v, v ∈ page_registrations ps' →
      page_studentRegistrationCounts ps' !! st_id (rv_student v) =
        Some (mkCounts (Z.of_nat (quota_count (db w) (st_id (rv_student v)) game))
                       (Z.of_nat (quota_count (db w) (st_id (rv_student v)) athletic))).
Proof.
  intros Hrel Hadm. rewrite fetchRegistrations_explicit.
  rewrite is_admin_role, bool_decide_eq_true_2 by exact Hadm.
  rewrite !Hrel. cbn [negb select_registration_views fst].
  eexists _, _. split; [reflexivity|].
  cbn [page_registrations page_registrationLimits page_studentRegistrationCounts].
  split; [apply merge_sort_Permutation|].
  split; [apply Sorted_merge_sort, newer_first_total|].
  split; [unfold stored_limit; rewrite <- !limit_or_zero_default; reflexivity|].
  intros v Hv.
  assert (Hid : st_id (rv_student v) ∈
            unique_student_ids
              (merge_sort newer_first
                 (omap (registration_view (db w)) (registrations (db w))))).
  { unfold unique_student_ids. apply elem_of_remove_dups, list_elem_of_fmap.
    exists v. split; [reflexivity|exact Hv]. }
  rewrite (count_rows_lookup _ _ _ Hid).
  unfold quota_count. rewrite !quota_rows_count by exact Hid. reflexivity.
Qed.

Lemma admin_page_shows_ledger_demo :
  ∃ ps' w',
    fetchRegistrations (Some admin_profile) empty_page demo_world = (Ok ps', w') ∧
    page_registrations ps' ≡ₚ
      omap (registration_view (db demo_world)) (registrations (db demo_world)) ∧
    Sorted newer_first (page_registrations ps') ∧
    page_registrationLimits ps' =
      mkRegistrationLimits (default 0 (stored_limit (db demo_world) game))
                           (default 0 (stored_limit (db demo_world) athletic)) ∧
    ∀ v, v ∈ page_registrations ps' →
      page_studentRegistrationCounts ps' !! st_id (rv_student v) =
        Some (mkCounts
                (Z.of_nat (quota_count (db demo_world) (st_id (rv_student v)) game))
                (Z.of_nat (quota_count (db demo_world) (st_id (rv_student v))
                             athletic))).
Proof.
  apply (admin_page_shows_ledger admin_profile empty_page demo_world).
  - intros n. reflexivity.
  - reflexivity.
Defined.

Lemma find_filter_ne (rid : uuid) (l : list Registration) :
  List.find (λ r, Nat.eqb (reg_id r) rid) (filter (λ r, reg_id r ≠ rid) l) = None.
Proof.
  induction l as [|r l IH]; [reflexivity|].
  rewrite filter_cons. case_decide as Hne; [|exact IH].
  cbn [List.find]. rewrite (proj2 (Nat.eqb_neq _ _) Hne). exact IH.
Qed.

(** X20. [deleteRegistration] never throws. When the user declines the
    confirmation it does nothing and issues no request. Otherwise it ends with
    [deletingId] reset; if the delete request fails, the database is as it was
    and the failure toast is shown; if it is answered, the ledger loses
    exactly the rows with that id, the trigger adds one
    [registration_deleted] row without a user to the log for each row
    deleted, [students], [sports] and [settings] are as they were, and the
    success toast is shown, also when no row had the id. *)
Theorem deleteRegistration_outcomes (profile : option Profile) (rid : uuid)
    (confirmed : bool) (ps : PageState) (w : World) :
  ∃ ps' w',
    deleteRegistration profile rid confirmed ps w = (Ok ps', w') ∧
    (confirmed = false → ps' = ps ∧ w' = w) ∧
    (confirmed = true →
       deletingId ps' = None ∧
       (faults w (issued w) = true →
          db w' = db w ∧ ps' = setDeletingId None (page_toast RemoveFailed ps)) ∧
       (faults w (issued w) = false →
          registrations (db w') = filter (λ r, reg_id r ≠ rid) (registrations (db w)) ∧
          students (db w') = students (db w) ∧
          sports (db w') = sports (db w) ∧
          settings (db w') = settings (db w) ∧
          activity_logs (db w') =
            activity_logs (db w) ++
            map (λ _, mkActivityLog None "registration_deleted")
              (filter (λ r, reg_id r = rid) (registrations (db w))) ∧
          status_in (db w') rid = None ∧
          ∃ more, page_toasts ps' = page_toasts ps ++ RegistrationRemoved :: more)).
Proof.
  unfold deleteRegistration. destruct confirmed; cbn [negb].
  2:{ eexists _, _. split; [reflexivity|]. split; [auto|discriminate]. }
  unfold bind at 1. unfold try_catch. unfold bind at 1. unfold checked, bind.
  destruct (faults w (issued w)) eqn:Hf.
  - rewrite request_failed by exact Hf. cbv beta iota. unfold throw, ret.
    eexists _, _. split; [reflexivity|]. split; [discriminate|]. intros _.
    split; [reflexivity|]. split; [|discriminate]. intros _. split; reflexivity.
  - rewrite request_answered by exact Hf. cbn [fst snd delete_registration].
    unfold ret at 1. cbv beta iota.
    match goal with |- context [fetchRegistrations profile ?q ?v] =>
      destruct (fetchRegistrations_reads profile q v)
        as (ps1 & w1 & Hfetch & Hdb & _ & _ & Htoasts)
    end.
    rewrite Hfetch. unfold ret. eexists _, _. split; [reflexivity|].
    split; [discriminate|]. intros _. split; [reflexivity|].
    split; [discriminate|]. intros _. rewrite Hdb. cbn [db registrations students
      sports settings activity_logs]. repeat (split; [reflexivity|]). split.
    + unfold status_in. cbn [registrations]. rewrite find_filter_ne. reflexivity.
    + cbn [page_toasts setDeletingId]. destruct Htoasts as [Ht| ->].
      * exists []. rewrite Ht. reflexivity.
      * exists [LoadFailed]. cbn [page_toasts page_toast setDeletingId].
        rewrite <- app_assoc. reflexivity.
Qed.

Lemma updateRegistrationStatus_explicit profile rid ns ps w :
  updateRegistrationStatus profile rid ns ps w =
    if faults w (issued w)
    then (Ok (page_toast StatusUpdateFailed ps),
          mkWorld (db w) (faults w) (S (issued w)))
    else
      let d1 := (update_registration_status rid (status_of ns) (issued w) (db w)).2 in
      let d2 := if faults w (S (issued w)) then d1
                else (insert_activity_log (profile_id <$> profile)
                        "registration_status_updated" (S (issued w)) d1).2 in
      fetchRegistrations profile (page_toast (StatusUpdated (status_of ns)) ps)
        (mkWorld d2 (faults w) (S (S (issued w)))).
Proof.
  unfold updateRegistrationStatus, try_catch. unfold bind at 1. unfold checked, bind.
  destruct (faults w (issued w)) eqn:Hf.
  { rewrite request_failed by exact Hf. reflexivity. }
  rewrite request_answered by exact Hf. cbn [fst snd update_registration_status].
  unfold ret at 1. cbv beta iota. unfold request at 1. cbn [db faults issued].
  cbv zeta.
  destruct (faults w (S (issued w))).
  - match goal with |- context [fetchRegistrations profile ?q ?v] =>
      destruct (fetchRegistrations_reads profile q v) as (ps1 & w1 & Hfetch & _)
    end.
    rewrite Hfetch. reflexivity.
  - cbn [insert_activity_log fst snd].
    match goal with |- context [fetchRegistrations profile ?q ?v] =>
      destruct (fetchRegistrations_reads profile q v) as (ps1 & w1 & Hfetch & _)
    end.
    rewrite Hfetch. reflexivity.
Qed.

Lemma page_rows_of_ledger profile ps w ps' w' :
  fetchRegistrations profile ps w = (Ok ps', w') →
  page_toasts ps' = page_toasts ps →
  ∀ v, v ∈ page_registrations ps' →
    ∃ r, r ∈ registrations (db w) ∧ rv_id v = reg_id r ∧ rv_status v = reg_status r ∧
         student_of (db w) r = Some (rv_student v) ∧
         sport_of (db w) r = Some (rv_sport v).
Proof.
  rewrite fetchRegistrations_explicit. intros Hrun Htoasts v Hv.
  assert (Hview : ∃ yf data,
            (select_registration_views yf (issued w) (db w)).1 = RData data ∧
            page_registrations ps' = data).
  { destruct (faults w (issued w)).
    - injection Hrun as <- _. cbn in Htoasts.
      exfalso. apply (f_equal length) in Htoasts.
      rewrite length_app in Htoasts. cbn in Htoasts. lia.
    - destruct (select_registration_views _ _ _).1 as [data|e] eqn:Hsel.
      + eexists _, data. split; [exact Hsel|].
        destruct (is_admin profile); injection Hrun as <- _; reflexivity.
      + injection Hrun as <- _. cbn in Htoasts.
        exfalso. apply (f_equal length) in Htoasts.
        rewrite length_app in Htoasts. cbn in Htoasts. lia. }
  destruct Hview as (yf & data & Hsel & Hdata). rewrite Hdata in Hv.
  assert (Hin : v ∈ omap (registration_view (db w)) (registrations (db w))).
  { unfold select_registration_views in Hsel. destruct yf as [y|].
    - destruct (parse_year y); [|discriminate]. injection Hsel as <-.
      rewrite merge_sort_Permutation in Hv.
      apply list_elem_of_filter in Hv as [_ Hv]. exact Hv.
    - injection Hsel as <-. rewrite merge_sort_Permutation in Hv. exact Hv. }
  apply list_elem_of_omap in Hin as (r & Hr & Hview).
  exists r. split; [exact Hr|]. unfold registration_view in Hview.
  destruct (student_of (db w) r) as [s|]; [|discriminate].
  destruct (sport_of (db w) r) as [sp|]; [|discriminate].
  cbn in Hview. injection Hview as <-. cbn. auto.
Qed.

(** X21. [updateRegistrationStatus] never throws. If the update request
    fails, the failure toast is shown and the database is as it was. If it is
    answered, the rows with that id get the new status and every other row is
    as it was, whether or not the activity could be logged; the success toast
    is shown, and either the reloaded page shows the new status for that id,
    or the reload failed, a second toast says so and the page keeps its old
    list. *)
Theorem updateRegistrationStatus_outcomes (profile : option Profile) (rid : uuid)
    (newStatus : NewStatus) (ps : PageState) (w : World) :
  ∃ ps' w',
    updateRegistrationStatus profile rid newStatus ps w = (Ok ps', w') ∧
    (faults w (issued w) = true →
       ps' = page_toast StatusUpdateFailed ps ∧ db w' = db w) ∧
    (faults w (issued w) = false →
       registrations (db w') =
         map (λ r, if decide (reg_id r = rid) then set_status (status_of newStatus) r
                   else r)
           (registrations (db w)) ∧
       (∀ r', r' ∈ registrations (db w') → reg_id r' = rid →
              reg_status r' = status_of newStatus) ∧
       (∀ r, r ∈ registrations (db w) → reg_id r ≠ rid → r ∈ registrations (db w')) ∧
       (page_toasts ps' = page_toasts ps ++ [StatusUpdated (status_of newStatus)] ∧
        (∀ v, v ∈ page_registrations ps' → rv_id v = rid →
              rv_status v = status_of newStatus)
        ∨
        page_toasts ps' =
          page_toasts ps ++ [StatusUpdated (status_of newStatus); LoadFailed] ∧
        page_registrations ps' = page_registrations ps)).
Proof.
  rewrite updateRegistrationStatus_explicit.
  destruct (faults w (issued w)) eqn:Hf.
  { eexists _, _. split; [reflexivity|]. split; [auto|discriminate]. }
  cbv zeta.
  match goal with |- context [fetchRegistrations profile ?q ?v] =>
    set (q0 := q); set (w0 := v);
    destruct (fetchRegistrations_reads profile q0 w0)
      as (ps1 & w1 & Hfetch & Hdb & _ & _ & Htoasts)
  end.
  rewrite Hfetch. eexists _, _. split; [reflexivity|]. split; [discriminate|].
  intros _.
  assert (Hregs : registrations (db w0) =
            map (λ r, if decide (reg_id r = rid)
                      then set_status (status_of newStatus) r else r)
              (registrations (db w))).
  { subst w0. cbn [db]. destruct (faults w (S (issued w))); reflexivity. }
  assert (Hnew : ∀ r', r' ∈ registrations (db w0) → reg_id r' = rid →
                       reg_status r' = status_of newStatus).
  { rewrite Hregs. intros r' Hr' Hid.
    apply list_elem_of_fmap in Hr' as (r & -> & Hr).
    destruct (decide (reg_id r = rid)) as [_|Hne]; [reflexivity|].
    contradiction. }
  rewrite Hdb. split; [exact Hregs|]. split; [exact Hnew|]. split.
  - intros r Hr Hne. rewrite Hregs. apply list_elem_of_fmap. exists r.
    split; [|exact Hr]. rewrite decide_False by exact Hne. reflexivity.
  - destruct Htoasts as [Ht| ->].
    + left. split; [rewrite Ht; reflexivity|]. intros v Hv Hid.
      destruct (page_rows_of_ledger _ _ _ _ _ Hfetch Ht v Hv)
        as (r & Hr & Hrid & Hst & _).
      rewrite Hst. apply Hnew; [exact Hr|congruence].
    + right. subst q0. cbn [page_toasts page_toast page_registrations].
      rewrite <- app_assoc. split; reflexivity.
Qed.

Lemma updateRegistrationStatus_db profile rid ns ps w :
  faults w (issued w) = false →
  ∃ ps' w',
    updateRegistrationStatus profile rid ns ps w = (Ok ps', w') ∧
    registrations (db w') =
      map (λ r, if decide (reg_id r = rid) then set_status (status_of ns) r else r)
        (registrations (db w)) ∧
    students (db w') = students (db w) ∧ sports (db w') = sports (db w) ∧
    settings (db w') = settings (db w).
Proof.
  intros Hf. rewrite updateRegistrationStatus_explicit, Hf. cbv zeta.
  match goal with |- context [fetchRegistrations profile ?q ?v] =>
    destruct (fetchRegistrations_reads profile q v)
      as (ps1 & w1 & Hfetch & Hdb & _)
  end.
  rewrite Hfetch. eexists _, _. split; [reflexivity|]. rewrite Hdb. cbn [db].
  destruct (faults w (S (issued w))); repeat split; reflexivity.
Qed.

Lemma filter_map_length {A B} (f : A → B) (P : B → Prop) (Q : A → Prop)
    `{!∀ x, Decision (P x), !∀ x, Decision (Q x)} (l : list A) :
  (∀ x, x ∈ l → P (f x) ↔ Q x) →
  length (filter P (map f l)) = length (filter Q l).
Proof.
  induction l as [|x l IH]; intros Hiff; [reflexivity|].
  cbn [map]. rewrite !filter_cons.
  assert (IH' := IH (λ y Hy, Hiff y (list_elem_of_further _ _ _ Hy))).
  pose proof (Hiff x (list_elem_of_here _ _)) as Hx.
  destruct (decide (P (f x))), (decide (Q x)); cbn [length]; try tauto; congruence.
Qed.

(** X22. A decision changes the quota count. After an answered
    [updateRegistrationStatus], a student's count in a category is: on
    rejection, the number of the student's pending or approved registrations
    in the category other than the rejected one; on approval, the number of
    the student's registrations in the category that are not rejected or are
    the approved one. So a rejection frees a place, and an approval is not
    held back by the limit. *)
Theorem status_decision_and_quota (profile : option Profile) (rid : uuid)
    (newStatus : NewStatus) (ps : PageState) (w : World) :
  faults w (issued w) = false →
  ∃ ps' w',
    updateRegistrationStatus profile rid newStatus ps w = (Ok ps', w') ∧
    ∀ sid cat,
      quota_count (db w') sid cat =
        match newStatus with
        | to_rejected =>
            length (filter (λ r, counts_toward_quota (db w) sid cat r ∧ reg_id r ≠ rid)
                      (registrations (db w)))
        | to_approved =>
            length (filter (λ r, reg_student_id r = sid ∧
                                 category_of (db w) r = Some cat ∧
                                 (reg_id r = rid ∨ reg_status r ≠ rejected))
                      (registrations (db w)))
        end.
Proof.
  intros Hf.
  destruct (updateRegistrationStatus_db profile rid newStatus ps w Hf)
    as (ps' & w' & Hrun & Hregs & _ & Hsports & _).
  exists ps', w'. split; [exact Hrun|]. intros sid cat.
  unfold quota_count. rewrite Hregs.
  assert (Hcat : ∀ r s, category_of (db w') (if decide (reg_id r = rid)
                                              then set_status s r else r) =
                        category_of (db w) r).
  { intros r s. unfold category_of, sport_of. rewrite Hsports.
    destruct (decide (reg_id r = rid)); reflexivity. }
  destruct newStatus; cbn [status_of]; apply filter_map_length; intros r _;
    unfold counts_toward_quota; rewrite Hcat;
    destruct (decide (reg_id r = rid)) as [Hid|Hid]; cbn;
    destruct (reg_status r); intuition congruence.
Qed.

Lemma status_decision_and_quota_demo :
  ∃ ps' w',
    updateRegistrationStatus demo_admin 101 to_rejected empty_page demo_world =
      (Ok ps', w') ∧
    ∀ sid cat,
      quota_count (db w') sid cat =
        length (filter (λ r, counts_toward_quota (db demo_world) sid cat r ∧
                             reg_id r ≠ 101%nat)
                  (registrations (db demo_world))).
Proof.
  apply (status_decision_and_quota demo_admin 101 to_rejected empty_page demo_world).
  reflexivity.
Defined.

Lemma deleteRegistration_confirmed profile rid ps w :
  faults w (issued w) = false →
  ∃ ps' w',
    deleteRegistration profile rid true ps w = (Ok ps', w') ∧
    faults w' = faults w ∧
    registrations (db w') = filter (λ r, reg_id r ≠ rid) (registrations (db w)) ∧
    students (db w') = students (db w) ∧ sports (db w') = sports (db w) ∧
    settings (db w') = settings (db w).
Proof.
  intros Hf. unfold deleteRegistration. cbn [negb].
  unfold bind at 1. unfold try_catch. unfold bind at 1. unfold checked, bind.
  rewrite request_answered by exact Hf. cbn [fst snd delete_registration].
  unfold ret at 1. cbv beta iota.
  match goal with |- context [fetchRegistrations profile ?q ?v] =>
    destruct (fetchRegistrations_reads profile q v)
      as (ps1 & w1 & Hfetch & Hdb & Hfaults & _)
  end.
  rewrite Hfetch. unfold ret. eexists _, _. split; [reflexivity|].
  rewrite Hdb, Hfaults. repeat split; reflexivity.
Qed.

Lemma NoDup_fmap_elem_inj {A B} (f : A → B) (l : list A) x y :
  NoDup (map f l) → x ∈ l → y ∈ l → f x = f y → x = y.
Proof.
  induction l as [|a l IH]; intros Hnd Hx Hy Hf; [apply elem_of_nil in Hx; contradiction|].
  cbn [map] in Hnd. apply NoDup_cons in Hnd as [Ha Hnd].
  apply elem_of_cons in Hx as [->|Hx]; apply elem_of_cons in Hy as [->|Hy].
  - reflexivity.
  - exfalso. apply Ha. rewrite Hf. apply list_elem_of_fmap. eauto.
  - exfalso. apply Ha. rewrite <- Hf. apply list_elem_of_fmap. eauto.
  - apply IH; assumption.
Qed.

(** X23. Deleting a registration makes room for a new one. In a ledger with
    one registration per student and sport, a registration of a student for a
    sport, of any status, makes [performRegistration] of that student for that
    sport fail and write nothing; after [deleteRegistration] of it, confirmed
    and answered, the same [performRegistration] succeeds and adds the one new
    row. *)
Theorem delete_allows_reregistration (pageProfile profile : option Profile)
    (sport : Sport) (st : FormState) (ps : PageState) (w : World)
    (r : Registration) :
  reliable w → ledger_unique (db w) → r ∈ registrations (db w) →
  selectedStudents st = [reg_student_id r] → sp_id sport = reg_sport_id r →
  reg_student_id r ∈ map st_id (students (db w)) →
  sp_id sport ∈ map sp_id (sports (db w)) →
  (∃ w0,
     performRegistration sport profile st w =
       (Ok (toast RegistrationFailed (setRegistering false st)), w0) ∧
     db w0 = db w) ∧
  ∃ ps' w1 w2 new b,
    deleteRegistration pageProfile (reg_id r) true ps w = (Ok ps', w1) ∧
    performRegistration sport profile st w1 =
      (Ok (toast (RegistrationSucceeded 1 b) (setRegistering false st)), w2) ∧
    registrations (db w2) =
      filter (λ r', reg_id r' ≠ reg_id r) (registrations (db w)) ++ new ∧
    map reg_student_id new = [reg_student_id r] ∧
    Forall (λ r', reg_sport_id r' = sp_id sport) new.
Proof.
  intros Hrel Huniq Hr Hsel Hsport Hstudent Hsports. split.
  - rewrite performRegistration_explicit, !Hrel, Hsel.
    unfold insert_registrations.
    rewrite (insert_rows_rejects _ _ _
               (mkNewRegistration (reg_student_id r) (sp_id sport)
                  (profile_id <$> profile)
                  (if truthy (enabled_of
                        (settings (db w) !! "auto_approve_registrations"))
                   then approved else pending))).
    + eexists. split; reflexivity.
    + cbn. apply list_elem_of_here.
    + apply list_elem_of_fmap. exists r. split; [|exact Hr].
      unfold nr_pair, pair_of. cbn. congruence.
  - destruct (deleteRegistration_confirmed pageProfile (reg_id r) ps w (Hrel _))
      as (ps' & w1 & Hdel & Hfaults & Hregs & Hst & Hsp & _).
    assert (Hrel1 : reliable w1) by (intros n; rewrite Hfaults; apply Hrel).
    destruct (performRegistration_accepted sport profile st w1 Hrel1)
      as (w2 & new & Hperf & Hreg2 & Hmap & Hall).
    + rewrite Hsel. apply NoDup_singleton.
    + rewrite Hsel, Hst. intros sid Hsid. apply list_elem_of_singleton in Hsid.
      subst. exact Hstudent.
    + rewrite Hsp. exact Hsports.
    + rewrite Hsel, Hregs. intros sid Hsid Hin.
      apply list_elem_of_singleton in Hsid. subst sid.
      apply list_elem_of_fmap in Hin as (r' & Hpair & Hr').
      apply list_elem_of_filter in Hr' as [Hne Hr'].
      apply Hne. f_equal.
      apply (NoDup_fmap_elem_inj pair_of (registrations (db w))); try assumption.
      rewrite <- Hpair. unfold pair_of. f_equal. exact Hsport.
    + exists ps', w1, w2, new. eexists. split; [exact Hdel|].
      rewrite Hsel in Hperf. split; [exact Hperf|]. rewrite Hreg2, Hregs.
      split; [reflexivity|]. rewrite <- Hsel. split; [exact Hmap|].
      eapply Forall_impl; [exact Hall|]. intros ? [? _]. assumption.
Qed.

Lemma delete_allows_reregistration_demo :
  (∃ w0,
     performRegistration football demo_coordinator binu_selected demo_world =
       (Ok (toast RegistrationFailed (setRegistering false binu_selected)), w0) ∧
     db w0 = db demo_world) ∧
  ∃ ps' w1 w2 new b,
    deleteRegistration demo_admin (reg_id rejected_row) true empty_page demo_world =
      (Ok ps', w1) ∧
    performRegistration football demo_coordinator binu_selected w1 =
      (Ok (toast (RegistrationSucceeded 1 b) (setRegistering false binu_selected)),
       w2) ∧
    registrations (db w2) =
      filter (λ r', reg_id r' ≠ reg_id rejected_row) (registrations (db demo_world))
      ++ new ∧
    map reg_student_id new = [reg_student_id rejected_row] ∧
    Forall (λ r', reg_sport_id r' = sp_id football) new.
Proof.
  apply (delete_allows_reregistration demo_admin demo_coordinator football
           binu_selected empty_page demo_world rejected_row).
  - intros n. reflexivity.
  - compute_done.
  - compute_done.
  - reflexivity.
  - reflexivity.
  - compute_done.
  - compute_done.
Defined.

(** ** The groups of the [Registrations] page *)

Lemma push_group_keys key reg groups :
  map fst (push_group key reg groups) =
    if decide (key ∈ map fst groups) then map fst groups
    else map fst groups ++ [key].
Proof.
  induction groups as [|[k regs] rest IH]; [reflexivity|].
  cbn [push_group map fst]. destruct (decide (k = key)) as [->|Hne].
  - rewrite decide_True by apply list_elem_of_here. reflexivity.
  - cbn [map fst]. rewrite IH. destruct (decide (key ∈ map fst rest)) as [Hin|Hin].
    + rewrite decide_True by (apply list_elem_of_further; exact Hin). reflexivity.
    + rewrite decide_False; [reflexivity|].
      intros H. apply elem_of_cons in H as [H|H]; [congruence|contradiction].
Qed.

Lemma push_group_elem key reg groups k regs :
  NoDup (map fst groups) →
  (k, regs) ∈ push_group key reg groups ↔
    (k ≠ key ∧ (k, regs) ∈ groups) ∨
    (k = key ∧ ((∃ regs0, (key, regs0) ∈ groups ∧ regs = regs0 ++ [reg]) ∨
                ((key ∉ map fst groups) ∧ regs = [reg]))).
Proof.
  induction groups as [|[k0 regs0] rest IH]; intros Hnd.
  - cbn [push_group]. rewrite list_elem_of_singleton. split.
    + intros H. injection H as -> ->. right. split; [reflexivity|]. right.
      split; [apply not_elem_of_nil|reflexivity].
    + intros [[_ H]|[-> [(? & H & _)|[_ ->]]]];
        [apply elem_of_nil in H; contradiction
        |apply elem_of_nil in H; contradiction|reflexivity].
  - cbn [map fst] in Hnd. apply NoDup_cons in Hnd as [Hk0 Hnd].
    specialize (IH Hnd). cbn [push_group].
    assert (Hrest : ∀ regs1, (k0, regs1) ∉ rest).
    { intros regs1 H. apply Hk0, list_elem_of_fmap.
      exists (k0, regs1). split; [reflexivity|exact H]. }
    destruct (decide (k0 = key)) as [Heq|Hne].
    + subst k0. split.
      * intros H. apply elem_of_cons in H as [H|H].
        -- injection H as -> ->. right. split; [reflexivity|]. left.
           exists regs0. split; [apply list_elem_of_here|reflexivity].
        -- left. split; [|apply list_elem_of_further; exact H].
           intros ->. exact (Hrest _ H).
      * intros [[Hne H]|[-> [(regs1 & H & ->)|[Hno _]]]].
        -- apply elem_of_cons in H as [H|H].
           ++ injection H as -> _. contradiction.
           ++ apply list_elem_of_further. exact H.
        -- apply elem_of_cons in H as [H|H].
           ++ injection H as ->. apply list_elem_of_here.
           ++ exfalso. exact (Hrest _ H).
        -- exfalso. apply Hno. cbn [map fst]. apply list_elem_of_here.
    + rewrite elem_of_cons, IH. cbn [map fst]. split.
      * intros [H|[[Hk H]|[-> [(regs1 & H & ->)|[Hno ->]]]]].
        -- injection H as -> ->. left. split; [congruence|apply list_elem_of_here].
        -- left. split; [exact Hk|apply list_elem_of_further; exact H].
        -- right. split; [reflexivity|]. left. exists regs1.
           split; [apply list_elem_of_further; exact H|reflexivity].
        -- right. split; [reflexivity|]. right. split; [|reflexivity].
           intros H. apply elem_of_cons in H as [H|H]; [congruence|contradiction].
      * intros [[Hk H]|[-> [(regs1 & H & ->)|[Hno ->]]]].
        -- apply elem_of_cons in H as [H|H]; [left; exact H|].
           right. left. split; assumption.
        -- apply elem_of_cons in H as [H|H]; [injection H as -> _; contradiction|].
           right. right. split; [reflexivity|]. left. exists regs1.
           split; [exact H|reflexivity].
        -- right. right. split; [reflexivity|]. right. split; [|reflexivity].
           intros H. apply Hno. apply list_elem_of_further. exact H.
Qed.

Lemma group_by_spec (key : RegistrationView → uuid) (l : list RegistrationView) :
  let groups := foldl (λ groups reg, push_group (key reg) reg groups) [] l in
  NoDup (map fst groups) ∧
  (∀ k regs, (k, regs) ∈ groups ↔
     regs = filter (λ reg, key reg = k) l ∧ regs ≠ []) ∧
  map fst groups = reverse (remove_dups (reverse (map key l))).
Proof.
  cbv zeta. induction l as [|x l IH] using rev_ind.
  - cbn. split; [constructor|]. split; [|reflexivity].
    intros k regs. split.
    + intros H. apply elem_of_nil in H. contradiction.
    + intros [-> H]. contradiction.
  - rewrite foldl_app. cbn [foldl]. destruct IH as (Hnd & Hspec & Hkeys).
    set (groups := foldl _ [] l) in *.
    assert (Hin : key x ∈ map fst groups ↔ filter (λ reg, key reg = key x) l ≠ []).
    { split.
      - intros H. apply list_elem_of_fmap in H as ([k regs] & Hk & H).
        cbn in Hk. subst k. apply Hspec in H as [<- H]. exact H.
      - intros H. apply list_elem_of_fmap.
        exists (key x, filter (λ reg, key reg = key x) l). split; [reflexivity|].
        apply Hspec. split; [reflexivity|exact H]. }
    split; [|split].
    + rewrite push_group_keys. case_decide as Hk; [exact Hnd|].
      apply NoDup_app. split; [exact Hnd|]. split; [|apply NoDup_singleton].
      intros y Hy Hy'. apply list_elem_of_singleton in Hy'. subst. contradiction.
    + intros k regs. rewrite (push_group_elem _ _ _ _ _ Hnd), filter_app.
      rewrite (filter_cons _ x), filter_nil. split.
      * intros [[Hne H]|[-> [(regs0 & H & ->)|[Hno ->]]]].
        -- apply Hspec in H as [-> H]. rewrite decide_False by congruence.
           rewrite app_nil_r. split; [reflexivity|exact H].
        -- apply Hspec in H as [-> H]. rewrite decide_True by reflexivity.
           split; [reflexivity|]. intros Hnil. apply app_eq_nil in Hnil as [_ ?].
           discriminate.
        -- rewrite decide_True by reflexivity.
           destruct (filter (λ reg, key reg = key x) l) as [|? ?] eqn:Hf.
           ++ split; [reflexivity|discriminate].
           ++ exfalso. apply Hno, Hin. discriminate.
      * intros [-> Hne]. destruct (decide (key x = k)) as [<-|Hk].
        -- right. split; [reflexivity|].
           destruct (decide (key x ∈ map fst groups)) as [Hkx|Hkx].
           ++ left. eexists. split; [|reflexivity]. apply Hspec.
              split; [reflexivity|]. apply Hin. exact Hkx.
           ++ right. split; [exact Hkx|].
              destruct (filter (λ reg, key reg = key x) l) as [|? ?] eqn:Hf;
                [reflexivity|]. exfalso. apply Hkx, Hin. discriminate.
        -- left. split; [congruence|]. rewrite app_nil_r in Hne |- *.
           apply Hspec. split; [reflexivity|exact Hne].
    + rewrite push_group_keys, map_app. cbn [map]. rewrite reverse_snoc.
      cbn [remove_dups].
      rewrite Hkeys.
      destruct (decide_rel elem_of (key x) (reverse (map key l))) as [Hk|Hk].
      * rewrite decide_True; [reflexivity|].
        rewrite elem_of_reverse, elem_of_remove_dups. exact Hk.
      * rewrite decide_False; [rewrite reverse_cons; reflexivity|]. intros H. apply Hk.
        rewrite elem_of_reverse, elem_of_remove_dups in H. exact H.
Qed.

(** X24. [getGroupedData] loses and repeats nothing. The keys of its groups
    are distinct; a group is under the key [k] exactly when it is the
    non-empty list of the filtered rows whose student (in the students view)
    or sport (in the other views) is [k], in the order of the page; the groups
    come in the order in which their keys first occur. No group is empty, so
    [registrations[0]] in the rendering is defined. With an empty search box,
    the status filter [all] and the students view, every row of the page is
    in the group of its student. *)
Theorem getGroupedData_groups (toLowerCase : string → string)
    (searchTerm statusFilter : string) (viewMode : ViewMode) (ps : PageState) :
  let filtered :=
    filter (λ reg, matches_filters toLowerCase searchTerm statusFilter viewMode reg
                   = true)
      (page_registrations ps) in
  let groups := getGroupedData toLowerCase searchTerm statusFilter viewMode ps in
  NoDup (map fst groups) ∧
  (∀ k regs, (k, regs) ∈ groups ↔
     regs = filter (λ reg, group_key viewMode reg = k) filtered ∧ regs ≠ []) ∧
  map fst groups =
    reverse (remove_dups (reverse (map (group_key viewMode) filtered))) ∧
  (toLowerCase EmptyString = EmptyString →
   ∀ k regs,
     (k, regs) ∈ getGroupedData toLowerCase EmptyString "all" view_students ps ↔
     regs = filter (λ reg, st_id (rv_student reg) = k) (page_registrations ps) ∧
     regs ≠ []).
Proof.
  cbv zeta. unfold getGroupedData.
  destruct (group_by_spec (group_key viewMode)
              (filter (λ reg, matches_filters toLowerCase searchTerm statusFilter
                                viewMode reg = true) (page_registrations ps)))
    as (Hnd & Hspec & Hkeys).
  split; [exact Hnd|]. split; [exact Hspec|]. split; [exact Hkeys|].
  intros Hlow k regs.
  destruct (group_by_spec (group_key view_students)
              (filter (λ reg, matches_filters toLowerCase EmptyString "all"
                                view_students reg = true) (page_registrations ps)))
    as (_ & Hspec' & _).
  cbv zeta in Hspec'. rewrite Hspec'.
  rewrite (filter_all (λ reg, matches_filters _ _ _ _ reg = true)); [reflexivity|].
  apply Forall_forall. intros reg _. unfold matches_filters.
  rewrite Hlow, includes_empty. reflexivity.
Qed.

(** ** The data of the PDF export *)

Lemma fetchRegistrationData_explicit profile yearFilter w :
  faults w (issued w) = false →
  fetchRegistrationData profile yearFilter w =
    (match (select_registration_views
              (if negb (is_admin profile) then Some (coordinator_year_text profile)
               else match yearFilter with
                    | Some year =>
                        if negb (String.eqb year EmptyString) &&
                           negb (String.eqb year "all")
                        then Some year else None
                    | None => None
                    end) (issued w) (db w)).1 with
     | RData data => Ok (map registration_data data)
     | RError e => Throw e
     end,
     mkWorld (db w) (faults w) (S (issued w))).
Proof.
  intros Hf. unfold fetchRegistrationData, checked, bind.
  rewrite request_answered by exact Hf.
  rewrite read_only_select_registration_views.
  destruct (select_registration_views _ _ _).1; reflexivity.
Qed.

Lemma newer_first_data (l : list RegistrationView) :
  Sorted newer_first l →
  Sorted (λ a b, (srd_registration_date b ≤ srd_registration_date a)%nat)
    (map registration_data l).
Proof.
  apply (Sorted_fmap registration_data newer_first). intros a b H. exact H.
Qed.

(** X25. The data of the PDF export, [fetchRegistrationData], when the storage
    answers; the export never writes, and the rows it returns are sorted,
    newest first. For a coordinator, whatever year is asked for, and for the
    admin when no year, the empty text or ['all'] is asked for, the exported
    rows are the rows that [fetchRegistrations] puts on the page for the same
    profile, up to the order of rows created at the same time. For the admin
    with the label of a year they are the joinable registrations of the
    students of that year, up to that order as well. For the admin with any
    other text the query is rejected and the function throws. *)
Theorem export_matches_page (p : Profile) (yearFilter : option string)
    (ps : PageState) (w : World) :
  reliable w →
  (db (fetchRegistrationData (Some p) yearFilter w).2 = db w) ∧
  (∀ rows w2,
     fetchRegistrationData (Some p) yearFilter w = (Ok rows, w2) →
     Sorted (λ a b, (srd_registration_date b ≤ srd_registration_date a)%nat) rows) ∧
  (role p ≠ admin ∨ yearFilter = None ∨ yearFilter = Some EmptyString ∨
   yearFilter = Some "all" →
   ∃ ps' w1 rows w2,
     fetchRegistrations (Some p) ps w = (Ok ps', w1) ∧
     fetchRegistrationData (Some p) yearFilter w = (Ok rows, w2) ∧
     rows ≡ₚ map registration_data (page_registrations ps')) ∧
  (role p = admin →
   ∀ y, yearFilter = Some (year_label y) →
     ∃ rows w2,
       fetchRegistrationData (Some p) yearFilter w = (Ok rows, w2) ∧
       rows ≡ₚ
         map registration_data
           (filter (λ v, st_year (rv_student v) = y)
              (omap (registration_view (db w)) (registrations (db w))))) ∧
  (role p = admin →
   ∀ year, yearFilter = Some year →
     year ≠ EmptyString → year ≠ "all" → parse_year year = None →
     ∃ w2,
       fetchRegistrationData (Some p) yearFilter w =
         (Throw InvalidTextRepresentation, w2)).
Proof.
  intros Hrel. rewrite fetchRegistrationData_explicit by apply Hrel.
  split; [reflexivity|]. split; [|split; [|split]].
  - intros rows w2. unfold select_registration_views.
    destruct (if negb (is_admin (Some p)) then _ else _) as [year|]; cbn [fst].
    + destruct (parse_year year); cbn [fst]; [|discriminate].
      intros H. injection H as <- _.
      apply newer_first_data, Sorted_merge_sort, newer_first_total.
    + intros H. injection H as <- _.
      apply newer_first_data, Sorted_merge_sort, newer_first_total.
  - intros Hcase. rewrite fetchRegistrations_explicit, Hrel.
    assert (Hfilter :
      (if negb (is_admin (Some p)) then Some (coordinator_year_text (Some p))
       else match yearFilter with
            | Some year =>
                if negb (String.eqb year EmptyString) && negb (String.eqb year "all")
                then Some year else None
            | None => None
            end) =
      (if negb (is_admin (Some p)) then Some (coordinator_year_text (Some p))
       else None)).
    { rewrite is_admin_role. case_bool_decide as Hadm; [|reflexivity]. cbn [negb].
      destruct Hcase as [Hno|[->|[->| ->]]]; [contradiction|reflexivity..]. }
    rewrite Hfilter.
    destruct (select_registration_views_profile p (issued w) (db w)) as [data ->].
    destruct (is_admin (Some p)); eexists _, _, _, _;
      (split; [reflexivity|]; split; reflexivity).
  - intros Hadm y ->. rewrite is_admin_role, bool_decide_eq_true_2 by exact Hadm.
    cbn [negb]. assert (Hy : negb (String.eqb (year_label y) EmptyString) &&
                             negb (String.eqb (year_label y) "all") = true)
      by (destruct y; reflexivity).
    rewrite Hy. unfold select_registration_views.
    assert (Hparse : parse_year (year_label y) = Some y) by (destruct y; reflexivity).
    rewrite Hparse. eexists _, _. split; [reflexivity|].
    apply fmap_Permutation, merge_sort_Permutation.
  - intros Hadm year -> Hne Hall Hparse.
    rewrite is_admin_role, bool_decide_eq_true_2 by exact Hadm. cbn [negb].
    rewrite (proj2 (String.eqb_neq _ _) Hne), (proj2 (String.eqb_neq _ _) Hall).
    cbn [negb andb]. unfold select_registration_views. rewrite Hparse.
    eexists. reflexivity.
Qed.

Lemma export_matches_page_demo :
  (∃ ps' w1 rows w2,
     fetchRegistrations (Some second_year) empty_page demo_world = (Ok ps', w1) ∧
     fetchRegistrationData (Some second_year) (Some "first") demo_world =
       (Ok rows, w2) ∧
     rows ≡ₚ map registration_data (page_registrations ps') ∧
     Sorted (λ a b, (srd_registration_date b ≤ srd_registration_date a)%nat) rows) ∧
  (∃ rows w2,
     fetchRegistrationData (Some admin_profile) (Some "second") demo_world =
       (Ok rows, w2) ∧
     rows ≡ₚ
       map registration_data
         (filter (λ v, st_year (rv_student v) = second)
            (omap (registration_view (db demo_world))
               (registrations (db demo_world)))) ∧
     map srd_id rows ≡ₚ [100; 101; 102; 103]%nat) ∧
  (∃ w2,
     fetchRegistrationData (Some admin_profile) (Some "fifth") demo_world =
       (Throw InvalidTextRepresentation, w2)).
Proof.
  split; [|split].
  - destruct (export_matches_page second_year (Some "first") empty_page demo_world
                (λ _, eq_refl)) as (_ & Hsorted & Hpage & _).
    destruct Hpage as (ps' & w1 & rows & w2 & Hpage & Hrun & Hperm).
    + left. discriminate.
    + exists ps', w1, rows, w2. split; [exact Hpage|]. split; [exact Hrun|].
      split; [exact Hperm|]. apply (Hsorted rows w2 Hrun).
  - destruct (export_matches_page admin_profile (Some "second") empty_page demo_world
                (λ _, eq_refl)) as (_ & _ & _ & Hyear & _).
    destruct (Hyear eq_refl second eq_refl) as (rows & w2 & Hrun & Hperm).
    exists rows, w2. split; [exact Hrun|]. split; [exact Hperm|].
    rewrite Hperm. reflexivity.
  - destruct (export_matches_page admin_profile (Some "fifth") empty_page demo_world
                (λ _, eq_refl)) as (_ & _ & _ & _ & Hthrow).
    apply (Hthrow eq_refl "fifth" eq_refl); [discriminate|discriminate|reflexivity].
Defined.

(** ** What no step of a session does *)

Section SessionSteps.
Variable R : Database → Database → Prop.
Hypothesis R_refl : ∀ d, R d d.
Hypothesis R_trans : ∀ d1 d2 d3, R d1 d2 → R d2 d3 → R d1 d3.
Hypothesis R_log : ∀ user action now d, R d (insert_activity_log user action now d).2.
Hypothesis R_insert : ∀ rows now d, R d (insert_registrations rows now d).2.
Hypothesis R_update : ∀ rid s now d, R d (update_registration_status rid s now d).2.
Hypothesis R_delete : ∀ rid now d, R d (delete_registration rid now d).2.

Lemma respects_settled {A} (c : M A) : respects R c → respects R (settled c).
Proof.
  intros Hc. unfold settled.
  apply (respects_try_catch R R_trans); [|intros ?; apply (respects_ret R R_refl)].
  apply (respects_bind R R_trans); [exact Hc|intros ?; apply (respects_ret R R_refl)].
Qed.

Lemma respects_fetchData sport profile st : respects R (fetchData sport profile st).
Proof.
  unfold fetchData.
  apply (respects_bind R R_trans);
    [apply respects_settled, (respects_fetchStudents R R_refl R_trans)|intros r1].
  apply (respects_bind R R_trans);
    [apply respects_settled, (respects_fetchExistingRegistrations R R_refl R_trans)
    |intros r2].
  apply (respects_bind R R_trans);
    [apply respects_settled, (respects_form_fetchRegistrationLimits R R_refl R_trans)
    |intros r3].
  apply (respects_bind R R_trans);
    [apply respects_settled,
       (respects_fetchStudentRegistrationCounts R R_refl R_trans)
    |intros r4].
  destruct r1, r2, r3, r4; apply (respects_ret R R_refl).
Qed.

Lemma respects_logActivity user_id action : respects R (logActivity user_id action).
Proof.
  unfold logActivity.
  apply (respects_try_catch R R_trans); [|intros ?; apply (respects_ret R R_refl)].
  apply (respects_bind R R_trans); [|intros ?; apply (respects_ret R R_refl)].
  apply (respects_request R R_refl). intros now d. apply R_log.
Qed.

Lemma session_step_respects w w' : session_step w w' → R (db w) (db w').
Proof.
  intros [w0 w0' Hstep|sport profile st o w0 w0' Hrun|user action o w0 w0' Hrun].
  - exact (app_step_respects R R_refl R_trans R_log R_insert R_update R_delete
             _ _ Hstep).
  - exact (respects_fetchData _ _ _ _ _ _ Hrun).
  - exact (respects_logActivity _ _ _ _ _ Hrun).
Qed.

Lemma session_steps_respect w w' : rtc session_step w w' → R (db w) (db w').
Proof.
  induction 1 as [w|w1 w2 w3 Hstep _ IH]; [apply R_refl|].
  eapply R_trans; [exact (session_step_respects _ _ Hstep)|exact IH].
Qed.

End SessionSteps.

(** X26. No step of a session (the handlers and loaders of the form and of the
    page, [fetchData], [logActivity]) changes [students], [sports] or
    [settings]: whatever runs, the stored limits, the status the auto-approve
    setting gives and the category of every registration's sport stay as they
    were. *)
Theorem session_leaves_tables (w w' : World) :
  rtc session_step w w' →
  students (db w') = students (db w) ∧
  sports (db w') = sports (db w) ∧
  settings (db w') = settings (db w) ∧
  (∀ cat, stored_limit (db w') cat = stored_limit (db w) cat) ∧
  initial_status_of (db w') = initial_status_of (db w) ∧
  (∀ r, category_of (db w') r = category_of (db w) r).
Proof.
  intros Hreach.
  assert (H : students (db w') = students (db w) ∧ sports (db w') = sports (db w) ∧
              settings (db w') = settings (db w)).
  { refine (session_steps_respect
              (λ d d', students d' = students d ∧ sports d' = sports d ∧
                       settings d' = settings d) _ _ _ _ _ _ w w' Hreach).
    - intros d. auto.
    - intros d1 d2 d3 (? & ? & ?) (? & ? & ?). repeat split; congruence.
    - intros user action now d. repeat split; reflexivity.
    - intros rows now d.
      destruct (insert_registrations_cases rows now d)
        as [(d' & -> & Hrows & _)|(e & ->)]; [|auto].
      apply insert_rows_Some in Hrows as (_ & ? & ? & ? & _). auto.
    - intros rid s now d. repeat split; reflexivity.
    - intros rid now d. repeat split; reflexivity. }
  destruct H as (Hst & Hsp & Hset). repeat split; try assumption.
  - intros cat. unfold stored_limit. rewrite Hset. reflexivity.
  - unfold initial_status_of. rewrite Hset. reflexivity.
  - intros r. unfold category_of, sport_of. rewrite Hsp. reflexivity.
Qed.

Lemma session_leaves_tables_demo :
  students (db after_first_submit) = students (db fresh_world) ∧
  sports (db after_first_submit) = sports (db fresh_world) ∧
  settings (db after_first_submit) = settings (db fresh_world) ∧
  (∀ cat, stored_limit (db after_first_submit) cat = stored_limit (db fresh_world) cat) ∧
  initial_status_of (db after_first_submit) = initial_status_of (db fresh_world) ∧
  (∀ r, category_of (db after_first_submit) r = category_of (db fresh_world) r).
Proof.
  apply (session_leaves_tables fresh_world after_first_submit).
  eapply rtc_l; [|apply rtc_refl]. apply session_app_step.
  eapply (step_handleSubmit football demo_coordinator first_selection).
  apply surjective_pairing.
Defined.

Lemma created_rows_count (rows : list NewRegistration) :
  length (filter (λ l, log_action l = "registration_created")
            (map (λ row, mkActivityLog (nr_registered_by row) "registration_created")
               rows)) = length rows.
Proof.
  induction rows as [|row rows IH]; [reflexivity|].
  cbn [map]. rewrite filter_cons_True by reflexivity. cbn [length]. rewrite IH.
  reflexivity.
Qed.

(** X27. Along a session the activity log only grows at its end, and the
    registrations that appear are all logged: the ledger never grows by more
    rows than the log gets [registration_created] rows. From an empty ledger
    on, the ledger never holds more registrations than the log has
    [registration_created] rows. *)
Theorem session_log_is_append_only (w w' : World) :
  rtc session_step w w' →
  activity_logs (db w) `prefix_of` activity_logs (db w') ∧
  (length (registrations (db w')) +
   length (filter (λ l, log_action l = "registration_created")
             (activity_logs (db w))) ≤
   length (registrations (db w)) +
   length (filter (λ l, log_action l = "registration_created")
             (activity_logs (db w'))))%nat ∧
  (registrations (db w) = [] →
     (length (registrations (db w')) ≤
      length (filter (λ l, log_action l = "registration_created")
                (activity_logs (db w'))))%nat).
Proof.
  intros Hreach.
  assert (H : activity_logs (db w) `prefix_of` activity_logs (db w') ∧
    (length (registrations (db w')) +
     length (filter (λ l, log_action l = "registration_created")
               (activity_logs (db w))) ≤
     length (registrations (db w)) +
     length (filter (λ l, log_action l = "registration_created")
               (activity_logs (db w'))))%nat).
  { refine (session_steps_respect
              (λ d d', activity_logs d `prefix_of` activity_logs d' ∧
                 (length (registrations d') +
                  length (filter (λ l, log_action l = "registration_created")
                            (activity_logs d)) ≤
                  length (registrations d) +
                  length (filter (λ l, log_action l = "registration_created")
                            (activity_logs d')))%nat) _ _ _ _ _ _ w w' Hreach).
    - intros d. split; [reflexivity|lia].
    - intros d1 d2 d3 [Hp1 Hc1] [Hp2 Hc2]. split; [etransitivity; eassumption|lia].
    - intros user action now d. cbn [insert_activity_log snd activity_logs
        registrations]. split; [apply prefix_app_r; reflexivity|].
      rewrite filter_app, length_app. lia.
    - intros rows now d.
      destruct (insert_registrations rows now d) as [[[]|e] d1] eqn:Hins.
      + apply insert_registrations_ok in Hins as (Hreg & _ & _ & _ & Hlogs).
        cbn [snd]. rewrite Hreg, Hlogs. split; [apply prefix_app_r; reflexivity|].
        rewrite filter_app, !length_app, created_rows_count.
        assert (Hlen : ∀ next, length (new_registrations now next rows) = length rows).
        { clear. induction rows as [|row rows IH]; intros next; [reflexivity|].
          cbn. f_equal. apply IH. }
        rewrite Hlen. lia.
      + apply insert_registrations_error in Hins. subst d1. cbn [snd].
        split; [reflexivity|lia].
    - intros rid s now d. cbn [update_registration_status snd activity_logs
        registrations]. split; [apply prefix_app_r; reflexivity|].
      rewrite length_map, filter_app, length_app. lia.
    - intros rid now d. cbn [delete_registration snd activity_logs registrations].
      split; [apply prefix_app_r; reflexivity|].
      rewrite filter_app, length_app.
      pose proof (length_filter (λ r, reg_id r ≠ rid) (registrations d)). lia. }
  destruct H as [Hprefix Hcount]. split; [exact Hprefix|]. split; [exact Hcount|].
  intros Hempty. rewrite Hempty in Hcount. cbn [length] in Hcount. lia.
Qed.

Lemma session_log_is_append_only_demo :
  activity_logs (db fresh_world) `prefix_of` activity_logs (db after_first_submit) ∧
  (length (registrations (db after_first_submit)) +
   length (filter (λ l, log_action l = "registration_created")
             (activity_logs (db fresh_world))) ≤
   length (registrations (db fresh_world)) +
   length (filter (λ l, log_action l = "registration_created")
             (activity_logs (db after_first_submit))))%nat ∧
  (registrations (db fresh_world) = [] →
     (length (registrations (db after_first_submit)) ≤
      length (filter (λ l, log_action l = "registration_created")
                (activity_logs (db after_first_submit))))%nat).
Proof.
  apply (session_log_is_append_only fresh_world after_first_submit).
  eapply rtc_l; [|apply rtc_refl]. apply session_app_step.
  eapply (step_handleSubmit football demo_coordinator first_selection).
  apply surjective_pairing.
Defined.


(** ** The labels of the header and of the dashboard *)

Lemma getRoleLabel_idempotent (s : string) :
  getRoleLabel (getRoleLabel s) = getRoleLabel s.
Proof.
  destruct (String.eqb_spec s "admin") as [->|H1]; [reflexivity|].
  destruct (String.eqb_spec s "first_year_coordinator") as [->|H2]; [reflexivity|].
  destruct (String.eqb_spec s "second_year_coordinator") as [->|H3]; [reflexivity|].
  destruct (String.eqb_spec s "third_year_coordinator") as [->|H4]; [reflexivity|].
  destruct (String.eqb_spec s "fourth_year_coordinator") as [->|H5]; [reflexivity|].
  assert (Hs : getRoleLabel s = s).
  { unfold getRoleLabel.
    rewrite (proj2 (String.eqb_neq _ _) H1), (proj2 (String.eqb_neq _ _) H2),
      (proj2 (String.eqb_neq _ _) H3), (proj2 (String.eqb_neq _ _) H4),
      (proj2 (String.eqb_neq _ _) H5). reflexivity. }
  rewrite !Hs. reflexivity.
Qed.

(** X29. The labels shown for a role agree. For the admin the dashboard has no
    coordinator year. For a coordinator [getCoordinatorYear] is the label of
    the one year the coordinator's policy admits, not the key of that year,
    and the line under the dashboard's greeting is the role label of the
    header followed by [Dashboard]. Without a profile the header's label is
    empty and the dashboard prints the text [null]. [getRoleLabel] applied
    twice is [getRoleLabel], and [getYearLabel] changes the four year keys
    only. *)
Theorem role_labels_agree (p : Profile) :
  (role p = admin →
     getCoordinatorYear (Some p) = None ∧
     dashboard_subtitle (Some p) = "System Administrator Dashboard" ∧
     header_role_label (Some p) = "Administrator") ∧
  (role p ≠ admin →
     ∃ y, (∀ y', coordinator_policy (role p) y' = true ↔ y' = y) ∧
          getCoordinatorYear (Some p) = Some (getYearLabel (year_label y)) ∧
          getYearLabel (year_label y) ≠ year_label y ∧
          dashboard_subtitle (Some p) =
            header_role_label (Some p) +:+ " Dashboard") ∧
  getCoordinatorYear None = None ∧
  dashboard_subtitle None = "null Coordinator Dashboard" ∧
  header_role_label None = EmptyString ∧
  (∀ s, getRoleLabel (getRoleLabel s) = getRoleLabel s) ∧
  (∀ s, getYearLabel s = s ∨ ∃ y, s = year_label y).
Proof.
  split; [|split; [|split; [|split; [|split; [|split]]]]]; try reflexivity.
  - destruct p as [i r]. cbn. intros ->. repeat split; reflexivity.
  - destruct p as [i r]. cbn [role]. intros Hrole.
    destruct r; [contradiction| | | |];
      [exists first|exists second|exists third|exists fourth];
      (split; [intros []; cbn; split; (discriminate || reflexivity)|]);
      (split; [reflexivity|]); (split; [discriminate|reflexivity]).
  - apply getRoleLabel_idempotent.
  - intros s. unfold getYearLabel.
    destruct (String.eqb_spec s "first") as [->|_]; [right; exists first; reflexivity|].
    destruct (String.eqb_spec s "second") as [->|_];
      [right; exists second; reflexivity|].
    destruct (String.eqb_spec s "third") as [->|_]; [right; exists third; reflexivity|].
    destruct (String.eqb_spec s "fourth") as [->|_];
      [right; exists fourth; reflexivity|].
    left. reflexivity.
Qed.
